(** * llm-observability: the query, aggregation and search layer

    A shallow embedding of the read-only dashboard over the [llm] log
    database: [database.py] with the start-up check of [__main__.py],
    [api/responses.py], [api/search.py], [api/metrics.py], [api/tools.py],
    [api/conversations.py], and the views [views/search.py],
    [views/responses.py] and [views/conversations.py].

    Python values are modelled as follows: [str] is [string] (one [ascii]
    per character), [int] is [Z], [Optional[T]] is [option T], a [dict] with
    string keys is a [gmap string _], an exception is the [Raise] branch of
    [result].  SQLite is an external collaborator: the tables are lists of
    rows, and the statements the endpoints issue are evaluated by the
    functions of [Module Sqlite], which follow the documented semantics of
    the SQL they stand for.  Integers of SQLite have 64 bits; the order of
    rows that compare equal under [ORDER BY] is the choice of the engine
    ([Engine]); [AVG] is kept as the exact quotient where SQLite answers
    with a double. *)

From Stdlib Require Import ZArith QArith String Ascii DecimalString.
From stdpp Require Import base option list gmap strings sorting.

#[local] Set Warnings "-clear-no-such-hyp".
Local Open Scope Z_scope.

(** * Exceptions and the error monad *)

Inductive exn :=
| DatabaseNotFoundError (msg : string)
| InvalidDatabaseError (msg : string)
| Sqlite3DatabaseError (msg : string) (* sqlite3.DatabaseError *)
| OperationalError (msg : string)     (* sqlite3.OperationalError *)
| IntegrityError (msg : string)       (* sqlite3.IntegrityError *)
| ProgrammingError (msg : string)     (* sqlite3.ProgrammingError *)
| OverflowError (msg : string)
| KeyError (key : string)
| HTTPException (status_code : Z) (detail : string).

Inductive result (A : Type) :=
| Ok (a : A)
| Raise (e : exn).
Arguments Ok {A} a.
Arguments Raise {A} e.

#[global] Instance result_ret : MRet result := fun A a => Ok a.
#[global] Instance result_bind : MBind result := fun A B f m =>
  match m with
  | Ok a => f a
  | Raise e => Raise e
  end.

(** Sequencing of statements that may raise. *)
Declare Scope result_scope.
Notation "x ← y ; z" := (mbind (M:=result) (fun x => z) y)
  (at level 20, y at level 100, z at level 200, only parsing) : result_scope.
Notation "' x ← y ; z" := (mbind (M:=result) (fun x => z) y)
  (at level 20, x pattern, y at level 100, z at level 200, only parsing) : result_scope.
Open Scope result_scope.

(** [try: m except Exception: h] *)
Definition try_except {A} (m : result A) (h : result A) : result A :=
  match m with
  | Ok a => Ok a
  | Raise _ => h
  end.

(** * Python built-ins used by the endpoints *)

Module Py.

Definition nl : string := String "010"%char "".

(** [len(s)] *)
Definition len (s : string) : Z := Z.of_nat (String.length s).

(** Truthiness of an [Optional[str]]: [None] and [""] are falsy. *)
Definition truthy (o : option string) : bool :=
  match o with
  | Some (String _ _) => true
  | _ => false
  end.

(** A slice bound [i] of a sequence of length [n]: negative bounds count
    from the end, and every bound is clamped to [0, n]. *)
Definition clamp (n i : Z) : Z :=
  if i <? 0 then Z.max 0 (n + i) else Z.min i n.

(** [s[a:b]] *)
Definition slice (s : string) (a b : Z) : string :=
  let lo := clamp (len s) a in
  let hi := clamp (len s) b in
  String.substring (Z.to_nat lo) (Z.to_nat (hi - lo)) s.

(** [s[:b]] *)
Definition slice_to (s : string) (b : Z) : string := slice s 0 b.

(** [s.find(sub)]: the lowest index at which [sub] occurs, [-1] if none. *)
Definition find (s sub : string) : Z :=
  match String.index 0 sub s with
  | Some i => Z.of_nat i
  | None => -1
  end.

(** [s.replace(old, new)] for a one-character [old], the only form the
    sources use. *)
Fixpoint replace (old : ascii) (new : string) (s : string) : string :=
  match s with
  | EmptyString => EmptyString
  | String c s' =>
      if Ascii.eqb c old then new +:+ replace old new s'
      else String c (replace old new s')
  end.

(** [sep.join(parts)] *)
Fixpoint join (sep : string) (parts : list string) : string :=
  match parts with
  | [] => ""
  | [p] => p
  | p :: ps => p +:+ sep +:+ join sep ps
  end.

(** Insertion into a list that is ordered by [key], in front of the
    elements with an equal key. *)
Fixpoint insert_by {A} (key : A -> Z) (x : A) (l : list A) : list A :=
  match l with
  | [] => [x]
  | y :: l' => if key x <=? key y then x :: l else y :: insert_by key x l'
  end.

(** [sorted(l, key=key)]: stable, ascending. *)
Definition sorted {A} (key : A -> Z) (l : list A) : list A :=
  foldr (insert_by key) [] l.

(** [str.lower] restricted to ASCII letters; the instance of the
    lower-casing function used to run the snippet code on examples. *)
Definition ascii_lower (c : ascii) : ascii :=
  let n := N_of_ascii c in
  if ((65 <=? n) && (n <=? 90))%N then ascii_of_N (n + 32) else c.

Fixpoint lower_ascii (s : string) : string :=
  match s with
  | EmptyString => EmptyString
  | String c s' => String (ascii_lower c) (lower_ascii s')
  end.

End Py.

(** * The log database as SQLite presents it *)

Module Sqlite.

(** A value of a dynamically typed column. *)
Inductive value :=
| Null
| Integer (z : Z)
| Text (s : string)
| Blob (b : list Byte.byte).

#[global] Instance byte_eq_dec : EqDecision Byte.byte := Byte.byte_eq_dec.
#[global] Instance value_eq_dec : EqDecision value.
Proof. solve_decision. Defined.

(** ** Rows of the tables the dashboard reads *)

Record Response := {
  r_id : string;
  r_model : string;
  r_prompt : option string;
  r_system : option string;
  r_response : option string;
  r_conversation_id : option string;
  r_duration_ms : option Z;
  r_datetime_utc : option string;
  r_input_tokens : option Z;
  r_output_tokens : option Z;
}.

Record Conversation := {
  c_id : string;
  c_name : option string;
  c_model : option string;
}.

Record Tool := {
  t_id : Z;
  t_name : string;
  t_description : option string;
  t_input_schema : option string;
  t_plugin : option string;
}.

Record ToolCall := {
  tc_id : Z;
  tc_response_id : string;
  tc_tool_id : Z;
  tc_name : string;
  tc_arguments : option string;
  tc_tool_call_id : option string;
}.

Record ToolResult := {
  tr_id : Z;
  tr_response_id : string;
  tr_tool_id : Z;
  tr_name : string;
  tr_output : option string;
  tr_exception : option string;
  tr_tool_call_id : option string;
}.

(** A row of [prompt_attachments]. *)
Record AttachmentLink := {
  pa_response_id : string;
  pa_attachment_id : string;
  pa_order : Z;
}.

(** The database: every table the dashboard knows is either absent
    ([None]) or present with its rows in rowid order.  Rows of
    [attachments] stay dictionaries, as the endpoint that reads them
    handles them by key.  The full-text index holds no data of its own. *)
Record Db := {
  responses : option (list Response);
  conversations : option (list Conversation);
  tools : option (list Tool);
  tool_calls : option (list ToolCall);
  tool_results : option (list ToolResult);
  prompt_attachments : option (list AttachmentLink);
  attachments : option (list (gmap string value));
  responses_fts : bool;
}.

Definition name_if {A} (name : string) (t : option A) : list string :=
  if t is Some _ then [name] else [].

(** [db.table_names()] *)
Definition table_names (db : Db) : list string :=
  name_if "responses" (responses db) ++
  name_if "conversations" (conversations db) ++
  name_if "tools" (tools db) ++
  name_if "tool_calls" (tool_calls db) ++
  name_if "tool_results" (tool_results db) ++
  name_if "prompt_attachments" (prompt_attachments db) ++
  name_if "attachments" (attachments db) ++
  (if responses_fts db then ["responses_fts"] else []).

(** [name in db.table_names()] *)
Definition has_table (name : string) (db : Db) : bool :=
  bool_decide (name ∈ table_names db).

(** Reading a table in a statement: SQLite fails on a table that does not
    exist. *)
Definition table {A} (name : string) (t : option (list A)) : result (list A) :=
  match t with
  | Some rows => Ok rows
  | None => Raise (OperationalError ("no such table: " +:+ name))
  end.

(** [db[name].count] *)
Definition count {A} (name : string) (t : option (list A)) : result Z :=
  rows ← table name t; Ok (Z.of_nat (length rows)).

(** The rows that [db[name].rows_where(..)] of sqlite-utils reads: the
    method asks first whether the table exists, and yields no row when it
    does not. *)
Definition table_rows {A} (t : option (list A)) : list A := default [] t.

(** ** Integers

    An INTEGER of SQLite has 64 bits. *)
Definition int64 (z : Z) : bool := (- 2 ^ 63 <=? z) && (z <? 2 ^ 63).

(** ** Bound parameters

    The endpoints bind text and integers.  A name that the statement uses
    and the dictionary lacks is an error. *)

Definition unbound {A} (name : string) : result A :=
  Raise (ProgrammingError
           ("You did not supply a value for binding parameter :" +:+ name)).

(** A value bound to [LIMIT] or [OFFSET] must be an integer, and the
    [sqlite3] module binds a Python [int] only when it has 64 bits. *)
Definition integer_param (params : gmap string value) (name : string) : result Z :=
  match params !! name with
  | None => unbound name
  | Some (Integer z) =>
      if int64 z then Ok z
      else Raise (OverflowError "Python int too large to convert to SQLite INTEGER")
  | Some _ => Raise (IntegrityError "datatype mismatch")
  end.

(** A value bound where text is compared or matched: an integer is taken
    by its decimal text, a blob by its bytes, NULL stays NULL. *)
Definition text_param (params : gmap string value) (name : string)
  : result (option string) :=
  match params !! name with
  | None => unbound name
  | Some (Text s) => Ok (Some s)
  | Some (Integer z) => Ok (Some (NilEmpty.string_of_int (Z.to_int z)))
  | Some (Blob b) => Ok (Some (String.string_of_list_byte b))
  | Some Null => Ok None
  end.

(** ** WHERE clauses over [responses]

    A comparison of a column with a named parameter.  [clause_sql] is the
    text the sources write; [bind] and [where_pred] are what SQLite makes
    of it.  A comparison with NULL is not true, so the row is left out. *)

Inductive column := col_model | col_conversation_id | col_datetime_utc.
Inductive relop := op_eq | op_ge | op_le.

Record clause := Clause {
  cl_column : column;
  cl_op : relop;
  cl_param : string;
}.

Definition column_name (c : column) : string :=
  match c with
  | col_model => "model"
  | col_conversation_id => "conversation_id"
  | col_datetime_utc => "datetime_utc"
  end.

Definition relop_sql (o : relop) : string :=
  match o with
  | op_eq => "="
  | op_ge => ">="
  | op_le => "<="
  end.

Definition clause_sql (c : clause) : string :=
  column_name (cl_column c) +:+ " " +:+ relop_sql (cl_op c) +:+ " :" +:+ cl_param c.

Definition column_value (c : column) (r : Response) : option string :=
  match c with
  | col_model => Some (r_model r)
  | col_conversation_id => r_conversation_id r
  | col_datetime_utc => r_datetime_utc r
  end.

(** Comparison of TEXT values under the BINARY collation. *)
Definition compare_text (o : relop) (a b : string) : bool :=
  match o with
  | op_eq => String.eqb a b
  | op_ge => String.leb b a
  | op_le => String.leb a b
  end.

(** Binding the parameter of a clause; a name without a value is an
    error of the statement, whatever the rows. *)
Definition bind (params : gmap string value) (c : clause)
  : result (Response -> bool) :=
  v ← text_param params (cl_param c);
  Ok (fun r =>
        match column_value (cl_column c) r, v with
        | Some x, Some v => compare_text (cl_op c) x v
        | _, _ => false
        end).

(** The conjunction of the clauses. *)
Definition where_pred (clauses : list clause) (params : gmap string value)
  : result (Response -> bool) :=
  preds ← mapM (bind params) clauses;
  Ok (fun r => forallb (fun p : Response -> bool => p r) preds).

(** ** ORDER BY, LIMIT and OFFSET *)

Fixpoint insert_sorted {A} (before : A -> A -> bool) (x : A) (l : list A) : list A :=
  match l with
  | [] => [x]
  | y :: l' => if before x y then x :: l else y :: insert_sorted before x l'
  end.

(** SQLite leaves the order of rows with equal keys open.  The engine
    hands the rows to the sort in an order of its own choice, of which
    the model knows only that no row is lost or added. *)
Class Engine := {
  scan_order : forall A : Type, list A -> list A;
  scan_order_perm : forall (A : Type) (rows : list A), scan_order A rows ≡ₚ rows;
}.

(** The engine that keeps rows with equal keys in table order. *)
Definition table_order : Engine :=
  {| scan_order := fun _ rows => rows;
     scan_order_perm := fun _ rows => Permutation_refl rows |}.

Section Statements.
Context {engine : Engine}.

(** [ORDER BY]: a stable sort of the rows as the engine hands them on;
    [before x y] says that [x] may stand in front of [y]. *)
Definition order_by {A} (before : A -> A -> bool) (rows : list A) : list A :=
  foldr (insert_sorted before) [] (scan_order A rows).

(** [a] may stand in front of [b] under [ORDER BY ... DESC]: NULL is the
    smallest value and comes last. *)
Definition desc (a b : option string) : bool :=
  match a, b with
  | _, None => true
  | None, Some _ => false
  | Some x, Some y => String.leb y x
  end.

Definition datetime_desc (a b : Response) : bool :=
  desc (r_datetime_utc a) (r_datetime_utc b).

(** [LIMIT limit OFFSET offset]: a negative limit is no limit, a negative
    offset is no offset. *)
Definition limit_offset {A} (limit offset : Z) (rows : list A) : list A :=
  let rows := drop (Z.to_nat offset) rows in
  if limit <? 0 then rows else take (Z.to_nat limit) rows.

(** [SELECT COUNT( * ) FROM responses WHERE clauses] *)
Definition count_where (db : Db) (clauses : list clause)
    (params : gmap string value) : result Z :=
  rows ← table "responses" (responses db);
  p ← where_pred clauses params;
  Ok (Z.of_nat (length (filter (fun r => p r = true) rows))).

(** [db["responses"].rows_where(where, where_args, order_by="datetime_utc
    desc", limit, offset)] of sqlite-utils: no rows when the table does not
    exist; otherwise a statement with [limit] and [offset] written into its
    text, which SQLite refuses when one of them is no 64-bit integer. *)
Definition rows_where (db : Db) (where_ : option (list clause))
    (where_args : gmap string value) (limit offset : Z)
  : result (list Response) :=
  match responses db with
  | None => Ok []
  | Some rows =>
      p ← where_pred (default [] where_) where_args;
      if int64 limit && int64 offset then
        Ok (limit_offset limit offset
              (order_by datetime_desc (filter (fun r => p r = true) rows)))
      else Raise (IntegrityError "datatype mismatch")
  end.

(** ** The LIKE operator

    [%] matches any run of characters, [_] any one character, the escape
    character makes the character after it literal, and a pattern that
    ends in the escape character matches nothing.  Letters of the ASCII
    range match without regard to case. *)

Definition tolower (c : ascii) : ascii :=
  let n := N_of_ascii c in
  if ((65 <=? n) && (n <=? 90))%N then ascii_of_N (n + 32) else c.

Definition char_eq_nocase (a b : ascii) : bool :=
  Ascii.eqb a b || Ascii.eqb (tolower a) (tolower b).

Fixpoint like (escape : ascii) (pattern text : string) {struct pattern} : bool :=
  match pattern with
  | EmptyString => if text is EmptyString then true else false
  | String c p =>
      if Ascii.eqb c "%" then
        (fix skip (t : string) : bool :=
           like escape p t ||
           match t with
           | EmptyString => false
           | String _ t' => skip t'
           end) text
      else if Ascii.eqb c escape then
        match p with
        | EmptyString => false
        | String c' p' =>
            match text with
            | EmptyString => false
            | String x t' => char_eq_nocase c' x && like escape p' t'
            end
        end
      else
        match text with
        | EmptyString => false
        | String x t' => (Ascii.eqb c "_" || char_eq_nocase c x) && like escape p t'
        end
  end.

(** [column LIKE :pattern ESCAPE '\'] on a nullable column: NULL on
    either side is not a match. *)
Definition like_column (pattern : option string) (x : option string) : bool :=
  match pattern, x with
  | Some p, Some s => like "\" p s
  | _, _ => false
  end.

(** [WHERE prompt LIKE :pattern ESCAPE '\' OR response LIKE :pattern ESCAPE '\'] *)
Definition like_where (pattern : option string) (r : Response) : bool :=
  like_column pattern (r_prompt r) || like_column pattern (r_response r).

(** SQLite refuses a pattern of more than 50000 bytes
    (SQLITE_MAX_LIKE_PATTERN_LENGTH) when it evaluates the operator, which
    it does from the first row of the scan on; over an empty table the
    operator is not evaluated.  In the strings of the model a character
    is a byte. *)
Definition like_pattern_max : Z := 50000.

Definition like_accepts (pattern : string) : bool :=
  Z.of_nat (String.length pattern) <=? like_pattern_max.

Definition like_check (pattern : option string) (rows : list Response)
  : result unit :=
  match pattern, rows with
  | Some p, _ :: _ =>
      if like_accepts p then Ok tt
      else Raise (OperationalError "LIKE or GLOB pattern too complex")
  | _, _ => Ok tt
  end.

(** The count statement of the fallback search. *)
Definition count_like (db : Db) (params : gmap string value) : result Z :=
  rows ← table "responses" (responses db);
  pattern ← text_param params "pattern";
  _ ← like_check pattern rows;
  Ok (Z.of_nat (length (filter (fun r => like_where pattern r = true) rows))).

(** The page statement of the fallback search. *)
Definition rows_like (db : Db) (params : gmap string value)
  : result (list Response) :=
  rows ← table "responses" (responses db);
  pattern ← text_param params "pattern";
  limit ← integer_param params "limit";
  offset ← integer_param params "offset";
  _ ← like_check pattern rows;
  Ok (limit_offset limit offset
        (order_by datetime_desc
           (filter (fun r => like_where pattern r = true) rows))).

(** ** Aggregates *)

Definition non_null {A} (vals : list (option A)) : list A := omap id vals.

Definition sum_z (xs : list Z) : Z := foldr Z.add 0 xs.

(** The sum that [SUM] keeps while it steps through the rows: a 64-bit
    integer, lost as soon as an addition leaves the range. *)
Fixpoint sum_int64 (acc : Z) (xs : list Z) : option Z :=
  match xs with
  | [] => Some acc
  | x :: xs' => if int64 (acc + x) then sum_int64 (acc + x) xs' else None
  end.

(** [SUM(x)]: NULL when no value is non-NULL, and an error when the sum
    overflowed on the way. *)
Definition sql_sum (vals : list (option Z)) : result (option Z) :=
  match non_null vals with
  | [] => Ok None
  | xs =>
      match sum_int64 0 xs with
      | Some total => Ok (Some total)
      | None => Raise (OperationalError "integer overflow")
      end
  end.

(** [AVG(x)]: the mean of the non-NULL values, NULL when there is none.
    SQLite answers with the nearest double; the model keeps the exact
    quotient. *)
Definition sql_avg (vals : list (option Z)) : option Q :=
  match non_null vals with
  | [] => None
  | xs => Some (Qmake (sum_z xs) (Pos.of_nat (length xs)))
  end.

(** [COALESCE(x, 0)] *)
Definition coalesce0 (x : option Z) : Z := default 0 x.

(** [COUNT(DISTINCT x)] *)
Definition count_distinct (vals : list string) : Z :=
  Z.of_nat (length (remove_dups vals)).

(** The one row of the summary statement of [get_metrics_summary]. *)
Record totals := {
  n_responses : Z;
  sum_input_tokens : Z;
  sum_output_tokens : Z;
  mean_duration_ms : option Q;
  mean_input_tokens : option Q;
  mean_output_tokens : option Q;
  n_models : Z;
}.

Definition aggregate (rows : list Response) : result totals :=
  input_sum ← sql_sum (r_input_tokens <$> rows);
  output_sum ← sql_sum (r_output_tokens <$> rows);
  Ok {| n_responses := Z.of_nat (length rows);
        sum_input_tokens := coalesce0 input_sum;
        sum_output_tokens := coalesce0 output_sum;
        mean_duration_ms := sql_avg (r_duration_ms <$> rows);
        mean_input_tokens := sql_avg (r_input_tokens <$> rows);
        mean_output_tokens := sql_avg (r_output_tokens <$> rows);
        n_models := count_distinct (r_model <$> rows) |}.

(** [SELECT COUNT( * ), COALESCE(SUM(..), 0), .., COUNT(DISTINCT model)
    FROM responses WHERE 1=1 date_filter] *)
Definition select_totals (db : Db) (date_filter : list clause)
    (params : gmap string value) : result totals :=
  rows ← table "responses" (responses db);
  p ← where_pred date_filter params;
  aggregate (filter (fun r => p r = true) rows).

(** [SELECT COUNT( * ) FROM tool_results WHERE exception IS NOT NULL] *)
Definition count_tool_errors (db : Db) : result Z :=
  rows ← table "tool_results" (tool_results db);
  Ok (Z.of_nat (length (filter (fun r => is_Some (tr_exception r)) rows))).

(** [duration_ms >= low] or [duration_ms >= low AND duration_ms < high] *)
Definition in_bucket (low : Z) (high : option Z) (d : Z) : bool :=
  match high with
  | None => low <=? d
  | Some h => (low <=? d) && (d <? h)
  end.

(** [duration_ms IS NOT NULL AND bucket_filter] *)
Definition duration_in (low : Z) (high : option Z) (r : Response) : bool :=
  match r_duration_ms r with
  | Some d => in_bucket low high d
  | None => false
  end.

(** [SELECT COUNT( * ) FROM responses
    WHERE duration_ms IS NOT NULL AND bucket_filter date_filter] *)
Definition count_latency (db : Db) (low : Z) (high : option Z)
    (date_filter : list clause) (params : gmap string value) : result Z :=
  rows ← table "responses" (responses db);
  p ← where_pred date_filter params;
  Ok (Z.of_nat (length (filter (fun r => duration_in low high r && p r = true) rows))).

(** The groups of [GROUP BY key], in ascending order of the key. *)
Definition group_by {A K} `{EqDecision K} (key : A -> K) (before : K -> K -> bool)
    (rows : list A) : list (K * list A) :=
  (fun k => (k, filter (fun r => key r = k) rows)) <$>
    order_by before (remove_dups (key <$> rows)).

(** One row of the per-model statement. *)
Record model_totals := {
  mt_model : string;
  mt_response_count : Z;
  mt_input_tokens : Z;
  mt_output_tokens : Z;
  mt_avg_duration_ms : option Q;
}.

(** The aggregates of one group of the per-model statement. *)
Definition totals_of_model (g : string * list Response) : result model_totals :=
  input_sum ← sql_sum (r_input_tokens <$> g.2);
  output_sum ← sql_sum (r_output_tokens <$> g.2);
  Ok {| mt_model := g.1;
        mt_response_count := Z.of_nat (length g.2);
        mt_input_tokens := coalesce0 input_sum;
        mt_output_tokens := coalesce0 output_sum;
        mt_avg_duration_ms := sql_avg (r_duration_ms <$> g.2) |}.

Definition by_response_count_desc (a b : model_totals) : bool :=
  mt_response_count b <=? mt_response_count a.

(** [SELECT model, COUNT( * ), .. FROM responses WHERE 1=1 date_filter
    GROUP BY model ORDER BY response_count DESC LIMIT :limit] *)
Definition select_by_model (db : Db) (date_filter : list clause)
    (params : gmap string value) : result (list model_totals) :=
  rows ← table "responses" (responses db);
  p ← where_pred date_filter params;
  limit ← integer_param params "limit";
  groups ← mapM totals_of_model
              (group_by r_model String.leb (filter (fun r => p r = true) rows));
  Ok (limit_offset limit 0 (order_by by_response_count_desc groups)).

(** [a] may stand in front of [b] under [ORDER BY ... ASC]: NULL first. *)
Definition asc (a b : option string) : bool := desc b a.

(** [SELECT strftime(format, datetime_utc) AS date, value FROM responses
    WHERE datetime_utc IS NOT NULL date_filter GROUP BY date ORDER BY
    date], for an aggregate [value] of the group.  [strftime] is the date
    function of SQLite; it answers NULL on text it cannot read as a
    date. *)
Definition select_series (strftime : string -> string -> option string)
    (value_of : list Response -> result Z) (db : Db) (date_format : string)
    (date_filter : list clause) (params : gmap string value)
  : result (list (option string * Z)) :=
  rows ← table "responses" (responses db);
  p ← where_pred date_filter params;
  let dated :=
    filter (fun r => is_Some (r_datetime_utc r) /\ p r = true) rows in
  let bucket (r : Response) : option string :=
    r_datetime_utc r ≫= strftime date_format in
  mapM (fun g : option string * list Response =>
          v ← value_of g.2; Ok (g.1, v))
       (group_by bucket asc dated).

(** ** Statements over the tool tables *)

(** One row of the statements of [list_tools]. *)
Record tool_stats := {
  ts_tool : Tool;
  ts_call_count : Z;
  ts_result_count : Z;
  ts_error_count : Z;
}.

(** [COALESCE(tc.call_count, 0)] of the join with the calls grouped by
    [tool_id]. *)
Definition call_count_of (calls : list ToolCall) (t : Tool) : Z :=
  Z.of_nat (length (filter (fun c => tc_tool_id c = t_id t) calls)).

Definition result_count_of (results : list ToolResult) (t : Tool) : Z :=
  Z.of_nat (length (filter (fun r => tr_tool_id r = t_id t) results)).

Definition error_count_of (results : list ToolResult) (t : Tool) : Z :=
  Z.of_nat (length (filter (fun r => tr_tool_id r = t_id t /\ is_Some (tr_exception r))
                           results)).

Definition by_call_count_desc (a b : tool_stats) : bool :=
  ts_call_count b <=? ts_call_count a.

(** The statement with both joins. *)
Definition select_tools_calls_results (db : Db) : result (list tool_stats) :=
  ts ← table "tools" (tools db);
  calls ← table "tool_calls" (tool_calls db);
  results ← table "tool_results" (tool_results db);
  Ok (order_by by_call_count_desc
        ((fun t => {| ts_tool := t;
                      ts_call_count := call_count_of calls t;
                      ts_result_count := result_count_of results t;
                      ts_error_count := error_count_of results t |}) <$> ts)).

(** The statement that joins the calls only. *)
Definition select_tools_calls (db : Db) : result (list tool_stats) :=
  ts ← table "tools" (tools db);
  calls ← table "tool_calls" (tool_calls db);
  Ok (order_by by_call_count_desc
        ((fun t => {| ts_tool := t;
                      ts_call_count := call_count_of calls t;
                      ts_result_count := 0;
                      ts_error_count := 0 |}) <$> ts)).

(** The statement over [tools] alone. *)
Definition select_tools (db : Db) : result (list tool_stats) :=
  ts ← table "tools" (tools db);
  Ok ((fun t => {| ts_tool := t;
                   ts_call_count := 0;
                   ts_result_count := 0;
                   ts_error_count := 0 |}) <$> ts).

(** ** Joins with [responses] *)

(** [LEFT JOIN responses r ON x.response_id = r.id] for one left row: a
    joined row for every response with the id, and one without a response
    when there is none. *)
Definition left_join {A B} (matches : A -> B -> bool) (rights : list B) (x : A)
  : list (A * option B) :=
  match filter (fun r => matches x r = true) rights with
  | [] => [(x, None)]
  | rs => (fun r => (x, Some r)) <$> rs
  end.

(** [r.datetime_utc] of a joined row. *)
Definition joined_datetime {A} (j : A * option Response) : option string :=
  j.2 ≫= r_datetime_utc.

Definition joined_desc {A} (a b : A * option Response) : bool :=
  desc (joined_datetime a) (joined_datetime b).

(** [SELECT tc.id, .., r.datetime_utc FROM tool_calls tc LEFT JOIN responses r
    ON tc.response_id = r.id WHERE tc.tool_id = :tool_id
    ORDER BY r.datetime_utc DESC LIMIT :limit OFFSET :offset] *)
Definition select_tool_calls (db : Db) (params : gmap string value)
  : result (list (ToolCall * option Response)) :=
  calls ← table "tool_calls" (tool_calls db);
  rs ← table "responses" (responses db);
  tool_id ← integer_param params "tool_id";
  limit ← integer_param params "limit";
  offset ← integer_param params "offset";
  Ok (limit_offset limit offset
        (order_by joined_desc
           (filter (fun c => tc_tool_id c = tool_id) calls ≫=
              left_join (fun c r => String.eqb (tc_response_id c) (r_id r)) rs))).

(** [SELECT COUNT( * ) FROM tool_calls WHERE tool_id = ?] *)
Definition count_tool_calls (db : Db) (tool_id : Z) : result Z :=
  calls ← table "tool_calls" (tool_calls db);
  Ok (Z.of_nat (length (filter (fun c => tc_tool_id c = tool_id) calls))).

(** [tr.tool_id = :tool_id], with [AND tr.exception IS NOT NULL] when only
    the errors are asked for. *)
Definition result_selected (tool_id : Z) (errors_only : bool) (t : ToolResult) : bool :=
  bool_decide (tr_tool_id t = tool_id) &&
  (if errors_only then bool_decide (is_Some (tr_exception t)) else true).

(** The page statement of [get_tool_results]. *)
Definition select_tool_results (db : Db) (errors_only : bool)
    (params : gmap string value) : result (list (ToolResult * option Response)) :=
  results ← table "tool_results" (tool_results db);
  rs ← table "responses" (responses db);
  tool_id ← integer_param params "tool_id";
  limit ← integer_param params "limit";
  offset ← integer_param params "offset";
  Ok (limit_offset limit offset
        (order_by joined_desc
           (filter (fun t => result_selected tool_id errors_only t = true) results ≫=
              left_join (fun t r => String.eqb (tr_response_id t) (r_id r)) rs))).

(** The count statement of [get_tool_results]. *)
Definition count_tool_results (db : Db) (errors_only : bool) (tool_id : Z) : result Z :=
  results ← table "tool_results" (tool_results db);
  Ok (Z.of_nat (length (filter (fun t => result_selected tool_id errors_only t = true)
                               results))).

(** ** Conversations with their responses *)

(** [MIN(x)] and [MAX(x)] over text: the least and the greatest of the
    non-NULL values, NULL when there is none. *)
Definition sql_min (vals : list (option string)) : option string :=
  foldr (fun v acc =>
           match v, acc with
           | Some x, Some y => Some (if String.leb x y then x else y)
           | Some x, None => Some x
           | None, _ => acc
           end) None vals.

Definition sql_max (vals : list (option string)) : option string :=
  foldr (fun v acc =>
           match v, acc with
           | Some x, Some y => Some (if String.leb x y then y else x)
           | Some x, None => Some x
           | None, _ => acc
           end) None vals.

(** [c.id = r.conversation_id] *)
Definition in_conversation (conversation_id : string) (r : Response) : bool :=
  bool_decide (r_conversation_id r = Some conversation_id).

(** One row of the statement of [list_conversations]. *)
Record conversation_stats := {
  cs_id : string;
  cs_name : option string;
  cs_model : option string;
  cs_response_count : Z;
  cs_first_response : option string;
  cs_last_response : option string;
  cs_total_input_tokens : Z;
  cs_total_output_tokens : Z;
}.

(** The aggregates of one group of [GROUP BY c.id]; the columns of the
    conversation are those of the first row of the group. *)
Definition stats_of_group (g : string * list (Conversation * option Response))
  : result conversation_stats :=
  let joined := omap snd g.2 in
  input_sum ← sql_sum (r_input_tokens <$> joined);
  output_sum ← sql_sum (r_output_tokens <$> joined);
  Ok {| cs_id := g.1;
        cs_name := head g.2 ≫= (fun j => c_name j.1);
        cs_model := head g.2 ≫= (fun j => c_model j.1);
        cs_response_count := Z.of_nat (length joined);
        cs_first_response := sql_min (r_datetime_utc <$> joined);
        cs_last_response := sql_max (r_datetime_utc <$> joined);
        cs_total_input_tokens := coalesce0 input_sum;
        cs_total_output_tokens := coalesce0 output_sum |}.

Definition last_response_desc (a b : conversation_stats) : bool :=
  desc (cs_last_response a) (cs_last_response b).

(** [SELECT c.id, c.name, c.model, COUNT(r.id), MIN(r.datetime_utc),
    MAX(r.datetime_utc), COALESCE(SUM(r.input_tokens), 0),
    COALESCE(SUM(r.output_tokens), 0) FROM conversations c
    LEFT JOIN responses r ON c.id = r.conversation_id GROUP BY c.id
    ORDER BY last_response DESC NULLS LAST LIMIT :limit OFFSET :offset] *)
Definition select_conversations (db : Db) (params : gmap string value)
  : result (list conversation_stats) :=
  cs ← table "conversations" (conversations db);
  rs ← table "responses" (responses db);
  limit ← integer_param params "limit";
  offset ← integer_param params "offset";
  stats ← mapM stats_of_group
             (group_by (fun j : Conversation * option Response => c_id j.1) String.leb
                (cs ≫= left_join (fun c r => in_conversation (c_id c) r) rs));
  Ok (limit_offset limit offset (order_by last_response_desc stats)).

(** [db["conversations"].rows_where("id = ?", [conversation_id])] *)
Definition conversations_with_id (db : Db) (conversation_id : string)
  : list Conversation :=
  filter (fun c => c_id c = conversation_id) (table_rows (conversations db)).

Definition datetime_asc (a b : Response) : bool :=
  asc (r_datetime_utc a) (r_datetime_utc b).

(** [db["responses"].rows_where("conversation_id = ?", [conversation_id],
    order_by="datetime_utc")] *)
Definition responses_of_conversation (db : Db) (conversation_id : string)
  : list Response :=
  order_by datetime_asc
    (filter (fun r => in_conversation conversation_id r = true)
            (table_rows (responses db))).

(** [SELECT DISTINCT model FROM responses ORDER BY model] *)
Definition distinct_models (db : Db) : result (list string) :=
  rs ← table "responses" (responses db);
  Ok (order_by String.leb (remove_dups (r_model <$> rs))).

End Statements.

End Sqlite.

(** * The filter idiom of the endpoints *)

Module Filters.
Import Sqlite.

(** [if v: clauses.append(clause); params[name] = v], where the clause
    names the parameter it reads. *)
Definition add_filter (c : clause) (v : option string)
    (st : list clause * gmap string value) : list clause * gmap string value :=
  match v with
  | Some (String _ _ as s) => (st.1 ++ [c], <[cl_param c := Text s]> (st.2))
  | _ => st
  end.

End Filters.

(** * api/responses.py *)

Module Responses.
Import Sqlite.

Section Endpoints.
Context {engine : Engine}.

Record ResponseSummary := {
  id : string;
  model : string;
  prompt : option string;
  response : option string;
  conversation_id : option string;
  duration_ms : option Z;
  datetime_utc : option string;
  input_tokens : option Z;
  output_tokens : option Z;
}.

(** [ResponseSummary( **row )]: the columns the model does not declare are
    dropped. *)
Definition summary_of_row (row : Response) : ResponseSummary :=
  {| id := r_id row;
     model := r_model row;
     prompt := r_prompt row;
     response := r_response row;
     conversation_id := r_conversation_id row;
     duration_ms := r_duration_ms row;
     datetime_utc := r_datetime_utc row;
     input_tokens := r_input_tokens row;
     output_tokens := r_output_tokens row |}.

Record ResponseListResponse := {
  items : list ResponseSummary;
  total : Z;
  limit : Z;
  offset : Z;
}.

(** The block under [# Build query]. *)
Definition build_query (model conversation_id start_date end_date : option string)
  : list clause * gmap string value :=
  let st := ([], ∅) in
  let st := Filters.add_filter (Clause col_model op_eq "model") model st in
  let st := Filters.add_filter (Clause col_conversation_id op_eq "conversation_id")
              conversation_id st in
  let st := Filters.add_filter (Clause col_datetime_utc op_ge "start_date") start_date st in
  let st := Filters.add_filter (Clause col_datetime_utc op_le "end_date") end_date st in
  st.

(** [" AND ".join(where_clauses) if where_clauses else None] *)
Definition join_where (where_clauses : list clause) : option (list clause) :=
  if where_clauses is [] then None else Some where_clauses.

Definition where_sql (where_clauses : list clause) : string :=
  Py.join " AND " (clause_sql <$> where_clauses).

(** The text of the count statement. *)
Definition count_sql (where_clauses : list clause) : string :=
  "SELECT COUNT(*) FROM responses WHERE " +:+ where_sql where_clauses.

Definition list_responses (db : Db) (limit offset : Z)
    (model conversation_id start_date end_date : option string)
  : result ResponseListResponse :=
  if negb (has_table "responses" db) then
    Ok {| items := []; total := 0; limit := limit; offset := offset |}
  else
    let built := build_query model conversation_id start_date end_date in
    let where_clauses := built.1 in
    let params := built.2 in
    let where_ := join_where where_clauses in
    total ← match where_ with
            | Some w => count_where db w params
            | None => count "responses" (responses db)
            end;
    rows ← rows_where db where_ params limit offset;
    let items := summary_of_row <$> rows in
    Ok {| items := items; total := total; limit := limit; offset := offset |}.

Record ToolCallResponse := {
  tcr_id : Z;
  tcr_name : string;
  tcr_arguments : option string;
  tcr_tool_call_id : option string;
}.

Record ToolResultResponse := {
  trr_id : Z;
  trr_name : string;
  trr_output : option string;
  trr_exception : option string;
  trr_tool_call_id : option string;
}.

Record ResponseDetail := {
  summary : ResponseSummary;
  system : option string;
  tool_calls : list ToolCallResponse;
  tool_results : list ToolResultResponse;
}.

(** [ToolCallResponse( **row )] *)
Definition tool_call_of_row (row : ToolCall) : ToolCallResponse :=
  {| tcr_id := tc_id row;
     tcr_name := tc_name row;
     tcr_arguments := tc_arguments row;
     tcr_tool_call_id := tc_tool_call_id row |}.

(** [ToolResultResponse( **row )] *)
Definition tool_result_of_row (row : ToolResult) : ToolResultResponse :=
  {| trr_id := tr_id row;
     trr_name := tr_name row;
     trr_output := tr_output row;
     trr_exception := tr_exception row;
     trr_tool_call_id := tr_tool_call_id row |}.

Definition get_response (db : Db) (response_id : string) : result ResponseDetail :=
  let rows := filter (fun r => r_id r = response_id) (table_rows (responses db)) in
  match rows with
  | [] => Raise (HTTPException 404 "Response not found")
  | response :: _ =>
      let tool_calls :=
        if has_table "tool_calls" db then
          let tool_call_rows :=
            filter (fun c => tc_response_id c = response_id)
                   (table_rows (Sqlite.tool_calls db)) in
          tool_call_of_row <$> tool_call_rows
        else [] in
      let tool_results :=
        if has_table "tool_results" db then
          let tool_result_rows :=
            filter (fun r => tr_response_id r = response_id)
                   (table_rows (Sqlite.tool_results db)) in
          tool_result_of_row <$> tool_result_rows
        else [] in
      Ok {| summary := summary_of_row response;
            system := r_system response;
            tool_calls := tool_calls;
            tool_results := tool_results |}
  end.

(** [x.get("order", 0)] *)
Definition order_key (x : gmap string value) : Z :=
  match x !! "order" with
  | Some (Integer z) => z
  | _ => 0
  end.

(** The body of the loop over [attachment_links]: the attachment of one
    link, without its content and with the order of the link, or nothing
    when no attachment has the id. *)
Definition attachment_of_link (rows : list (gmap string value))
    (link : AttachmentLink) : option (gmap string value) :=
  match filter (fun row => row !! "id" = Some (Text (pa_attachment_id link))) rows with
  | [] => None
  | row :: _ =>
      let att := row in
      let att := delete "content" att in
      let att := <["order" := Integer (pa_order link)]> att in
      Some att
  end.

Definition get_response_attachments (db : Db) (response_id : string)
  : result (list (gmap string value)) :=
  if negb (has_table "prompt_attachments" db) then Ok []
  else
    let attachment_links :=
      filter (fun l => pa_response_id l = response_id)
             (table_rows (prompt_attachments db)) in
    if attachment_links is [] then Ok []
    else
      let attachments :=
        omap (attachment_of_link (table_rows (Sqlite.attachments db)))
             attachment_links in
      Ok (Py.sorted order_key attachments).

End Endpoints.

End Responses.

(** * api/metrics.py *)

Module Metrics.
Import Sqlite.

Section Endpoints.
Context {engine : Engine}.

Record MetricsSummary := {
  total_responses : Z;
  total_conversations : Z;
  total_input_tokens : Z;
  total_output_tokens : Z;
  total_tokens : Z;
  avg_duration_ms : option Q;
  avg_input_tokens : option Q;
  avg_output_tokens : option Q;
  total_tool_calls : Z;
  total_tool_errors : Z;
  unique_models : Z;
}.

(** [MetricsSummary()]: every field at its default. *)
Definition MetricsSummary_default : MetricsSummary :=
  {| total_responses := 0;
     total_conversations := 0;
     total_input_tokens := 0;
     total_output_tokens := 0;
     total_tokens := 0;
     avg_duration_ms := None;
     avg_input_tokens := None;
     avg_output_tokens := None;
     total_tool_calls := 0;
     total_tool_errors := 0;
     unique_models := 0 |}.

Record ModelUsage := {
  model : string;
  response_count : Z;
  input_tokens : Z;
  output_tokens : Z;
  mu_avg_duration_ms : option Q;
}.

Record TimeSeriesPoint := {
  date : string;
  value : Z;
}.

Record LatencyBucket := {
  range : string;
  count : Z;
}.

(** The block under [# Build date filter]: each bound that is given adds
    [" AND datetime_utc >= :start_date"] or [" AND datetime_utc <=
    :end_date"] to the text and its value to the parameters. *)
Definition build_date_filter (params : gmap string Sqlite.value)
    (start_date end_date : option string)
  : list clause * gmap string Sqlite.value :=
  let st := ([], params) in
  let st := Filters.add_filter (Clause col_datetime_utc op_ge "start_date")
              start_date st in
  let st := Filters.add_filter (Clause col_datetime_utc op_le "end_date")
              end_date st in
  st.

Definition date_filter_sql (date_filter : list clause) : string :=
  Py.join "" ((fun c => " AND " +:+ clause_sql c) <$> date_filter).

Definition get_metrics_summary (db : Db) (start_date end_date : option string)
  : result MetricsSummary :=
  if negb (has_table "responses" db) then Ok MetricsSummary_default
  else
    let built := build_date_filter ∅ start_date end_date in
    let date_filter := built.1 in
    let params := built.2 in
    row ← select_totals db date_filter params;
    let total_responses := n_responses row in
    let total_input_tokens := sum_input_tokens row in
    let total_output_tokens := sum_output_tokens row in
    let avg_duration_ms := mean_duration_ms row in
    let avg_input_tokens := mean_input_tokens row in
    let avg_output_tokens := mean_output_tokens row in
    let unique_models := n_models row in
    total_conversations ←
      (if has_table "conversations" db
       then Sqlite.count "conversations" (conversations db) else Ok 0);
    total_tool_calls ←
      (if has_table "tool_calls" db
       then Sqlite.count "tool_calls" (tool_calls db) else Ok 0);
    total_tool_errors ←
      (if has_table "tool_results" db then count_tool_errors db else Ok 0);
    Ok {| total_responses := total_responses;
          total_conversations := total_conversations;
          total_input_tokens := total_input_tokens;
          total_output_tokens := total_output_tokens;
          total_tokens := total_input_tokens + total_output_tokens;
          avg_duration_ms := avg_duration_ms;
          avg_input_tokens := avg_input_tokens;
          avg_output_tokens := avg_output_tokens;
          total_tool_calls := total_tool_calls;
          total_tool_errors := total_tool_errors;
          unique_models := unique_models |}.

Definition get_model_usage (db : Db) (start_date end_date : option string)
    (limit : Z) : result (list ModelUsage) :=
  if negb (has_table "responses" db) then Ok []
  else
    let built :=
      build_date_filter (<["limit" := Integer limit]> ∅) start_date end_date in
    let date_filter := built.1 in
    let params := built.2 in
    rows ← select_by_model db date_filter params;
    let usage : list ModelUsage :=
      (fun row =>
         {| model := mt_model row;
            response_count := mt_response_count row;
            input_tokens := mt_input_tokens row;
            output_tokens := mt_output_tokens row;
            mu_avg_duration_ms := mt_avg_duration_ms row |}) <$> rows in
    Ok usage.

(** [date_formats] *)
Definition date_formats : gmap string string :=
  <["month" := "%Y-%m"]>
    (<["week" := "%Y-%W"]>
       (<["day" := "%Y-%m-%d"]>
          (<["hour" := "%Y-%m-%d %H:00"]> ∅))).

(** [date_formats[granularity]] *)
Definition date_format_of (granularity : string) : result string :=
  match date_formats !! granularity with
  | Some f => Ok f
  | None => Raise (KeyError granularity)
  end.

(** [[TimeSeriesPoint(date=row[0], value=row[1]) for row in rows if row[0]]] *)
Definition points (rows : list (option string * Z)) : list TimeSeriesPoint :=
  omap (fun row : option string * Z =>
          match row.1 with
          | Some (String _ _ as d) => Some {| date := d; value := row.2 |}
          | _ => None
          end) rows.

(** [COUNT( * )] *)
Definition count_of (rows : list Response) : result Z := Ok (Z.of_nat (length rows)).

Section TimeSeries.
(** [strftime] of SQLite. *)
Variable strftime : string -> string -> option string.

(** The sum of two integers when it has no 64 bits: SQLite goes over to
    floating point, and [real_add] is the integer that the response model
    reads from the double. *)
Variable real_add : Z -> Z -> Z.

(** [a + b] of SQLite on integers. *)
Definition sql_add (a b : Z) : Z :=
  if int64 (a + b) then a + b else real_add a b.

(** [COALESCE(SUM(input_tokens), 0) + COALESCE(SUM(output_tokens), 0)] *)
Definition tokens_of (rows : list Response) : result Z :=
  input_sum ← sql_sum (r_input_tokens <$> rows);
  output_sum ← sql_sum (r_output_tokens <$> rows);
  Ok (sql_add (coalesce0 input_sum) (coalesce0 output_sum)).

Definition get_token_usage_over_time (db : Db)
    (start_date end_date : option string) (granularity : string)
  : result (list TimeSeriesPoint) :=
  if negb (has_table "responses" db) then Ok []
  else
    date_format ← date_format_of granularity;
    let built := build_date_filter ∅ start_date end_date in
    let date_filter := built.1 in
    let params := built.2 in
    rows ← select_series strftime tokens_of db date_format date_filter params;
    Ok (points rows).

Definition get_responses_over_time (db : Db)
    (start_date end_date : option string) (granularity : string)
  : result (list TimeSeriesPoint) :=
  if negb (has_table "responses" db) then Ok []
  else
    date_format ← date_format_of granularity;
    let built := build_date_filter ∅ start_date end_date in
    let date_filter := built.1 in
    let params := built.2 in
    rows ← select_series strftime count_of db date_format date_filter params;
    Ok (points rows).
End TimeSeries.

(** [buckets], in milliseconds. *)
Definition buckets : list (Z * option Z * string) :=
  [ (0, Some 100, "0-100ms");
    (100, Some 500, "100-500ms");
    (500, Some 1000, "500ms-1s");
    (1000, Some 2000, "1-2s");
    (2000, Some 5000, "2-5s");
    (5000, Some 10000, "5-10s");
    (10000, Some 30000, "10-30s");
    (30000, Some 60000, "30-60s");
    (60000, None, "60s+") ].

Definition get_latency_distribution (db : Db) (start_date end_date : option string)
  : result (list LatencyBucket) :=
  if negb (has_table "responses" db) then Ok []
  else
    let built := build_date_filter ∅ start_date end_date in
    let date_filter := built.1 in
    let params := built.2 in
    mapM (fun b : Z * option Z * string =>
            let '(low, high, label) := b in
            n ← count_latency db low high date_filter params;
            Ok {| range := label; count := n |})
         buckets.

End Endpoints.

End Metrics.

(** * api/tools.py *)

Module Tools.
Import Sqlite.

Section Endpoints.
Context {engine : Engine}.

Record ToolDefinition := {
  id : Z;
  name : string;
  description : option string;
  input_schema : option string;
  plugin : option string;
  call_count : Z;
  result_count : Z;
  error_count : Z;
}.

Record ToolListResponse := {
  items : list ToolDefinition;
  total : Z;
}.

(** [ToolDefinition( **dict(zip(columns, row)) )] *)
Definition definition_of_row (row : tool_stats) : ToolDefinition :=
  {| id := t_id (ts_tool row);
     name := t_name (ts_tool row);
     description := t_description (ts_tool row);
     input_schema := t_input_schema (ts_tool row);
     plugin := t_plugin (ts_tool row);
     call_count := ts_call_count row;
     result_count := ts_result_count row;
     error_count := ts_error_count row |}.

Definition list_tools (db : Db) : result ToolListResponse :=
  if negb (has_table "tools" db) then Ok {| items := []; total := 0 |}
  else
    let has_tool_calls := has_table "tool_calls" db in
    let has_tool_results := has_table "tool_results" db in
    rows ←
      (if has_tool_calls && has_tool_results then select_tools_calls_results db
       else if has_tool_calls then select_tools_calls db
       else select_tools db);
    let items : list ToolDefinition := definition_of_row <$> rows in
    Ok {| items := items; total := Z.of_nat (length items) |}.

Record ToolCallDetail := {
  tcd_id : Z;
  tcd_response_id : string;
  tcd_tool_id : Z;
  tcd_name : string;
  tcd_arguments : option string;
  tcd_tool_call_id : option string;
  tcd_datetime_utc : option string;
}.

Record ToolResultDetail := {
  trd_id : Z;
  trd_response_id : string;
  trd_tool_id : Z;
  trd_name : string;
  trd_output : option string;
  trd_exception : option string;
  trd_tool_call_id : option string;
  trd_datetime_utc : option string;
}.

(** The dictionary that [get_tool_calls] and [get_tool_results] return:
    the keys [limit] and [offset] are there only when the table is. *)
Record listing (A : Type) := {
  l_items : list A;
  l_total : Z;
  l_limit : option Z;
  l_offset : option Z;
}.

Definition call_detail (row : ToolCall * option Response) : ToolCallDetail :=
  {| tcd_id := tc_id row.1;
     tcd_response_id := tc_response_id row.1;
     tcd_tool_id := tc_tool_id row.1;
     tcd_name := tc_name row.1;
     tcd_arguments := tc_arguments row.1;
     tcd_tool_call_id := tc_tool_call_id row.1;
     tcd_datetime_utc := joined_datetime row |}.

Definition result_detail (row : ToolResult * option Response) : ToolResultDetail :=
  {| trd_id := tr_id row.1;
     trd_response_id := tr_response_id row.1;
     trd_tool_id := tr_tool_id row.1;
     trd_name := tr_name row.1;
     trd_output := tr_output row.1;
     trd_exception := tr_exception row.1;
     trd_tool_call_id := tr_tool_call_id row.1;
     trd_datetime_utc := joined_datetime row |}.

Definition get_tool_calls (db : Db) (tool_id limit offset : Z)
  : result (listing ToolCallDetail) :=
  if negb (has_table "tool_calls" db) then
    Ok {| l_items := []; l_total := 0; l_limit := None; l_offset := None |}
  else
    rows ← select_tool_calls db
             (<["offset" := Integer offset]>
                (<["limit" := Integer limit]>
                   (<["tool_id" := Integer tool_id]> ∅)));
    let items : list ToolCallDetail := call_detail <$> rows in
    total ← count_tool_calls db tool_id;
    Ok {| l_items := items; l_total := total;
          l_limit := Some limit; l_offset := Some offset |}.

Definition get_tool_results (db : Db) (tool_id limit offset : Z) (errors_only : bool)
  : result (listing ToolResultDetail) :=
  if negb (has_table "tool_results" db) then
    Ok {| l_items := []; l_total := 0; l_limit := None; l_offset := None |}
  else
    rows ← select_tool_results db errors_only
             (<["offset" := Integer offset]>
                (<["limit" := Integer limit]>
                   (<["tool_id" := Integer tool_id]> ∅)));
    let items : list ToolResultDetail := result_detail <$> rows in
    total ← count_tool_results db errors_only tool_id;
    Ok {| l_items := items; l_total := total;
          l_limit := Some limit; l_offset := Some offset |}.

End Endpoints.

Arguments l_items {A} _.
Arguments l_total {A} _.
Arguments l_limit {A} _.
Arguments l_offset {A} _.

End Tools.

(** * api/search.py *)

Module Search.
Import Sqlite.

Record SearchResult := {
  id : string;
  model : string;
  prompt : option string;
  response : option string;
  datetime_utc : option string;
  conversation_id : option string;
  prompt_snippet : option string;
  response_snippet : option string;
}.

Record SearchResponse := {
  query : string;
  results : list SearchResult;
  total : Z;
  limit : Z;
  offset : Z;
}.

Definition dquote : string := String "034"%char "".

(** The statements of [_search_fts], with the escaped query written into
    their text. *)
Definition fts_count_query (safe_query : string) : string :=
  Py.join Py.nl
    [ "";
      "        SELECT COUNT(*) FROM responses_fts";
      "        WHERE responses_fts MATCH '" +:+ dquote +:+ safe_query +:+ dquote +:+ "'";
      "    " ].

Definition fts_search_query (safe_query : string) : string :=
  Py.join Py.nl
    [ "";
      "        SELECT r.id, r.model, r.prompt, r.response, r.datetime_utc, r.conversation_id";
      "        FROM responses r";
      "        JOIN responses_fts fts ON r.rowid = fts.rowid";
      "        WHERE responses_fts MATCH '" +:+ dquote +:+ safe_query +:+ dquote +:+ "'";
      "        ORDER BY r.datetime_utc DESC";
      "        LIMIT :limit OFFSET :offset";
      "    " ].

(** The statements of [_search_like]: constant text. *)
Definition like_count_query : string :=
  Py.join Py.nl
    [ "";
      "        SELECT COUNT(*) FROM responses";
      "        WHERE prompt LIKE :pattern ESCAPE '\'";
      "           OR response LIKE :pattern ESCAPE '\'";
      "    " ].

Definition like_search_query : string :=
  Py.join Py.nl
    [ "";
      "        SELECT id, model, prompt, response, datetime_utc, conversation_id";
      "        FROM responses";
      "        WHERE prompt LIKE :pattern ESCAPE '\'";
      "           OR response LIKE :pattern ESCAPE '\'";
      "        ORDER BY datetime_utc DESC";
      "        LIMIT :limit OFFSET :offset";
      "    " ].

Section Search.
Context {engine : Engine}.

(** [str.lower] of Python, which knows all of Unicode and may change the
    length of a string. *)
Variable lower : string -> string.

(** The full-text engine behind [db.execute]: what SQLite answers to the
    text of a statement over [responses_fts], with the values bound to
    its named parameters. *)
Variable fts_count : Db -> string -> result Z.
Variable fts_rows : Db -> string -> gmap string value -> result (list Response).

Definition create_snippet (text query : string) (max_length : Z) : string :=
  if String.eqb text "" then ""
  else
    let lower_text := lower text in
    let lower_query := lower query in
    let pos := Py.find lower_text lower_query in
    if pos =? -1 then
      if Py.len text >? max_length
      then Py.slice_to text max_length +:+ "..."
      else text
    else
      let start := Z.max 0 (pos - 50) in
      let end_ := Z.min (Py.len text) (pos + Py.len query + 150) in
      let snippet := Py.slice text start end_ in
      let snippet := if start >? 0 then "..." +:+ snippet else snippet in
      let snippet := if end_ <? Py.len text then snippet +:+ "..." else snippet in
      snippet.

(** [create_snippet(field, query) if field else None], with the default
    [max_length]. *)
Definition snippet_field (field : option string) (query : string) : option string :=
  match field with
  | Some (String _ _ as text) => Some (create_snippet text query 200)
  | _ => None
  end.

Definition result_of_row (row : Response) (query : string) : SearchResult :=
  {| id := r_id row;
     model := r_model row;
     prompt := r_prompt row;
     response := r_response row;
     datetime_utc := r_datetime_utc row;
     conversation_id := r_conversation_id row;
     prompt_snippet := snippet_field (r_prompt row) query;
     response_snippet := snippet_field (r_response row) query |}.

Definition _search_fts (db : Db) (query : string) (limit offset : Z)
  : result SearchResponse :=
  let safe_query := Py.replace "034" (dquote +:+ dquote) query in
  let count_query := fts_count_query safe_query in
  total ← fts_count db count_query;
  let search_query := fts_search_query safe_query in
  rows ← fts_rows db search_query
           (<["offset" := Integer offset]> (<["limit" := Integer limit]> ∅));
  let results := (fun row => result_of_row row query) <$> rows in
  Ok {| query := query; results := results; total := total;
        limit := limit; offset := offset |}.

Definition _search_like (db : Db) (query : string) (limit offset : Z)
  : result SearchResponse :=
  let safe_query := Py.replace "_" "\_" (Py.replace "%" "\%" query) in
  let like_pattern := "%" +:+ safe_query +:+ "%" in
  total ← count_like db (<["pattern" := Text like_pattern]> ∅);
  rows ← rows_like db
           (<["offset" := Integer offset]>
              (<["limit" := Integer limit]>
                 (<["pattern" := Text like_pattern]> ∅)));
  let results := (fun row => result_of_row row query) <$> rows in
  Ok {| query := query; results := results; total := total;
        limit := limit; offset := offset |}.

Definition search (db : Db) (q : string) (limit offset : Z)
  : result SearchResponse :=
  if negb (has_table "responses_fts" db) then
    _search_like db q limit offset
  else
    try_except (_search_fts db q limit offset)
               (_search_like db q limit offset).

End Search.

End Search.

(** * views/search.py *)

Module SearchView.
Import Sqlite.

Section SearchView.
Context {engine : Engine}.
Variable lower : string -> string.
Variable fts_count : Db -> string -> result Z.
Variable fts_rows : Db -> string -> gmap string value -> result (list Response).

Definition create_snippet (text query : string) (max_length : Z) : string :=
  if String.eqb text "" then ""
  else
    let lower_text := lower text in
    let lower_query := lower query in
    let pos := Py.find lower_text lower_query in
    if pos =? -1 then
      if Py.len text >? max_length
      then Py.slice_to text max_length +:+ "..."
      else text
    else
      let start := Z.max 0 (pos - 50) in
      let end_ := Z.min (Py.len text) (pos + Py.len query + 150) in
      let snippet := Py.slice text start end_ in
      let snippet := if start >? 0 then "..." +:+ snippet else snippet in
      let snippet := if end_ <? Py.len text then snippet +:+ "..." else snippet in
      snippet.

Definition snippet_field (field : option string) (q : string) : option string :=
  match field with
  | Some (String _ _ as text) => Some (create_snippet text q 200)
  | _ => None
  end.

(** One entry of [results], a dictionary with these eight keys. *)
Record hit := {
  id : string;
  model : string;
  prompt : option string;
  response : option string;
  datetime_utc : option string;
  conversation_id : option string;
  prompt_snippet : option string;
  response_snippet : option string;
}.

Definition hit_of_row (row : Response) (q : string) : hit :=
  {| id := r_id row;
     model := r_model row;
     prompt := r_prompt row;
     response := r_response row;
     datetime_utc := r_datetime_utc row;
     conversation_id := r_conversation_id row;
     prompt_snippet := snippet_field (r_prompt row) q;
     response_snippet := snippet_field (r_response row) q |}.

(** The template context of the search page. *)
Record context := {
  query : string;
  results : list hit;
  total : Z;
  page : Z;
  limit : Z;
  total_pages : Z;
}.

(** The pair [(results, total)] that either branch leaves behind. *)
Definition found : Type := list hit * Z.

Definition fts_branch (db : Db) (q : string) (limit offset : Z)
  : result found :=
  let safe_query := Py.replace "034" (Search.dquote +:+ Search.dquote) q in
  total ← fts_count db (Search.fts_count_query safe_query);
  rows ← fts_rows db (Search.fts_search_query safe_query)
           (<["offset" := Integer offset]> (<["limit" := Integer limit]> ∅));
  let results := (fun row => hit_of_row row q) <$> rows in
  Ok ((results, total) : found).

Definition like_branch (db : Db) (q : string) (limit offset : Z)
  : result found :=
  let safe_query := Py.replace "_" "\_" (Py.replace "%" "\%" q) in
  let like_pattern := "%" +:+ safe_query +:+ "%" in
  total ← count_like db (<["pattern" := Text like_pattern]> ∅);
  rows ← rows_like db
           (<["offset" := Integer offset]>
              (<["limit" := Integer limit]>
                 (<["pattern" := Text like_pattern]> ∅)));
  let results := (fun row => hit_of_row row q) <$> rows in
  Ok ((results, total) : found).

Definition search_page (db : Db) (q : option string) (page limit : Z)
  : result context :=
  '(results, total) ←
    (if Py.truthy q && has_table "responses" db then
       let q := default "" q in
       let offset := (page - 1) * limit in
       let use_fts := has_table "responses_fts" db in
       if use_fts then
         try_except (fts_branch db q limit offset) (like_branch db q limit offset)
       else like_branch db q limit offset
     else Ok (([], 0) : found));
  let total_pages := if total >? 0 then (total + limit - 1) `div` limit else 0 in
  Ok {| query := default "" q; results := results; total := total;
        page := page; limit := limit; total_pages := total_pages |}.

End SearchView.

End SearchView.

(** * database.py *)

Module Database.

(** What is at a path of the file system, as [validate] sees it: a
    directory, a file that SQLite cannot read as a database, or a SQLite
    database, given by the names of its tables. *)
Inductive entry :=
| Directory
| OtherFile
| SqliteFile (tables : list string).

(** [sqlite_utils.Database(db_path)] followed by [db.table_names()]: the
    connection to a directory cannot be opened, and the first statement on
    a file that is no database fails. *)
Definition table_names_at (e : entry) : result (list string) :=
  match e with
  | Directory => Raise (OperationalError "unable to open database file")
  | OtherFile => Raise (Sqlite3DatabaseError "file is not a database")
  | SqliteFile tables => Ok tables
  end.

Definition validate (fs : gmap string entry) (db_path : string) : result unit :=
  match fs !! db_path with
  | None =>
      Raise (DatabaseNotFoundError
               ("Database not found: " +:+ db_path +:+ Py.nl +:+
                "Make sure the llm database exists at this path."))
  | Some e =>
      table_names ← table_names_at e;
      if negb (bool_decide ("_llm_migrations" ∈ table_names)) then
        Raise (InvalidDatabaseError
                 ("Invalid llm database: " +:+ db_path +:+ Py.nl +:+
                  "This database does not contain llm tables. " +:+
                  "Make sure you're pointing to a valid llm logs.db file."))
      else Ok ()
  end.

(** What the command line does with the database before it starts the
    server ([__main__.py]): [except DatabaseError] catches the two errors
    of [validate], which are the subclasses of the [DatabaseError] of this
    package, and turns their message into a [ClickException]; an exception
    of the [sqlite3] module is none of them and leaves [main] as it is. *)
Inductive startup :=
| Serve
| ClickException (message : string)
| Uncaught (e : exn).

Definition main (fs : gmap string entry) (db_path : string) : startup :=
  match validate fs db_path with
  | Ok _ => Serve
  | Raise (DatabaseNotFoundError msg) => ClickException msg
  | Raise (InvalidDatabaseError msg) => ClickException msg
  | Raise e => Uncaught e
  end.

End Database.

(** * api/conversations.py *)

Module Conversations.
Import Sqlite.

Section Endpoints.
Context {engine : Engine}.

Record ConversationSummary := {
  id : string;
  name : option string;
  model : option string;
  response_count : Z;
  first_response : option string;
  last_response : option string;
  total_input_tokens : Z;
  total_output_tokens : Z;
}.

Record ConversationResponse := {
  cr_id : string;
  cr_model : string;
  cr_prompt : option string;
  cr_response : option string;
  cr_datetime_utc : option string;
  cr_duration_ms : option Z;
  cr_input_tokens : option Z;
  cr_output_tokens : option Z;
}.

Record ConversationDetail := {
  cd_id : string;
  cd_name : option string;
  cd_model : option string;
  cd_responses : list ConversationResponse;
}.

Record ConversationListResponse := {
  items : list ConversationSummary;
  total : Z;
  limit : Z;
  offset : Z;
}.

(** [ConversationSummary( **dict(zip(columns, row)) )] *)
Definition summary_of_row (row : conversation_stats) : ConversationSummary :=
  {| id := cs_id row;
     name := cs_name row;
     model := cs_model row;
     response_count := cs_response_count row;
     first_response := cs_first_response row;
     last_response := cs_last_response row;
     total_input_tokens := cs_total_input_tokens row;
     total_output_tokens := cs_total_output_tokens row |}.

(** [ConversationResponse( **row )] *)
Definition response_of_row (row : Response) : ConversationResponse :=
  {| cr_id := r_id row;
     cr_model := r_model row;
     cr_prompt := r_prompt row;
     cr_response := r_response row;
     cr_datetime_utc := r_datetime_utc row;
     cr_duration_ms := r_duration_ms row;
     cr_input_tokens := r_input_tokens row;
     cr_output_tokens := r_output_tokens row |}.

Definition list_conversations (db : Db) (limit offset : Z)
  : result ConversationListResponse :=
  if negb (has_table "conversations" db) then
    Ok {| items := []; total := 0; limit := limit; offset := offset |}
  else
    total ← Sqlite.count "conversations" (conversations db);
    rows ← select_conversations db
             (<["offset" := Integer offset]> (<["limit" := Integer limit]> ∅));
    let items : list ConversationSummary := summary_of_row <$> rows in
    Ok {| items := items; total := total; limit := limit; offset := offset |}.

Definition get_conversation (db : Db) (conversation_id : string)
  : result ConversationDetail :=
  if negb (has_table "conversations" db) then
    Raise (HTTPException 404 "Conversation not found")
  else
    let rows := conversations_with_id db conversation_id in
    match rows with
    | [] => Raise (HTTPException 404 "Conversation not found")
    | conversation :: _ =>
        let responses : list ConversationResponse :=
          if has_table "responses" db then
            let response_rows := responses_of_conversation db conversation_id in
            response_of_row <$> response_rows
          else [] in
        Ok {| cd_id := c_id conversation;
              cd_name := c_name conversation;
              cd_model := c_model conversation;
              cd_responses := responses |}
    end.

End Endpoints.

End Conversations.

(** * views/conversations.py *)

Module ConversationsView.
Import Sqlite.

Section Views.
Context {engine : Engine}.

(** The template context of the list page; a conversation is a dictionary
    with the eight keys of [conversation_stats]. *)
Record list_context := {
  conversations : list conversation_stats;
  total : Z;
  page : Z;
  limit : Z;
  total_pages : Z;
}.

Definition list_conversations (db : Db) (page limit : Z) : result list_context :=
  let offset := (page - 1) * limit in
  if negb (has_table "conversations" db) then
    Ok {| conversations := []; total := 0; page := page; limit := limit;
          total_pages := 0 |}
  else
    total ← Sqlite.count "conversations" (Sqlite.conversations db);
    rows ← select_conversations db
             (<["offset" := Integer offset]> (<["limit" := Integer limit]> ∅));
    let conversations := rows in
    let total_pages := (total + limit - 1) `div` limit in
    Ok {| conversations := conversations; total := total; page := page;
          limit := limit; total_pages := total_pages |}.

(** The template context of the detail page. *)
Record detail_context := {
  conversation : Conversation;
  responses : list Response;
  total_input_tokens : Z;
  total_output_tokens : Z;
  total_duration_ms : Z;
}.

(** [sum(r.get(key) or 0 for r in responses)] *)
Definition sum_or_0 (column : Response -> option Z) (responses : list Response) : Z :=
  sum_z ((fun r => default 0 (column r)) <$> responses).

Definition view_conversation (db : Db) (conversation_id : string)
  : result detail_context :=
  if negb (has_table "conversations" db) then
    Raise (HTTPException 404 "Conversation not found")
  else
    let rows := conversations_with_id db conversation_id in
    match rows with
    | [] => Raise (HTTPException 404 "Conversation not found")
    | conversation :: _ =>
        let responses := responses_of_conversation db conversation_id in
        let total_input_tokens := sum_or_0 r_input_tokens responses in
        let total_output_tokens := sum_or_0 r_output_tokens responses in
        let total_duration_ms := sum_or_0 r_duration_ms responses in
        Ok {| conversation := conversation;
              responses := responses;
              total_input_tokens := total_input_tokens;
              total_output_tokens := total_output_tokens;
              total_duration_ms := total_duration_ms |}
    end.

End Views.

End ConversationsView.

(** * views/responses.py *)

Module ResponsesView.
Import Sqlite.

Section Views.
Context {engine : Engine}.

(** The template context of the list page. *)
Record list_context := {
  responses : list Response;
  total : Z;
  page : Z;
  limit : Z;
  total_pages : Z;
  models : list string;
  selected_model : option string;
}.

Definition list_responses (db : Db) (page limit : Z) (model : option string)
  : result list_context :=
  let offset := (page - 1) * limit in
  if negb (has_table "responses" db) then
    Ok {| responses := []; total := 0; page := page; limit := limit;
          total_pages := 0; models := []; selected_model := model |}
  else
    let built := Filters.add_filter (Clause col_model op_eq "model") model ([], ∅) in
    let where_clauses := built.1 in
    let params := built.2 in
    let where_ := Responses.join_where where_clauses in
    total ← match where_ with
            | Some w => count_where db w params
            | None => Sqlite.count "responses" (Sqlite.responses db)
            end;
    responses ← rows_where db where_ params limit offset;
    model_rows ← distinct_models db;
    let models := filter (fun m => m <> "") model_rows in
    let total_pages := (total + limit - 1) `div` limit in
    Ok {| responses := responses; total := total; page := page; limit := limit;
          total_pages := total_pages; models := models; selected_model := model |}.

(** The template context of the detail page. *)
Record detail_context := {
  response : Response;
  tool_calls : list ToolCall;
  tool_results : list ToolResult;
  attachments : list (gmap string value);
  conversation : option Conversation;
}.

Definition view_response (db : Db) (response_id : string) : result detail_context :=
  let rows := filter (fun r => r_id r = response_id) (table_rows (Sqlite.responses db)) in
  match rows with
  | [] => Raise (HTTPException 404 "Response not found")
  | response :: _ =>
      let tool_calls :=
        if has_table "tool_calls" db then
          filter (fun c => tc_response_id c = response_id)
                 (table_rows (Sqlite.tool_calls db))
        else [] in
      let tool_results :=
        if has_table "tool_results" db then
          filter (fun t => tr_response_id t = response_id)
                 (table_rows (Sqlite.tool_results db))
        else [] in
      let attachments :=
        if has_table "prompt_attachments" db then
          let attachment_links :=
            filter (fun l => pa_response_id l = response_id)
                   (table_rows (prompt_attachments db)) in
          let attachments :=
            omap (fun link =>
                    let att_rows := table_rows (Sqlite.attachments db) in
                    Responses.attachment_of_link att_rows link)
                 attachment_links in
          Py.sorted Responses.order_key attachments
        else [] in
      let conversation :=
        match r_conversation_id response with
        | Some (String _ _ as conversation_id) =>
            if has_table "conversations" db then
              let conv_rows := conversations_with_id db conversation_id in
              head conv_rows
            else None
        | _ => None
        end in
      Ok {| response := response;
            tool_calls := tool_calls;
            tool_results := tool_results;
            attachments := attachments;
            conversation := conversation |}
  end.

End Views.

End ResponsesView.

(** * Specification vocabulary and example data *)

Definition raises_not_found {A} (m : result A) : Prop :=
  exists msg, m = Raise (DatabaseNotFoundError msg).
Definition raises_invalid {A} (m : result A) : Prop :=
  exists msg, m = Raise (InvalidDatabaseError msg).

(** The rows a filter setting selects, written directly: an absent or empty
    filter value selects every row, a present one compares the column with
    it, and a NULL column never matches. *)
Definition matches_filter (model conversation_id start_date end_date : option string)
    (r : Sqlite.Response) : bool :=
  (if Py.truthy model
   then String.eqb (Sqlite.r_model r) (default "" model) else true) &&
  (if Py.truthy conversation_id
   then match Sqlite.r_conversation_id r with
        | Some c => String.eqb c (default "" conversation_id)
        | None => false
        end
   else true) &&
  (if Py.truthy start_date
   then match Sqlite.r_datetime_utc r with
        | Some d => String.leb (default "" start_date) d
        | None => false
        end
   else true) &&
  (if Py.truthy end_date
   then match Sqlite.r_datetime_utc r with
        | Some d => String.leb d (default "" end_date)
        | None => false
        end
   else true).

Definition present {A} (t : option A) : bool := if t is Some _ then true else false.

(** An item of the listing shows a row of [responses] when it has the value
    of the row in every one of its fields. *)
Definition shows (item : Responses.ResponseSummary) (r : Sqlite.Response) : Prop :=
  Responses.id item = Sqlite.r_id r /\
  Responses.model item = Sqlite.r_model r /\
  Responses.prompt item = Sqlite.r_prompt r /\
  Responses.response item = Sqlite.r_response r /\
  Responses.conversation_id item = Sqlite.r_conversation_id r /\
  Responses.duration_ms item = Sqlite.r_duration_ms r /\
  Responses.datetime_utc item = Sqlite.r_datetime_utc r /\
  Responses.input_tokens item = Sqlite.r_input_tokens r /\
  Responses.output_tokens item = Sqlite.r_output_tokens r.

(** The sentence on the listing as the specification has it: for the limit
    and the offset the listing returns a page, never an error, with at
    most [limit] items and the number of the matching rows as total. *)
Definition listing_as_specified {engine : Sqlite.Engine} (db : Sqlite.Db)
    (limit offset : Z)
    (model conversation_id start_date end_date : option string) : Prop :=
  exists page,
    Responses.list_responses db limit offset
      model conversation_id start_date end_date = Ok page /\
    Z.of_nat (length (Responses.items page)) <= limit /\
    Responses.total page =
      Z.of_nat (length
        (filter (fun r => matches_filter model conversation_id start_date end_date r
                          = true)
                (default [] (Sqlite.responses db)))).

(** ** Validation *)

(** The outcomes that the specification knows for the validation: one of
    the two errors of the package, or a normal return. *)
Definition validation_as_specified (answer : result unit) : Prop :=
  raises_not_found answer \/ raises_invalid answer \/ answer = Ok ().

(** A file system with a log database, a database of something else, a
    text file and a directory. *)
Definition example_fs : gmap string Database.entry :=
  <["/home/me/logs.db" := Database.SqliteFile ["_llm_migrations"; "responses"]]>
    (<["/home/me/other.db" := Database.SqliteFile ["notes"]]>
       (<["/home/me/notes.txt" := Database.OtherFile]>
          (<["/home/me" := Database.Directory]> ∅))).

(** ** Snippets *)

(** [m] is the query up to case: the two lower-case to the same string. *)
Definition same_lower (lower : string -> string) (query m : string) : Prop :=
  lower m = lower query.

(** The query occurs in the text at position [p], up to case. *)
Definition occurs_nocase (lower : string -> string) (query text : string) (p : nat)
  : Prop :=
  exists pre m post,
    text = pre +:+ m +:+ post /\ String.length pre = p /\ same_lower lower query m.

(** [p] is the position of the first occurrence of the query in the text,
    up to case. *)
Definition first_nocase (lower : string -> string) (query text : string) (p : nat)
  : Prop :=
  occurs_nocase lower query text p /\
  forall j, (j < p)%nat -> ~ occurs_nocase lower query text j.

(** A lower-casing that works character by character. *)
Fixpoint map_chars (f : ascii -> ascii) (s : string) : string :=
  match s with
  | EmptyString => EmptyString
  | String c s' => String (f c) (map_chars f s')
  end.

(** The window of the text around a match at [p], as the specification
    describes it. *)
Definition window_at (text query : string) (p : nat) : string :=
  let n := Py.len text in
  let start := Z.max 0 (Z.of_nat p - 50) in
  let end_ := Z.min n (Z.of_nat p + Py.len query + 150) in
  (if start =? 0 then "" else "...") +:+
  String.substring (Z.to_nat start) (Z.to_nat (end_ - start)) text +:+
  (if end_ =? n then "" else "...").

(** The sentence on the snippet as the specification has it: with the
    first occurrence of the query in the text, up to case, at [p], the
    snippet is the window of the text around [p]. *)
Definition snippet_as_specified (lower : string -> string) (text query : string)
    (max_length : Z) : Prop :=
  forall p, first_nocase lower query text p ->
    Search.create_snippet lower text query max_length = window_at text query p.

(** The characters of a text are its code points.  The strings of the
    model have 256 characters, enough for any one text; the texts below
    take [dotted_I] for U+0130, the capital I with a dot above, and
    [dot_above] for U+0307, the combining dot above. *)
Definition dotted_I : ascii := ascii_of_N 221.
Definition dot_above : ascii := ascii_of_N 135.

(** [str.lower] on such texts: U+0130 becomes an [i] followed by U+0307,
    a capital letter of ASCII becomes its small letter, every other
    character stays. *)
Fixpoint lower_dotted (s : string) : string :=
  match s with
  | EmptyString => EmptyString
  | String c s' =>
      if Ascii.eqb c dotted_I then String "i" (String dot_above (lower_dotted s'))
      else String (Py.ascii_lower c) (lower_dotted s')
  end.

(** [n] times the character [c] in front of [rest]. *)
Fixpoint repeat_char (n : nat) (c : ascii) (rest : string) : string :=
  match n with
  | O => rest
  | S n' => String c (repeat_char n' c rest)
  end.

(** Sixty capital I with a dot above, then an [x]. *)
Definition dotted_text : string := repeat_char 60 dotted_I "x".

(** [sub] occurs in [s] at position [p]. *)
Definition occurs_at (sub s : string) (p : nat) : Prop :=
  exists pre post, s = pre +:+ sub +:+ post /\ String.length pre = p.

(** [p] is the position of the first occurrence of [sub] in [s]. *)
Definition first_occurrence (sub s : string) (p : nat) : Prop :=
  occurs_at sub s p /\ forall j, (j < p)%nat -> ~ occurs_at sub s j.

(** ** Example data *)

Definition row (id model : string) (prompt response conversation_id : option string)
    (duration_ms : option Z) (datetime_utc : option string)
    (input_tokens output_tokens : option Z) : Sqlite.Response :=
  {| Sqlite.r_id := id;
     Sqlite.r_model := model;
     Sqlite.r_prompt := prompt;
     Sqlite.r_system := None;
     Sqlite.r_response := response;
     Sqlite.r_conversation_id := conversation_id;
     Sqlite.r_duration_ms := duration_ms;
     Sqlite.r_datetime_utc := datetime_utc;
     Sqlite.r_input_tokens := input_tokens;
     Sqlite.r_output_tokens := output_tokens |}.

Definition r1 : Sqlite.Response :=
  row "r1" "gpt-4" (Some "Hello world") (Some "Hi there") (Some "c1")
      (Some 120) (Some "2024-01-01T10:00:00") (Some 100) (Some 50).
Definition r2 : Sqlite.Response :=
  row "r2" "gpt-4" (Some "Is 50% off_sale real?") (Some "See C:\temp") (Some "c1")
      (Some 2500) (Some "2024-02-01T09:30:00") (Some 10) (Some 20).
Definition r3 : Sqlite.Response :=
  row "r3" "claude" (Some "hello again") None None
      None (Some "2024-03-01T00:00:00") None None.
Definition r4 : Sqlite.Response :=
  row "r4" "claude" None (Some "HELLO") (Some "c2")
      (Some 60000) None (Some 7) None.

(** A database with only the migrations bookkeeping in it. *)
Definition empty_db : Sqlite.Db :=
  {| Sqlite.responses := None;
     Sqlite.conversations := None;
     Sqlite.tools := None;
     Sqlite.tool_calls := None;
     Sqlite.tool_results := None;
     Sqlite.prompt_attachments := None;
     Sqlite.attachments := None;
     Sqlite.responses_fts := false |}.

Definition with_responses (rows : list Sqlite.Response) (db : Sqlite.Db) : Sqlite.Db :=
  {| Sqlite.responses := Some rows;
     Sqlite.conversations := Sqlite.conversations db;
     Sqlite.tools := Sqlite.tools db;
     Sqlite.tool_calls := Sqlite.tool_calls db;
     Sqlite.tool_results := Sqlite.tool_results db;
     Sqlite.prompt_attachments := Sqlite.prompt_attachments db;
     Sqlite.attachments := Sqlite.attachments db;
     Sqlite.responses_fts := Sqlite.responses_fts db |}.

Definition log_db : Sqlite.Db := with_responses [r1; r2; r3; r4] empty_db.

(** The responses inside the date bounds: a bound that is absent or empty
    does not restrict, a bound that is given is inclusive and compared as
    text, and a row without datetime is outside any given bound. *)
Definition in_bounds (start_date end_date : option string) (r : Sqlite.Response) : bool :=
  (if Py.truthy start_date
   then match Sqlite.r_datetime_utc r with
        | Some d => String.leb (default "" start_date) d
        | None => false
        end
   else true) &&
  (if Py.truthy end_date
   then match Sqlite.r_datetime_utc r with
        | Some d => String.leb d (default "" end_date)
        | None => false
        end
   else true).

(** The sum of a column over rows, a NULL counting as nothing. *)
Definition column_sum (column : Sqlite.Response -> option Z)
    (rows : list Sqlite.Response) : Z :=
  Sqlite.sum_z (Sqlite.non_null (column <$> rows)).

(** The values of a column are small enough that no sum of some of them,
    in whatever order, leaves the range of a 64-bit integer. *)
Definition fits_int64 (column : Sqlite.Response -> option Z)
    (rows : list Sqlite.Response) : Prop :=
  Sqlite.sum_z (Z.abs <$> Sqlite.non_null (column <$> rows)) < 2 ^ 63.

(** The number of elements of a list that satisfy a test. *)
Definition count_if {A} (p : A -> bool) (l : list A) : Z :=
  Z.of_nat (length (filter (fun x => p x = true) l)).

(** A duration that is present and not negative. *)
Definition timed (r : Sqlite.Response) : bool :=
  match Sqlite.r_duration_ms r with
  | Some d => 0 <=? d
  | None => false
  end.

(** A duration that is present. *)
Definition has_duration (r : Sqlite.Response) : bool :=
  if Sqlite.r_duration_ms r is Some _ then true else false.

Definition bucket_total (bs : list Metrics.LatencyBucket) : Z :=
  Sqlite.sum_z (Metrics.count <$> bs).

(** A response whose recorded duration is negative. *)
Definition r_negative : Sqlite.Response :=
  row "r5" "gpt-4" (Some "late") (Some "reply") None
      (Some (-5)) (Some "2024-04-01T00:00:00") (Some 1) (Some 1).

Definition skewed_db : Sqlite.Db := with_responses [r_negative] empty_db.

(** The sentence on the histogram as the specification has it: nine buckets
    whose counts add up to the number of responses with a duration. *)
Definition histogram_as_specified (db : Sqlite.Db) (start_date end_date : option string) : Prop :=
  exists bs,
    Metrics.get_latency_distribution db start_date end_date = Ok bs /\
    length bs = 9%nat /\
    bucket_total bs =
      count_if has_duration
        (filter (fun r => in_bounds start_date end_date r = true)
                (default [] (Sqlite.responses db))).

(** ** The summary under a date filter *)

(** A tool call, a tool result and a conversation lie within the bounds when
    a response they belong to does. *)
Definition response_within (start_date end_date : option string) (db : Sqlite.Db)
    (response_id : string) : bool :=
  existsb (fun r => String.eqb (Sqlite.r_id r) response_id &&
                    in_bounds start_date end_date r)
          (default [] (Sqlite.responses db)).

Definition conversation_within (start_date end_date : option string) (db : Sqlite.Db)
    (c : Sqlite.Conversation) : bool :=
  existsb (fun r => bool_decide (Sqlite.r_conversation_id r = Some (Sqlite.c_id c)) &&
                    in_bounds start_date end_date r)
          (default [] (Sqlite.responses db)).

(** The sentence on the summary as the specification has it: the counts of
    conversations, tool calls and tool errors, like the metrics of the
    responses, are taken over the rows within the bounds only. *)
Definition summary_as_specified (db : Sqlite.Db) (start_date end_date : option string) : Prop :=
  exists m,
    Metrics.get_metrics_summary db start_date end_date = Ok m /\
    Metrics.total_responses m =
      count_if (in_bounds start_date end_date) (default [] (Sqlite.responses db)) /\
    Metrics.total_conversations m =
      count_if (conversation_within start_date end_date db)
               (default [] (Sqlite.conversations db)) /\
    Metrics.total_tool_calls m =
      count_if (fun c => response_within start_date end_date db (Sqlite.tc_response_id c))
               (default [] (Sqlite.tool_calls db)) /\
    Metrics.total_tool_errors m =
      count_if (fun t => bool_decide (is_Some (Sqlite.tr_exception t)) &&
                         response_within start_date end_date db (Sqlite.tr_response_id t))
               (default [] (Sqlite.tool_results db)).

(** A log of one conversation with one response, which called a tool once
    and got an error back. *)
Definition tool_db : Sqlite.Db :=
  {| Sqlite.responses := Some [r1];
     Sqlite.conversations :=
       Some [ {| Sqlite.c_id := "c1"; Sqlite.c_name := None;
                 Sqlite.c_model := Some "gpt-4" |} ];
     Sqlite.tools :=
       Some [ {| Sqlite.t_id := 1; Sqlite.t_name := "grep";
                 Sqlite.t_description := None; Sqlite.t_input_schema := None;
                 Sqlite.t_plugin := None |} ];
     Sqlite.tool_calls :=
       Some [ {| Sqlite.tc_id := 1; Sqlite.tc_response_id := "r1";
                 Sqlite.tc_tool_id := 1; Sqlite.tc_name := "grep";
                 Sqlite.tc_arguments := None; Sqlite.tc_tool_call_id := None |} ];
     Sqlite.tool_results :=
       Some [ {| Sqlite.tr_id := 1; Sqlite.tr_response_id := "r1";
                 Sqlite.tr_tool_id := 1; Sqlite.tr_name := "grep";
                 Sqlite.tr_output := None; Sqlite.tr_exception := Some "boom";
                 Sqlite.tr_tool_call_id := None |} ];
     Sqlite.prompt_attachments := None;
     Sqlite.attachments := None;
     Sqlite.responses_fts := false |}.

(** An instance of [strftime] for running the time series on examples: the
    day bucket of an ISO datetime is its first ten characters. *)
Definition strftime_prefix (format datetime : string) : option string :=
  Some (String.substring 0 10 datetime).

(** ** Attachments *)

(** Two attachment rows that differ at most in their binary content. *)
Definition same_but_content (a b : gmap string Sqlite.value) : Prop :=
  delete "content" a = delete "content" b.

(** Two databases that differ at most in the binary content of their
    attachments. *)
Definition content_changed (db db' : Sqlite.Db) : Prop :=
  Sqlite.responses db = Sqlite.responses db' /\
  Sqlite.conversations db = Sqlite.conversations db' /\
  Sqlite.tools db = Sqlite.tools db' /\
  Sqlite.tool_calls db = Sqlite.tool_calls db' /\
  Sqlite.tool_results db = Sqlite.tool_results db' /\
  Sqlite.prompt_attachments db = Sqlite.prompt_attachments db' /\
  Sqlite.responses_fts db = Sqlite.responses_fts db' /\
  match Sqlite.attachments db, Sqlite.attachments db' with
  | Some rows, Some rows' => Forall2 same_but_content rows rows'
  | None, None => True
  | _, _ => False
  end.

(** No dictionary of the answer has a [content] key. *)
Definition without_content (answer : result (list (gmap string Sqlite.value))) : Prop :=
  match answer with
  | Ok atts => Forall (fun att : gmap string Sqlite.value => att !! "content" = None) atts
  | Raise _ => True
  end.

Definition attachment (id : string) (content : list Byte.byte)
  : gmap string Sqlite.value :=
  <["content" := Sqlite.Blob content]>
    (<["type" := Sqlite.Text "image/png"]>
       (<["id" := Sqlite.Text id]> ∅)).

Definition with_attachments (rows : list (gmap string Sqlite.value)) : Sqlite.Db :=
  {| Sqlite.responses := Some [r1];
     Sqlite.conversations := None;
     Sqlite.tools := None;
     Sqlite.tool_calls := None;
     Sqlite.tool_results := None;
     Sqlite.prompt_attachments :=
       Some [ {| Sqlite.pa_response_id := "r1"; Sqlite.pa_attachment_id := "a2";
                 Sqlite.pa_order := 1 |};
              {| Sqlite.pa_response_id := "r1"; Sqlite.pa_attachment_id := "a1";
                 Sqlite.pa_order := 0 |};
              {| Sqlite.pa_response_id := "r2"; Sqlite.pa_attachment_id := "a1";
                 Sqlite.pa_order := 0 |} ];
     Sqlite.attachments := Some rows;
     Sqlite.responses_fts := false |}.

Definition png_db : Sqlite.Db :=
  with_attachments [attachment "a1" [Byte.x89; Byte.x50]; attachment "a2" [Byte.x00]].

Definition png_db' : Sqlite.Db :=
  with_attachments [attachment "a1" []; attachment "a2" [Byte.xff; Byte.xfe]].

(** ** Search *)

(** The text of the count statement that [_search_fts] sends for a query. *)
Definition fts_count_text (query : string) : string :=
  Search.fts_count_query (Py.replace "034" (Search.dquote +:+ Search.dquote) query).

(** The text of the page statement that [_search_fts] sends for a query. *)
Definition fts_search_text (query : string) : string :=
  Search.fts_search_query (Py.replace "034" (Search.dquote +:+ Search.dquote) query).

(** The escaping of [_search_like]. *)
Definition escape_like (query : string) : string :=
  Py.replace "_" "\_" (Py.replace "%" "\%" query).

(** The pattern that [_search_like] binds for a query. *)
Definition like_pattern (query : string) : string :=
  "%" +:+ escape_like query +:+ "%".

(** [a] and [b] are the same text up to the case of ASCII letters. *)
Fixpoint same_nocase (a b : string) : bool :=
  match a, b with
  | EmptyString, EmptyString => true
  | String x a', String y b' => Sqlite.char_eq_nocase x y && same_nocase a' b'
  | _, _ => false
  end.

(** [text] contains [query] as a substring, up to the case of ASCII letters. *)
Definition contains_nocase (query text : string) : Prop :=
  exists pre m post, text = pre +:+ m +:+ post /\ same_nocase query m = true.

(** A response one of whose searched fields contains the query. *)
Definition field_contains (query : string) (field : option string) : Prop :=
  exists text, field = Some text /\ contains_nocase query text.

Definition response_contains (query : string) (r : Sqlite.Response) : Prop :=
  field_contains query (Sqlite.r_prompt r) \/ field_contains query (Sqlite.r_response r).

Fixpoint no_backslash (s : string) : bool :=
  match s with
  | EmptyString => true
  | String c s' => negb (Ascii.eqb c "\") && no_backslash s'
  end.

Definition r_path : Sqlite.Response :=
  row "p1" "gpt-4" (Some "where is C:\temp") (Some "on the disk") None
      (Some 10) (Some "2024-05-01T00:00:00") None None.
Definition r_percent : Sqlite.Response :=
  row "p2" "gpt-4" (Some "how much") (Some "up 100%") None
      (Some 10) (Some "2024-05-02T00:00:00") None None.

Definition like_db : Sqlite.Db := with_responses [r_path; r_percent] empty_db.

(** What is left of [text] behind a leading [query], up to case. *)
Fixpoint strip_nocase (query text : string) : option string :=
  match query, text with
  | EmptyString, _ => Some text
  | String c q', String x t' =>
      if Sqlite.char_eq_nocase c x then strip_nocase q' t' else None
  | String _ _, EmptyString => None
  end.

(** The decision of [contains_nocase]. *)
Fixpoint find_nocase (query text : string) : bool :=
  (if strip_nocase query text is Some _ then true else false) ||
  match text with
  | EmptyString => false
  | String _ t' => find_nocase query t'
  end.

(** * Vocabulary of the further properties *)

(** The rows of a table, none when the table is absent. *)
Definition rows_of {A} (t : option (list A)) : list A := default [] t.

(** ** Search *)



(** ** Conversations *)

(** The responses of a conversation. *)
Definition responses_in (conversation_id : string) (rs : list Sqlite.Response)
  : list Sqlite.Response :=
  filter (fun r => Sqlite.r_conversation_id r = Some conversation_id) rs.

(** The entry of a conversation in the listing, computed from its own
    responses. *)
Definition summary_of_conversation (rs : list Sqlite.Response) (c : Sqlite.Conversation)
  : Conversations.ConversationSummary :=
  let mine := responses_in (Sqlite.c_id c) rs in
  {| Conversations.id := Sqlite.c_id c;
     Conversations.name := Sqlite.c_name c;
     Conversations.model := Sqlite.c_model c;
     Conversations.response_count := Z.of_nat (length mine);
     Conversations.first_response := Sqlite.sql_min (Sqlite.r_datetime_utc <$> mine);
     Conversations.last_response := Sqlite.sql_max (Sqlite.r_datetime_utc <$> mine);
     Conversations.total_input_tokens := column_sum Sqlite.r_input_tokens mine;
     Conversations.total_output_tokens := column_sum Sqlite.r_output_tokens mine |}.

(** ** Aggregates of groups *)

(** The row of the conversation listing for one group of joined rows, with
    the token sums as sums of integers. *)
Definition stats_of_joined
    (g : string * list (Sqlite.Conversation * option Sqlite.Response))
  : Sqlite.conversation_stats :=
  let joined := omap snd g.2 in
  {| Sqlite.cs_id := g.1;
     Sqlite.cs_name := head g.2 ≫= (fun j => Sqlite.c_name j.1);
     Sqlite.cs_model := head g.2 ≫= (fun j => Sqlite.c_model j.1);
     Sqlite.cs_response_count := Z.of_nat (length joined);
     Sqlite.cs_first_response := Sqlite.sql_min (Sqlite.r_datetime_utc <$> joined);
     Sqlite.cs_last_response := Sqlite.sql_max (Sqlite.r_datetime_utc <$> joined);
     Sqlite.cs_total_input_tokens := column_sum Sqlite.r_input_tokens joined;
     Sqlite.cs_total_output_tokens := column_sum Sqlite.r_output_tokens joined |}.

(** The row of the usage by model for the responses of one model, with the
    token sums as sums of integers. *)
Definition totals_of_rows (g : string * list Sqlite.Response) : Sqlite.model_totals :=
  {| Sqlite.mt_model := g.1;
     Sqlite.mt_response_count := Z.of_nat (length g.2);
     Sqlite.mt_input_tokens := column_sum Sqlite.r_input_tokens g.2;
     Sqlite.mt_output_tokens := column_sum Sqlite.r_output_tokens g.2;
     Sqlite.mt_avg_duration_ms := Sqlite.sql_avg (Sqlite.r_duration_ms <$> g.2) |}.

(** The entry of the usage by model for a row of the statement. *)
Definition usage_of_row (row : Sqlite.model_totals) : Metrics.ModelUsage :=
  {| Metrics.model := Sqlite.mt_model row;
     Metrics.response_count := Sqlite.mt_response_count row;
     Metrics.input_tokens := Sqlite.mt_input_tokens row;
     Metrics.output_tokens := Sqlite.mt_output_tokens row;
     Metrics.mu_avg_duration_ms := Sqlite.mt_avg_duration_ms row |}.

(** A database that has lost its [responses] table. *)
Definition without_responses (db : Sqlite.Db) : Sqlite.Db :=
  {| Sqlite.responses := None;
     Sqlite.conversations := Sqlite.conversations db;
     Sqlite.tools := Sqlite.tools db;
     Sqlite.tool_calls := Sqlite.tool_calls db;
     Sqlite.tool_results := Sqlite.tool_results db;
     Sqlite.prompt_attachments := Sqlite.prompt_attachments db;
     Sqlite.attachments := Sqlite.attachments db;
     Sqlite.responses_fts := Sqlite.responses_fts db |}.

Definition orphan_db : Sqlite.Db := without_responses tool_db.

(** Two conversations over the example responses. *)
Definition talk_db : Sqlite.Db :=
  {| Sqlite.responses := Some [r1; r2; r3; r4];
     Sqlite.conversations :=
       Some [ {| Sqlite.c_id := "c1"; Sqlite.c_name := Some "first";
                 Sqlite.c_model := Some "gpt-4" |};
              {| Sqlite.c_id := "c2"; Sqlite.c_name := None;
                 Sqlite.c_model := Some "claude" |};
              {| Sqlite.c_id := "c3"; Sqlite.c_name := Some "empty";
                 Sqlite.c_model := None |} ];
     Sqlite.tools := None;
     Sqlite.tool_calls := None;
     Sqlite.tool_results := None;
     Sqlite.prompt_attachments := None;
     Sqlite.attachments := None;
     Sqlite.responses_fts := false |}.

(** ** Time series *)


(** * Properties *)

Section Properties.
Context {engine : Sqlite.Engine}.

(** ** Validation *)

(** X24: where the path is absent or holds a SQLite database, validation
    does what the specification says: [DatabaseNotFoundError] exactly for an
    absent path, [InvalidDatabaseError] for a database without the
    [_llm_migrations] table, and a normal return for one with it. *)
Lemma validate_outcomes (fs : gmap string Database.entry) (db_path : string) :
  (raises_not_found (Database.validate fs db_path) <-> fs !! db_path = None) /\
  (forall tables, fs !! db_path = Some (Database.SqliteFile tables) ->
     (raises_invalid (Database.validate fs db_path) <-> "_llm_migrations" ∉ tables) /\
     (Database.validate fs db_path = Ok () <-> "_llm_migrations" ∈ tables)).
Proof.
  unfold raises_not_found, raises_invalid, Database.validate. split.
  - destruct (fs !! db_path) as [[| |tables]|]; simpl;
      [naive_solver..| |naive_solver]. case_bool_decide; simpl; naive_solver.
  - intros tables ->. simpl. case_bool_decide; simpl; naive_solver.
Qed.

(** C7 at the failing input: the path holds a file that is no SQLite
    database.  The first statement on it fails in the [sqlite3] module,
    and [validate] passes that error on: it raises neither of its two
    errors and does not return, and the command line, which catches the
    errors of validation to report them, is left by an exception. *)
Theorem validate_not_a_database (fs : gmap string Database.entry) (db_path : string) :
  fs !! db_path = Some Database.OtherFile ->
  Database.validate fs db_path =
    Raise (Sqlite3DatabaseError "file is not a database") /\
  ~ validation_as_specified (Database.validate fs db_path) /\
  Database.main fs db_path =
    Database.Uncaught (Sqlite3DatabaseError "file is not a database").
Proof.
  intros Hfile. unfold validation_as_specified, raises_not_found, raises_invalid,
    Database.main, Database.validate.
  rewrite Hfile. simpl. split; [done|]. split; [|done].
  intros [[msg [=]]|[[msg [=]]|[=]]].
Qed.

(** A directory at the path is passed on in the same way. *)
Lemma validate_directory (fs : gmap string Database.entry) (db_path : string) :
  fs !! db_path = Some Database.Directory ->
  Database.validate fs db_path =
    Raise (OperationalError "unable to open database file") /\
  ~ validation_as_specified (Database.validate fs db_path).
Proof.
  intros Hdir. unfold validation_as_specified, raises_not_found, raises_invalid,
    Database.validate.
  rewrite Hdir. simpl. split; [done|].
  intros [[msg [=]]|[[msg [=]]|[=]]].
Qed.

(** ** Sorting and paging *)

Section OrderBy.
Context {A : Type} (before : A -> A -> bool).
Hypothesis before_total : forall x y, before x y = false -> before y x = true.

Lemma insert_sorted_perm (x : A) (l : list A) :
  Sqlite.insert_sorted before x l ≡ₚ x :: l.
Proof.
  induction l as [|y l IH]; simpl; [done|].
  destruct (before x y); [done|].
  rewrite IH. apply Permutation_swap.
Qed.

Lemma insertion_sort_perm (l : list A) :
  foldr (Sqlite.insert_sorted before) [] l ≡ₚ l.
Proof.
  induction l as [|x l IH]; simpl; [done|].
  rewrite insert_sorted_perm. by rewrite IH.
Qed.

Lemma order_by_perm (l : list A) : Sqlite.order_by before l ≡ₚ l.
Proof.
  unfold Sqlite.order_by. rewrite insertion_sort_perm. apply Sqlite.scan_order_perm.
Qed.

Lemma insert_sorted_hd (x y : A) (l : list A) :
  before y x = true -> HdRel (fun a b => before a b = true) y l ->
  HdRel (fun a b => before a b = true) y (Sqlite.insert_sorted before x l).
Proof.
  intros Hyx Hl. destruct l as [|z l]; simpl.
  - by constructor.
  - destruct (before x z); constructor; [done|].
    by inversion Hl.
Qed.

Lemma insert_sorted_sorted (x : A) (l : list A) :
  Sorted (fun a b => before a b = true) l ->
  Sorted (fun a b => before a b = true) (Sqlite.insert_sorted before x l).
Proof.
  induction 1 as [|y l Hs IH Hhd]; simpl.
  - repeat constructor.
  - destruct (before x y) eqn:Hxy.
    + constructor; [by constructor|by constructor].
    + constructor; [done|].
      apply insert_sorted_hd; [by apply before_total|done].
Qed.

Lemma insertion_sort_sorted (l : list A) :
  Sorted (fun a b => before a b = true) (foldr (Sqlite.insert_sorted before) [] l).
Proof.
  induction l as [|x l IH]; simpl; [constructor|].
  by apply insert_sorted_sorted.
Qed.

Lemma order_by_sorted (l : list A) :
  Sorted (fun a b => before a b = true) (Sqlite.order_by before l).
Proof. apply insertion_sort_sorted. Qed.

Lemma order_by_nil : Sqlite.order_by before [] = [].
Proof.
  unfold Sqlite.order_by.
  by rewrite (proj1 (Permutation_nil_r _) (Sqlite.scan_order_perm A [])).
Qed.

Lemma order_by_singleton (x : A) : Sqlite.order_by before [x] = [x].
Proof.
  unfold Sqlite.order_by.
  by rewrite (proj1 (Permutation_singleton_r _ _) (Sqlite.scan_order_perm A [x])).
Qed.
End OrderBy.

Lemma desc_total (a b : option string) :
  Sqlite.desc a b = false -> Sqlite.desc b a = true.
Proof.
  destruct a as [x|], b as [y|]; simpl; try done.
  intros H. destruct (String.leb_total x y) as [Hxy|Hxy]; congruence.
Qed.

Lemma limit_offset_page {A} (limit offset : Z) (rows : list A) :
  0 <= limit -> 0 <= offset ->
  Sqlite.limit_offset limit offset rows =
    take (Z.to_nat limit) (drop (Z.to_nat offset) rows) /\
  Z.of_nat (length (Sqlite.limit_offset limit offset rows)) <= limit.
Proof.
  intros Hl Ho. unfold Sqlite.limit_offset.
  destruct (limit <? 0) eqn:E; [lia|].
  split; [done|]. rewrite length_take. lia.
Qed.

(** ** Listing responses *)

Lemma build_query_pred (model conversation_id start_date end_date : option string) :
  exists p,
    Sqlite.where_pred
      (Responses.build_query model conversation_id start_date end_date).1
      (Responses.build_query model conversation_id start_date end_date).2 = Ok p /\
    forall r, p r = matches_filter model conversation_id start_date end_date r.
Proof.
  unfold Responses.build_query, matches_filter.
  destruct model as [[|? ?]|], conversation_id as [[|? ?]|],
    start_date as [[|? ?]|], end_date as [[|? ?]|];
    (eexists; split; [reflexivity|]); intros r; simpl;
    rewrite ?andb_true_r, ?andb_assoc; reflexivity.
Qed.

Ltac solve_has_table :=
  let db := fresh "db" in
  intros db; destruct db as [[?|] [?|] [?|] [?|] [?|] [?|] [?|] [|]];
  vm_compute; reflexivity.

Lemma has_table_responses :
  forall db, Sqlite.has_table "responses" db = present (Sqlite.responses db).
Proof. solve_has_table. Qed.

Lemma int64_bounds (z : Z) : Sqlite.int64 z = true <-> - 2 ^ 63 <= z < 2 ^ 63.
Proof. unfold Sqlite.int64. rewrite andb_true_iff. lia. Qed.

Lemma int64_true (z : Z) : - 2 ^ 63 <= z < 2 ^ 63 -> Sqlite.int64 z = true.
Proof. apply int64_bounds. Qed.

Lemma shows_summary (r : Sqlite.Response) : shows (Responses.summary_of_row r) r.
Proof. by repeat split. Qed.

(** The page of the listing for a limit in [1,500] and an offset that
    SQLite reads as an integer. *)
Lemma list_responses_page (db : Sqlite.Db) (limit offset : Z)
    (model conversation_id start_date end_date : option string) :
  1 <= limit <= 500 -> 0 <= offset < 2 ^ 63 ->
  let matching :=
    filter (fun r => matches_filter model conversation_id start_date end_date r = true)
           (default [] (Sqlite.responses db)) in
  let ordered := Sqlite.order_by Sqlite.datetime_desc matching in
  exists page,
    Responses.list_responses db limit offset
      model conversation_id start_date end_date = Ok page /\
    Z.of_nat (length (Responses.items page)) <= limit /\
    Forall2 shows (Responses.items page)
      (take (Z.to_nat limit) (drop (Z.to_nat offset) ordered)) /\
    Responses.total page = Z.of_nat (length matching) /\
    ordered ≡ₚ matching /\
    Sorted (fun a b => Sqlite.datetime_desc a b = true) ordered /\
    (matching = [] -> Responses.items page = [] /\ Responses.total page = 0).
Proof.
  intros Hlimit Hoffset matching ordered.
  assert (Hperm : ordered ≡ₚ matching) by apply order_by_perm.
  assert (Hsorted : Sorted (fun a b => Sqlite.datetime_desc a b = true) ordered).
  { apply order_by_sorted. intros x y. apply desc_total. }
  assert (Hempty : matching = [] -> ordered = []).
  { intros Hm. unfold ordered. rewrite Hm. apply order_by_nil. }
  assert (Hshows : forall rows : list Sqlite.Response,
            Forall2 shows (Responses.summary_of_row <$> rows) rows).
  { intros rows. induction rows as [|r rows IH]; constructor;
      [apply shows_summary|done]. }
  unfold Responses.list_responses. rewrite has_table_responses.
  destruct (Sqlite.responses db) as [rows|] eqn:Hrows; simpl in *.
  2:{ eexists. split; [reflexivity|]. simpl.
      rewrite (Hempty eq_refl), drop_nil, take_nil.
      repeat split; try done; try lia; constructor. }
  destruct (build_query_pred model conversation_id start_date end_date)
    as (p & Hp & Hpm).
  destruct (Responses.build_query model conversation_id start_date end_date)
    as [where_clauses params] eqn:Hq. simpl in Hp.
  assert (Hfilter : filter (fun r => p r = true) rows = matching).
  { subst matching. apply list_filter_iff. intros r. by rewrite Hpm. }
  assert (Hrw : Sqlite.rows_where db (Responses.join_where where_clauses) params
                  limit offset =
                Ok (take (Z.to_nat limit) (drop (Z.to_nat offset) ordered))).
  { unfold Sqlite.rows_where. rewrite Hrows.
    assert (Sqlite.where_pred (default [] (Responses.join_where where_clauses)) params
            = Ok p) as ->.
    { destruct where_clauses; simpl; [|done]. exact Hp. }
    simpl. rewrite !int64_true by lia. simpl. rewrite Hfilter. fold ordered.
    by rewrite (proj1 (limit_offset_page limit offset ordered ltac:(lia) ltac:(lia))). }
  assert (Htotal :
    match Responses.join_where where_clauses with
    | Some w => Sqlite.count_where db w params
    | None => Sqlite.count "responses" (Some rows)
    end = Ok (Z.of_nat (length matching))).
  { destruct where_clauses as [|c cs] eqn:Hw; simpl.
    - unfold Sqlite.where_pred in Hp. simpl in Hp.
      injection Hp as <-. simpl in Hfilter. rewrite <- Hfilter.
      assert (filter (fun _ : Sqlite.Response => true = true) rows = rows) as ->;
        [|done].
      clear. induction rows as [|r rows IH]; [done|].
      rewrite filter_cons_True by done. by f_equal.
    - unfold Sqlite.count_where. rewrite Hrows. simpl. rewrite Hp. simpl.
      by rewrite Hfilter. }
  cbv zeta. cbn [fst snd]. rewrite Htotal. simpl. rewrite Hrw. simpl.
  eexists. split; [reflexivity|]. simpl.
  repeat split; try done.
  - rewrite length_fmap, length_take. lia.
  - rewrite Hempty by done. by rewrite drop_nil, take_nil.
  - by replace matching with (@nil Sqlite.Response).
Qed.

(** An offset of [2 ^ 63] or more is written into the text of the page
    statement as a literal that SQLite does not read as an integer: on a
    database with the [responses] table the listing is left by the error of
    the statement. *)
Lemma list_responses_offset_out_of_range (db : Sqlite.Db)
    (rows : list Sqlite.Response) (limit offset : Z)
    (model conversation_id start_date end_date : option string) :
  Sqlite.responses db = Some rows ->
  2 ^ 63 <= offset ->
  Responses.list_responses db limit offset
    model conversation_id start_date end_date =
    Raise (IntegrityError "datatype mismatch").
Proof.
  intros Hrows Hoffset.
  unfold Responses.list_responses. rewrite has_table_responses, Hrows.
  cbn [present negb]. cbv zeta.
  destruct (build_query_pred model conversation_id start_date end_date)
    as (p & Hp & Hpm).
  destruct (Responses.build_query model conversation_id start_date end_date)
    as [where_clauses params] eqn:Hq. simpl in Hp. cbn [fst snd].
  assert (Hrw : Sqlite.rows_where db (Responses.join_where where_clauses) params
                  limit offset = Raise (IntegrityError "datatype mismatch")).
  { unfold Sqlite.rows_where. rewrite Hrows.
    assert (Sqlite.where_pred (default [] (Responses.join_where where_clauses)) params
            = Ok p) as ->.
    { destruct where_clauses; simpl; [|done]. exact Hp. }
    simpl. assert (Sqlite.int64 offset = false) as ->.
    { unfold Sqlite.int64. apply andb_false_iff. right. lia. }
    by rewrite andb_false_r. }
  rewrite Hrw.
  destruct where_clauses as [|c cs]; simpl.
  - done.
  - unfold Sqlite.count_where. rewrite Hrows. simpl. by rewrite Hp.
Qed.

(** C1, as the code has it: for a limit in [1,500] and an offset from 0 to
    below [2 ^ 63], [list_responses] returns normally; its items show the
    rows [offset, offset+limit) of the rows that match the filter, ordered
    by datetime descending, field by field, hence at most [limit] of them;
    its total is the number of rows that match the same filter; and when no
    row matches, the items are empty and the total is 0.  For an offset of
    [2 ^ 63] or more the listing is the empty page with total 0 when the
    [responses] table does not exist, and is left by the error of SQLite
    when it does. *)
Theorem list_responses_page_and_total (db : Sqlite.Db) (limit offset : Z)
    (model conversation_id start_date end_date : option string) :
  1 <= limit <= 500 -> 0 <= offset ->
  let matching :=
    filter (fun r => matches_filter model conversation_id start_date end_date r = true)
           (default [] (Sqlite.responses db)) in
  let ordered := Sqlite.order_by Sqlite.datetime_desc matching in
  if offset <? 2 ^ 63 then
    exists page,
      Responses.list_responses db limit offset
        model conversation_id start_date end_date = Ok page /\
      Z.of_nat (length (Responses.items page)) <= limit /\
      Forall2 shows (Responses.items page)
        (take (Z.to_nat limit) (drop (Z.to_nat offset) ordered)) /\
      Responses.total page = Z.of_nat (length matching) /\
      ordered ≡ₚ matching /\
      Sorted (fun a b => Sqlite.datetime_desc a b = true) ordered /\
      (matching = [] -> Responses.items page = [] /\ Responses.total page = 0)
  else
    match Sqlite.responses db with
    | Some _ =>
        Responses.list_responses db limit offset
          model conversation_id start_date end_date =
          Raise (IntegrityError "datatype mismatch")
    | None =>
        Responses.list_responses db limit offset
          model conversation_id start_date end_date =
          Ok {| Responses.items := []; Responses.total := 0;
                Responses.limit := limit; Responses.offset := offset |}
    end.
Proof.
  intros Hlimit Hoffset matching ordered.
  destruct (offset <? 2 ^ 63) eqn:Hrange.
  - apply list_responses_page; lia.
  - destruct (Sqlite.responses db) as [rows|] eqn:Hrows.
    + apply (list_responses_offset_out_of_range db rows); [done|lia].
    + unfold Responses.list_responses. by rewrite has_table_responses, Hrows.
Qed.

(** ** Strings: occurrences, [find] and slices *)

Lemma append_cons (c : ascii) (s t : string) :
  String c s +:+ t = String c (s +:+ t).
Proof. reflexivity. Qed.

Lemma append_nil_l (t : string) : "" +:+ t = t.
Proof. reflexivity. Qed.

Lemma prefix_app (sub s : string) :
  String.prefix sub s = true <-> exists post, s = sub +:+ post.
Proof.
  revert s. induction sub as [|a sub IH]; intros s; simpl.
  - destruct s; split; eauto.
  - destruct s as [|b s]; simpl.
    + split; [done|]. intros [post H]. discriminate H.
    + destruct (ascii_dec a b) as [->|Hne].
      * rewrite IH. split; intros [post H]; exists post;
          rewrite append_cons in *; congruence.
      * split; [done|]. intros [post H]. rewrite append_cons in H. congruence.
Qed.

Lemma occurs_at_0 (sub s : string) :
  occurs_at sub s 0 <-> String.prefix sub s = true.
Proof.
  rewrite prefix_app. unfold occurs_at. split.
  - intros (pre & post & -> & Hlen). destruct pre; [|done]. eauto.
  - intros [post ->]. by exists "", post.
Qed.

Lemma occurs_at_S (sub : string) (c : ascii) (s : string) (p : nat) :
  occurs_at sub (String c s) (S p) <-> occurs_at sub s p.
Proof.
  unfold occurs_at. split.
  - intros (pre & post & H & Hlen). destruct pre as [|c' pre]; [done|].
    rewrite append_cons in H. simpl in Hlen. exists pre, post. split; congruence.
  - intros (pre & post & -> & Hlen). exists (String c pre), post.
    rewrite append_cons. simpl. by rewrite Hlen.
Qed.

Lemma occurs_at_nil (sub : string) (p : nat) :
  occurs_at sub "" p -> sub = "" /\ p = 0%nat.
Proof.
  intros (pre & post & H & Hlen). destruct pre; [|done].
  destruct sub; [|done]. done.
Qed.

Lemma index_cons (sub : string) (c : ascii) (s : string) :
  String.index 0 sub (String c s) =
    if String.prefix sub (String c s) then Some 0%nat
    else S <$> String.index 0 sub s.
Proof. simpl. by destruct (String.index 0 sub s). Qed.

Lemma index_first (sub s : string) (i : nat) :
  String.index 0 sub s = Some i -> first_occurrence sub s i.
Proof.
  revert i. induction s as [|c s IH]; intros i.
  - simpl. destruct sub; [|done]. intros [= <-]. split; [by exists "", ""|lia].
  - rewrite index_cons. destruct (String.prefix sub (String c s)) eqn:Hpre.
    + intros [= <-]. split; [by apply occurs_at_0|lia].
    + destruct (String.index 0 sub s) as [n|]; [|done].
      intros [= <-]. destruct (IH n eq_refl) as [Hocc Hmin].
      split; [by apply occurs_at_S|].
      intros [|j] Hj.
      * rewrite occurs_at_0. congruence.
      * rewrite occurs_at_S. apply Hmin. lia.
Qed.

Lemma index_none (sub s : string) (p : nat) :
  String.index 0 sub s = None -> ~ occurs_at sub s p.
Proof.
  revert p. induction s as [|c s IH]; intros p.
  - simpl. destruct sub; [done|]. intros _ H. by apply occurs_at_nil in H as [? _].
  - rewrite index_cons. destruct (String.prefix sub (String c s)) eqn:Hpre; [done|].
    destruct (String.index 0 sub s) as [n|] eqn:Hidx; [done|].
    intros _. destruct p as [|p].
    + rewrite occurs_at_0. congruence.
    + rewrite occurs_at_S. by apply IH.
Qed.

Lemma first_occurrence_unique (sub s : string) (p q : nat) :
  first_occurrence sub s p -> first_occurrence sub s q -> p = q.
Proof.
  intros [Hp Hpmin] [Hq Hqmin].
  destruct (Nat.lt_trichotomy p q) as [H|[H|H]]; [|done|].
  - by destruct (Hqmin p H).
  - by destruct (Hpmin q H).
Qed.

(** [find] returns the position of the first occurrence, and [-1] exactly
    when there is none. *)
Lemma find_first (s sub : string) (p : nat) :
  first_occurrence sub s p -> Py.find s sub = Z.of_nat p.
Proof.
  intros Hp. unfold Py.find.
  destruct (String.index 0 sub s) as [i|] eqn:Hidx.
  - apply index_first in Hidx. by rewrite (first_occurrence_unique _ _ _ _ Hidx Hp).
  - destruct Hp as [Hp _]. by destruct (index_none _ _ p Hidx).
Qed.

Lemma find_none (s sub : string) :
  (forall p, ~ occurs_at sub s p) -> Py.find s sub = -1.
Proof.
  intros Hno. unfold Py.find.
  destruct (String.index 0 sub s) as [i|] eqn:Hidx; [|done].
  apply index_first in Hidx as [Hocc _]. by destruct (Hno i).
Qed.

Lemma substring_n_0 (n : nat) (s : string) : String.substring n 0 s = "".
Proof. revert s. induction n as [|n IH]; intros [|c s]; simpl; auto. Qed.

Lemma substring_0_all (n : nat) (s : string) :
  (String.length s <= n)%nat -> String.substring 0 n s = s.
Proof.
  revert n. induction s as [|c s IH]; intros [|n] H; simpl in *; try done; try lia.
  f_equal. apply IH. lia.
Qed.

Lemma slice_window (s : string) (a b : Z) :
  0 <= a -> 0 <= b <= Py.len s ->
  Py.slice s a b = String.substring (Z.to_nat a) (Z.to_nat (b - a)) s.
Proof.
  intros Ha Hb. unfold Py.slice, Py.clamp.
  destruct (a <? 0) eqn:Ea; [lia|]. destruct (b <? 0) eqn:Eb; [lia|].
  destruct (Z_le_gt_dec a (Py.len s)) as [Hle|Hgt].
  - by rewrite !Z.min_l by lia.
  - rewrite (Z.min_r a) by lia.
    replace (Z.to_nat (Z.min b (Py.len s) - Py.len s)) with 0%nat by lia.
    replace (Z.to_nat (b - a)) with 0%nat by lia.
    by rewrite !substring_n_0.
Qed.

Lemma append_nil_r (s : string) : s +:+ "" = s.
Proof. induction s as [|c s IH]; [done|]. by rewrite append_cons, IH. Qed.

(** ** Snippets *)

(** What [create_snippet] computes: on a non-empty text, with
    [max_length >= 0], it looks for the first occurrence of the lower-cased
    query in the lower-cased text.  Without an occurrence it returns the first [max_length]
    characters, followed by an ellipsis exactly when the text is longer.
    With the first occurrence at [p] it returns the window from
    [max(0, p-50)] to [min(len, p+len(query)+150)], with an ellipsis in
    front exactly when the window does not start at 0 and one behind exactly
    when it does not reach the end; so a match at 0 has no leading ellipsis
    and a match that ends at the end of the text has no trailing one. *)
Lemma create_snippet_window (lower : string -> string)
    (text query : string) (max_length : Z) :
  text <> "" -> 0 <= max_length ->
  let n := Py.len text in
  let window (a b : Z) := String.substring (Z.to_nat a) (Z.to_nat (b - a)) text in
  ((forall p, ~ occurs_at (lower query) (lower text) p) ->
     Search.create_snippet lower text query max_length =
       window 0 max_length +:+ (if n >? max_length then "..." else "")) /\
  (forall p : nat, first_occurrence (lower query) (lower text) p ->
     let start := Z.max 0 (Z.of_nat p - 50) in
     let end_ := Z.min n (Z.of_nat p + Py.len query + 150) in
     Search.create_snippet lower text query max_length =
       (if start =? 0 then "" else "...") +:+
       window start end_ +:+
       (if end_ =? n then "" else "...")) /\
  (first_occurrence (lower query) (lower text) 0 ->
     let end_ := Z.min n (Py.len query + 150) in
     Search.create_snippet lower text query max_length =
       window 0 end_ +:+ (if end_ =? n then "" else "...")) /\
  (forall p : nat, first_occurrence (lower query) (lower text) p ->
     Z.of_nat p + Py.len query = n ->
     let start := Z.max 0 (Z.of_nat p - 50) in
     Search.create_snippet lower text query max_length =
       (if start =? 0 then "" else "...") +:+ window start n).
Proof.
  intros Htext Hmax n window.
  assert (Hn : 0 <= n) by (unfold n, Py.len; lia).
  assert (Heqb : String.eqb text "" = false) by (by apply String.eqb_neq).
  assert (Hfound : forall p : nat, first_occurrence (lower query) (lower text) p ->
     let start := Z.max 0 (Z.of_nat p - 50) in
     let end_ := Z.min n (Z.of_nat p + Py.len query + 150) in
     Search.create_snippet lower text query max_length =
       (if start =? 0 then "" else "...") +:+
       window start end_ +:+
       (if end_ =? n then "" else "...")).
  { intros p Hp start end_. unfold Search.create_snippet. rewrite Heqb.
    rewrite (find_first _ _ _ Hp).
    destruct (Z.of_nat p =? -1) eqn:E; [lia|]. fold n start end_.
    rewrite slice_window by (unfold Py.len in *; lia). fold (window start end_).
    destruct (start >? 0) eqn:Es, (start =? 0) eqn:Es'; try lia;
      destruct (end_ <? n) eqn:Ee, (end_ =? n) eqn:Ee'; try lia;
      rewrite ?append_nil_r, ?append_nil_l; try reflexivity.
    all: by (rewrite !append_cons, !append_nil_l). }
  split; [|split; [exact Hfound|split]].
  - intros Hno. unfold Search.create_snippet. rewrite Heqb.
    rewrite (find_none _ _ Hno). simpl. fold n.
    destruct (n >? max_length) eqn:E.
    + unfold Py.slice_to. rewrite slice_window by (unfold Py.len in *; lia). done.
    + rewrite append_nil_r. unfold window. symmetry. apply substring_0_all.
      unfold n, Py.len in *. lia.
  - intros H0 end_. specialize (Hfound 0%nat H0). simpl in Hfound.
    rewrite Hfound. by rewrite append_nil_l.
  - intros p Hp Hend start. rewrite (Hfound p Hp). fold start.
    replace (Z.min n (Z.of_nat p + Py.len query + 150)) with n by lia.
    by rewrite Z.eqb_refl, append_nil_r.
Qed.

(** C10: the snippet function of the JSON API and the one of the HTML search
    view return the same string for every text, query and [max_length]. *)
Theorem create_snippet_api_view_equal (lower : string -> string)
    (text query : string) (max_length : Z) :
  Search.create_snippet lower text query max_length =
  SearchView.create_snippet lower text query max_length.
Proof.
  unfold Search.create_snippet, SearchView.create_snippet.
  destruct (String.eqb text ""); [done|].
  destruct (Py.find (lower text) (lower query) =? -1); [|done].
  by destruct (Py.len text >? max_length).
Qed.

Lemma has_table_conversations :
  forall db, Sqlite.has_table "conversations" db = present (Sqlite.conversations db).
Proof. solve_has_table. Qed.

Lemma has_table_tools :
  forall db, Sqlite.has_table "tools" db = present (Sqlite.tools db).
Proof. solve_has_table. Qed.

Lemma has_table_tool_calls :
  forall db, Sqlite.has_table "tool_calls" db = present (Sqlite.tool_calls db).
Proof. solve_has_table. Qed.

Lemma has_table_tool_results :
  forall db, Sqlite.has_table "tool_results" db = present (Sqlite.tool_results db).
Proof. solve_has_table. Qed.

Lemma has_table_prompt_attachments :
  forall db,
    Sqlite.has_table "prompt_attachments" db = present (Sqlite.prompt_attachments db).
Proof. solve_has_table. Qed.

Lemma has_table_responses_fts :
  forall db, Sqlite.has_table "responses_fts" db = Sqlite.responses_fts db.
Proof. solve_has_table. Qed.

(** ** The date filter *)

Lemma filter_all {A} (l : list A) : filter (fun _ : A => true = true) l = l.
Proof.
  induction l as [|x l IH]; [done|].
  rewrite filter_cons_True by done. by f_equal.
Qed.

Lemma where_pred_nil (params : gmap string Sqlite.value) :
  Sqlite.where_pred [] params = Ok (fun _ => true).
Proof. reflexivity. Qed.

Lemma date_filter_pred (params : gmap string Sqlite.value)
    (start_date end_date : option string) :
  exists p,
    Sqlite.where_pred (Metrics.build_date_filter params start_date end_date).1
                      (Metrics.build_date_filter params start_date end_date).2 = Ok p /\
    forall r, p r = in_bounds start_date end_date r.
Proof.
  unfold Metrics.build_date_filter, in_bounds, Sqlite.where_pred.
  destruct start_date as [[|? ?]|], end_date as [[|? ?]|]; simpl;
    unfold Sqlite.bind, Sqlite.text_param; simpl;
    rewrite ?lookup_insert_eq, ?lookup_insert_ne, ?lookup_insert_eq by done; simpl;
    (eexists; split; [reflexivity|]); intros r; simpl;
    rewrite ?andb_true_r; reflexivity.
Qed.

Lemma date_filter_limit (params : gmap string Sqlite.value)
    (start_date end_date : option string) :
  (Metrics.build_date_filter params start_date end_date).2 !! "limit" = params !! "limit".
Proof.
  unfold Metrics.build_date_filter.
  destruct start_date as [[|? ?]|], end_date as [[|? ?]|]; simpl;
    by rewrite ?lookup_insert_ne by done.
Qed.

(** ** The latency histogram *)

Lemma count_if_nil {A} (p : A -> bool) : count_if p [] = 0.
Proof. reflexivity. Qed.

Lemma count_if_cons {A} (p : A -> bool) (x : A) (l : list A) :
  count_if p (x :: l) = (if p x then 1 else 0) + count_if p l.
Proof.
  unfold count_if. destruct (p x) eqn:E.
  - rewrite filter_cons_True by done. simpl length. lia.
  - rewrite filter_cons_False by congruence. lia.
Qed.

Lemma count_if_filter {A} (p q : A -> bool) (l : list A) :
  Z.of_nat (length (filter (fun x => p x && q x = true) l)) =
  count_if p (filter (fun x => q x = true) l).
Proof.
  unfold count_if. rewrite list_filter_filter. do 2 f_equal.
  apply list_filter_iff. intros x. rewrite andb_true_iff. tauto.
Qed.

Lemma mapM_ok {A B} (f : A -> result B) (g : A -> B) (l : list A) :
  (forall x, f x = Ok (g x)) -> mapM f l = Ok (g <$> l).
Proof.
  intros Hf. induction l as [|x l IH]; [done|].
  simpl. rewrite Hf. simpl. rewrite IH. done.
Qed.

Ltac decide_cmp :=
  repeat match goal with
    | |- context [?a <=? ?b] =>
        (rewrite (proj2 (Z.leb_le a b)) by lia) || (rewrite (proj2 (Z.leb_gt a b)) by lia)
    | |- context [?a <? ?b] =>
        (rewrite (proj2 (Z.ltb_lt a b)) by lia) || (rewrite (proj2 (Z.ltb_ge a b)) by lia)
    end.

(** A duration lies in exactly one bucket when it is not negative, and in
    none when it is. *)
Lemma bucket_partition (d : Z) :
  Sqlite.sum_z
    ((fun b : Z * option Z * string =>
        if Sqlite.in_bucket b.1.1 b.1.2 d then 1 else 0) <$> Metrics.buckets) =
  if 0 <=? d then 1 else 0.
Proof.
  unfold Metrics.buckets, Sqlite.in_bucket. simpl.
  assert (d < 0 \/ 0 <= d < 100 \/ 100 <= d < 500 \/ 500 <= d < 1000 \/
          1000 <= d < 2000 \/ 2000 <= d < 5000 \/ 5000 <= d < 10000 \/
          10000 <= d < 30000 \/ 30000 <= d < 60000 \/ 60000 <= d) as Hd by lia.
  repeat (destruct Hd as [Hd|Hd]); decide_cmp; reflexivity.
Qed.

Lemma bucket_counts_sum (rows : list Sqlite.Response) :
  Sqlite.sum_z
    ((fun b : Z * option Z * string =>
        count_if (Sqlite.duration_in b.1.1 b.1.2) rows) <$> Metrics.buckets) =
  count_if timed rows.
Proof.
  induction rows as [|r rows IH]; [reflexivity|].
  rewrite count_if_cons, <- IH.
  pose proof (bucket_partition (default (-1) (Sqlite.r_duration_ms r))) as Hr.
  unfold Metrics.buckets in *. simpl in *.
  rewrite !count_if_cons. unfold timed, Sqlite.duration_in in *.
  destruct (Sqlite.r_duration_ms r) as [d|]; simpl in *; lia.
Qed.

Lemma count_latency_within (db : Sqlite.Db) (rows : list Sqlite.Response)
    (start_date end_date : option string) (low : Z) (high : option Z) :
  Sqlite.responses db = Some rows ->
  Sqlite.count_latency db low high
    (Metrics.build_date_filter ∅ start_date end_date).1
    (Metrics.build_date_filter ∅ start_date end_date).2 =
  Ok (count_if (Sqlite.duration_in low high)
        (filter (fun r => in_bounds start_date end_date r = true) rows)).
Proof.
  intros Hrows. unfold Sqlite.count_latency. rewrite Hrows. simpl.
  destruct (date_filter_pred ∅ start_date end_date) as (p & -> & Hp). simpl.
  f_equal. rewrite count_if_filter. unfold count_if. do 3 f_equal.
  apply list_filter_iff. intros r. by rewrite Hp.
Qed.

Lemma latency_distribution_run (db : Sqlite.Db) (rows : list Sqlite.Response)
    (start_date end_date : option string) :
  Sqlite.responses db = Some rows ->
  Metrics.get_latency_distribution db start_date end_date =
  Ok ((fun b : Z * option Z * string =>
         {| Metrics.range := b.2;
            Metrics.count :=
              count_if (Sqlite.duration_in b.1.1 b.1.2)
                (filter (fun r => in_bounds start_date end_date r = true) rows) |}) <$>
        Metrics.buckets).
Proof.
  intros Hrows.
  unfold Metrics.get_latency_distribution. rewrite has_table_responses, Hrows.
  cbv zeta. cbn [present negb].
  apply mapM_ok. intros [[low high] label].
  rewrite (count_latency_within db rows) by done. reflexivity.
Qed.

Lemma latency_distribution_no_table (db : Sqlite.Db)
    (start_date end_date : option string) :
  Sqlite.responses db = None ->
  Metrics.get_latency_distribution db start_date end_date = Ok [].
Proof.
  intros Hrows. unfold Metrics.get_latency_distribution.
  by rewrite has_table_responses, Hrows.
Qed.

(** C4, as the code has it: when the [responses] table exists, the
    histogram is the nine labelled buckets in ascending order, each with the
    number of responses inside the date bounds whose duration is present
    and in its half-open range, and the counts add up to the number of
    responses inside the bounds whose duration is present and not negative;
    when the table does not exist, the histogram is the empty list. *)
Theorem latency_distribution_buckets (db : Sqlite.Db)
    (start_date end_date : option string) :
  match Sqlite.responses db with
  | Some rows =>
      let within := filter (fun r => in_bounds start_date end_date r = true) rows in
      let n (low : Z) (high : option Z) :=
        count_if (Sqlite.duration_in low high) within in
      exists bs,
        Metrics.get_latency_distribution db start_date end_date = Ok bs /\
        bs = [ {| Metrics.range := "0-100ms"; Metrics.count := n 0 (Some 100) |};
               {| Metrics.range := "100-500ms"; Metrics.count := n 100 (Some 500) |};
               {| Metrics.range := "500ms-1s"; Metrics.count := n 500 (Some 1000) |};
               {| Metrics.range := "1-2s"; Metrics.count := n 1000 (Some 2000) |};
               {| Metrics.range := "2-5s"; Metrics.count := n 2000 (Some 5000) |};
               {| Metrics.range := "5-10s"; Metrics.count := n 5000 (Some 10000) |};
               {| Metrics.range := "10-30s"; Metrics.count := n 10000 (Some 30000) |};
               {| Metrics.range := "30-60s"; Metrics.count := n 30000 (Some 60000) |};
               {| Metrics.range := "60s+"; Metrics.count := n 60000 None |} ] /\
        bucket_total bs = count_if timed within
  | None => Metrics.get_latency_distribution db start_date end_date = Ok []
  end.
Proof.
  destruct (Sqlite.responses db) as [rows|] eqn:Hrows.
  - intros within n.
    rewrite (latency_distribution_run db rows) by done.
    eexists. split; [reflexivity|]. split; [reflexivity|].
    unfold bucket_total. rewrite <- list_fmap_compose.
    apply (bucket_counts_sum within).
  - by apply latency_distribution_no_table.
Qed.

Lemma date_filter_rows (params : gmap string Sqlite.value)
    (start_date end_date : option string) (rows : list Sqlite.Response) :
  exists p,
    Sqlite.where_pred (Metrics.build_date_filter params start_date end_date).1
                      (Metrics.build_date_filter params start_date end_date).2 = Ok p /\
    (forall r, p r = in_bounds start_date end_date r) /\
    filter (fun r => p r = true) rows =
      filter (fun r => in_bounds start_date end_date r = true) rows.
Proof.
  destruct (date_filter_pred params start_date end_date) as (p & Hp & Hin).
  exists p. split; [done|]. split; [done|].
  apply list_filter_iff. intros r. by rewrite Hin.
Qed.

Lemma select_totals_within (db : Sqlite.Db) (rows : list Sqlite.Response)
    (start_date end_date : option string) :
  Sqlite.responses db = Some rows ->
  Sqlite.select_totals db
    (Metrics.build_date_filter ∅ start_date end_date).1
    (Metrics.build_date_filter ∅ start_date end_date).2 =
  Sqlite.aggregate (filter (fun r => in_bounds start_date end_date r = true) rows).
Proof.
  intros Hrows. unfold Sqlite.select_totals. rewrite Hrows. simpl.
  destruct (date_filter_rows ∅ start_date end_date rows) as (p & -> & _ & Hf).
  simpl. by rewrite Hf.
Qed.

Lemma select_by_model_within (db : Sqlite.Db) (rows : list Sqlite.Response)
    (start_date end_date : option string) (limit : Z) :
  Sqlite.responses db = Some rows ->
  let within := filter (fun r => in_bounds start_date end_date r = true) rows in
  Sqlite.select_by_model db
    (Metrics.build_date_filter (<["limit" := Sqlite.Integer limit]> ∅)
       start_date end_date).1
    (Metrics.build_date_filter (<["limit" := Sqlite.Integer limit]> ∅)
       start_date end_date).2 =
  Sqlite.select_by_model (with_responses within db) []
    (<["limit" := Sqlite.Integer limit]> ∅).
Proof.
  intros Hrows within. unfold Sqlite.select_by_model. rewrite Hrows. simpl.
  destruct (date_filter_rows (<["limit" := Sqlite.Integer limit]> ∅)
              start_date end_date rows) as (p & -> & _ & Hf).
  simpl. unfold Sqlite.integer_param. rewrite date_filter_limit.
  rewrite lookup_insert_eq. simpl. by rewrite Hf, filter_all.
Qed.

Lemma select_series_within (strftime : string -> string -> option string)
    (value_of : list Sqlite.Response -> result Z) (db : Sqlite.Db)
    (rows : list Sqlite.Response) (start_date end_date : option string)
    (date_format : string) :
  Sqlite.responses db = Some rows ->
  let within := filter (fun r => in_bounds start_date end_date r = true) rows in
  Sqlite.select_series strftime value_of db date_format
    (Metrics.build_date_filter ∅ start_date end_date).1
    (Metrics.build_date_filter ∅ start_date end_date).2 =
  Sqlite.select_series strftime value_of (with_responses within db) date_format [] ∅.
Proof.
  intros Hrows within. unfold Sqlite.select_series. rewrite Hrows. simpl.
  destruct (date_filter_rows ∅ start_date end_date rows) as (p & -> & Hp & _).
  simpl. do 3 f_equal. unfold within. rewrite list_filter_filter.
  apply list_filter_iff. intros r. rewrite Hp. tauto.
Qed.

Lemma has_table_with_responses (name : string) (rows within : list Sqlite.Response)
    (db : Sqlite.Db) :
  Sqlite.responses db = Some rows ->
  Sqlite.has_table name (with_responses within db) = Sqlite.has_table name db.
Proof.
  intros Hrows. unfold Sqlite.has_table, Sqlite.table_names, with_responses.
  simpl. by rewrite Hrows.
Qed.

(** The running sum of [SUM], when it stays in range, is the sum. *)
Lemma sum_int64_some (xs : list Z) (acc total : Z) :
  Sqlite.sum_int64 acc xs = Some total -> total = acc + Sqlite.sum_z xs.
Proof.
  revert acc. induction xs as [|x xs IH]; intros acc; simpl.
  - intros [= <-]. lia.
  - destruct (Sqlite.int64 (acc + x)); [|done].
    intros H. apply IH in H. lia.
Qed.

Lemma sum_abs_nonneg (xs : list Z) : 0 <= Sqlite.sum_z (Z.abs <$> xs).
Proof.
  induction xs as [|y ys IHy]; [done|].
  unfold Sqlite.sum_z in *. rewrite fmap_cons. cbn [foldr]. lia.
Qed.

(** Values whose absolute values add up to less than [2 ^ 63] never take
    the running sum out of range. *)
Lemma sum_int64_fits (xs : list Z) (acc : Z) :
  Z.abs acc + Sqlite.sum_z (Z.abs <$> xs) < 2 ^ 63 ->
  Sqlite.sum_int64 acc xs = Some (acc + Sqlite.sum_z xs).
Proof.
  revert acc. induction xs as [|x xs IH]; intros acc H.
  - unfold Sqlite.sum_z in *. cbn [Sqlite.sum_int64 foldr]. f_equal. lia.
  - pose proof (sum_abs_nonneg xs) as Hpos.
    rewrite fmap_cons in H. unfold Sqlite.sum_z in H, Hpos. cbn [foldr] in H.
    cbn [Sqlite.sum_int64]. rewrite int64_true by lia.
    rewrite IH by (unfold Sqlite.sum_z; lia).
    unfold Sqlite.sum_z. cbn [foldr]. f_equal. lia.
Qed.

Lemma sql_sum_run (vals : list (option Z)) :
  match Sqlite.sql_sum vals with
  | Ok s => Sqlite.coalesce0 s = Sqlite.sum_z (Sqlite.non_null vals)
  | Raise e =>
      e = OperationalError "integer overflow" /\
      ~ Sqlite.sum_z (Z.abs <$> Sqlite.non_null vals) < 2 ^ 63
  end.
Proof.
  unfold Sqlite.sql_sum. destruct (Sqlite.non_null vals) as [|x xs]; [done|].
  destruct (Sqlite.sum_int64 0 (x :: xs)) as [total|] eqn:Hsum.
  - apply sum_int64_some in Hsum. unfold Sqlite.coalesce0. simpl default. lia.
  - split; [done|]. intros Hfits.
    rewrite sum_int64_fits in Hsum; [done|].
    change (Z.abs 0) with 0. lia.
Qed.

(** The one row of the summary statement: the counts, sums and means of the
    rows, or the error of a token sum that left the 64-bit range. *)
Lemma aggregate_run (rows : list Sqlite.Response) :
  match Sqlite.aggregate rows with
  | Ok t =>
      t = {| Sqlite.n_responses := Z.of_nat (length rows);
             Sqlite.sum_input_tokens := column_sum Sqlite.r_input_tokens rows;
             Sqlite.sum_output_tokens := column_sum Sqlite.r_output_tokens rows;
             Sqlite.mean_duration_ms := Sqlite.sql_avg (Sqlite.r_duration_ms <$> rows);
             Sqlite.mean_input_tokens := Sqlite.sql_avg (Sqlite.r_input_tokens <$> rows);
             Sqlite.mean_output_tokens := Sqlite.sql_avg (Sqlite.r_output_tokens <$> rows);
             Sqlite.n_models := Sqlite.count_distinct (Sqlite.r_model <$> rows) |}
  | Raise e =>
      e = OperationalError "integer overflow" /\
      ~ (fits_int64 Sqlite.r_input_tokens rows /\
         fits_int64 Sqlite.r_output_tokens rows)
  end.
Proof.
  unfold Sqlite.aggregate, fits_int64, column_sum.
  pose proof (sql_sum_run (Sqlite.r_input_tokens <$> rows)) as Hin.
  pose proof (sql_sum_run (Sqlite.r_output_tokens <$> rows)) as Hout.
  destruct (Sqlite.sql_sum (Sqlite.r_input_tokens <$> rows)) as [si|ei]; simpl.
  - destruct (Sqlite.sql_sum (Sqlite.r_output_tokens <$> rows)) as [so|eo]; simpl.
    + by rewrite Hin, Hout.
    + destruct Hout as [-> Hout]. split; [done|]. tauto.
  - destruct Hin as [-> Hin]. split; [done|]. tauto.
Qed.

Lemma count_tables_run (db : Sqlite.Db) :
  (if Sqlite.has_table "conversations" db
   then Sqlite.count "conversations" (Sqlite.conversations db) else Ok 0) =
    Ok (Z.of_nat (length (Sqlite.table_rows (Sqlite.conversations db)))) /\
  (if Sqlite.has_table "tool_calls" db
   then Sqlite.count "tool_calls" (Sqlite.tool_calls db) else Ok 0) =
    Ok (Z.of_nat (length (Sqlite.table_rows (Sqlite.tool_calls db)))) /\
  (if Sqlite.has_table "tool_results" db
   then Sqlite.count_tool_errors db else Ok 0) =
    Ok (Z.of_nat (length (filter (fun t => is_Some (Sqlite.tr_exception t))
                            (Sqlite.table_rows (Sqlite.tool_results db))))).
Proof.
  rewrite has_table_conversations, has_table_tool_calls, has_table_tool_results.
  unfold Sqlite.count_tool_errors.
  by destruct (Sqlite.conversations db), (Sqlite.tool_calls db),
    (Sqlite.tool_results db).
Qed.

(** C5, as the code has it.  When the [responses] table exists, every
    aggregation applies the date bounds to its rows before it aggregates:
    its answer is the one it gives without bounds on the responses within
    them.  The summary then holds the count, the token sums and means and
    the number of distinct models of the responses within the bounds, and
    the counts of conversations, tool calls and tool errors of the whole
    tables; its only error is the integer overflow of a token sum that
    leaves the 64-bit range.  When the table does not exist, the summary is
    all zeros without means and every other aggregation is the empty
    list. *)
Theorem aggregation_within_date_bounds
    (strftime : string -> string -> option string) (real_add : Z -> Z -> Z)
    (db : Sqlite.Db) (start_date end_date : option string)
    (limit : Z) (granularity : string) :
  match Sqlite.responses db with
  | Some rows =>
      let within := filter (fun r => in_bounds start_date end_date r = true) rows in
      let db' := with_responses within db in
      match Metrics.get_metrics_summary db start_date end_date with
      | Ok m =>
          Metrics.total_responses m = Z.of_nat (length within) /\
          Metrics.total_input_tokens m = column_sum Sqlite.r_input_tokens within /\
          Metrics.total_output_tokens m = column_sum Sqlite.r_output_tokens within /\
          Metrics.total_tokens m =
            Metrics.total_input_tokens m + Metrics.total_output_tokens m /\
          Metrics.avg_duration_ms m =
            Sqlite.sql_avg (Sqlite.r_duration_ms <$> within) /\
          Metrics.avg_input_tokens m =
            Sqlite.sql_avg (Sqlite.r_input_tokens <$> within) /\
          Metrics.avg_output_tokens m =
            Sqlite.sql_avg (Sqlite.r_output_tokens <$> within) /\
          Metrics.unique_models m =
            Sqlite.count_distinct (Sqlite.r_model <$> within) /\
          Metrics.total_conversations m =
            Z.of_nat (length (Sqlite.table_rows (Sqlite.conversations db))) /\
          Metrics.total_tool_calls m =
            Z.of_nat (length (Sqlite.table_rows (Sqlite.tool_calls db))) /\
          Metrics.total_tool_errors m =
            Z.of_nat (length (filter (fun t => is_Some (Sqlite.tr_exception t))
                                (Sqlite.table_rows (Sqlite.tool_results db))))
      | Raise e =>
          e = OperationalError "integer overflow" /\
          ~ (fits_int64 Sqlite.r_input_tokens within /\
             fits_int64 Sqlite.r_output_tokens within)
      end /\
      Metrics.get_metrics_summary db start_date end_date =
        Metrics.get_metrics_summary db' None None /\
      Metrics.get_model_usage db start_date end_date limit =
        Metrics.get_model_usage db' None None limit /\
      Metrics.get_token_usage_over_time strftime real_add db
          start_date end_date granularity =
        Metrics.get_token_usage_over_time strftime real_add db'
          None None granularity /\
      Metrics.get_responses_over_time strftime db start_date end_date granularity =
        Metrics.get_responses_over_time strftime db' None None granularity /\
      Metrics.get_latency_distribution db start_date end_date =
        Metrics.get_latency_distribution db' None None
  | None =>
      Metrics.get_metrics_summary db start_date end_date =
        Ok Metrics.MetricsSummary_default /\
      Metrics.get_model_usage db start_date end_date limit = Ok [] /\
      Metrics.get_token_usage_over_time strftime real_add db
          start_date end_date granularity = Ok [] /\
      Metrics.get_responses_over_time strftime db start_date end_date granularity
        = Ok [] /\
      Metrics.get_latency_distribution db start_date end_date = Ok []
  end.
Proof.
  destruct (Sqlite.responses db) as [rows|] eqn:Hrows.
  2: { unfold Metrics.get_metrics_summary, Metrics.get_model_usage,
         Metrics.get_token_usage_over_time, Metrics.get_responses_over_time,
         Metrics.get_latency_distribution.
       by rewrite has_table_responses, Hrows. }
  intros within db'.
  assert (Hrows' : Sqlite.responses db' = Some within) by reflexivity.
  assert (Hwithin : filter (fun r => in_bounds None None r = true) within = within).
  { apply filter_all. }
  assert (Hsummary :
    Metrics.get_metrics_summary db start_date end_date =
      Metrics.get_metrics_summary db' None None).
  { unfold Metrics.get_metrics_summary.
    rewrite !(has_table_with_responses _ rows within db Hrows).
    destruct (Sqlite.has_table "responses" db); [|done]. cbv zeta. cbn [negb].
    rewrite (select_totals_within db rows) by done.
    rewrite (select_totals_within db' within None None) by done.
    by rewrite Hwithin. }
  split; [|split; [exact Hsummary|]].
  - unfold Metrics.get_metrics_summary.
    rewrite has_table_responses, Hrows. cbv zeta. cbn [present negb].
    rewrite (select_totals_within db rows) by done. fold within.
    destruct (count_tables_run db) as (-> & -> & ->).
    pose proof (aggregate_run within) as Hagg.
    destruct (Sqlite.aggregate within) as [t|e]; simpl; [|done].
    subst t. simpl. repeat split; reflexivity.
  - split; [|split; [|split]].
    + unfold Metrics.get_model_usage.
      rewrite (has_table_with_responses _ rows within db Hrows).
      destruct (Sqlite.has_table "responses" db); [|done]. cbv zeta. cbn [negb].
      by rewrite (select_by_model_within db rows) by done.
    + unfold Metrics.get_token_usage_over_time.
      rewrite (has_table_with_responses _ rows within db Hrows).
      destruct (Sqlite.has_table "responses" db); [|done]. cbn [negb].
      destruct (Metrics.date_format_of granularity) as [f|]; [|done]. simpl.
      by rewrite (select_series_within strftime _ db rows) by done.
    + unfold Metrics.get_responses_over_time.
      rewrite (has_table_with_responses _ rows within db Hrows).
      destruct (Sqlite.has_table "responses" db); [|done]. cbn [negb].
      destruct (Metrics.date_format_of granularity) as [f|]; [|done]. simpl.
      by rewrite (select_series_within strftime _ db rows) by done.
    + rewrite (latency_distribution_run db rows) by done.
      rewrite (latency_distribution_run db' within) by done.
      by rewrite Hwithin.
Qed.

Lemma insert_by_elem {A} (key : A -> Z) (x y : A) (l : list A) :
  y ∈ Py.insert_by key x l <-> y = x \/ y ∈ l.
Proof.
  induction l as [|z l IH]; simpl.
  - rewrite list_elem_of_singleton, elem_of_nil. tauto.
  - destruct (key x <=? key z); rewrite !elem_of_cons; [tauto|].
    rewrite IH. tauto.
Qed.

Lemma sorted_elem {A} (key : A -> Z) (y : A) (l : list A) :
  y ∈ Py.sorted key l <-> y ∈ l.
Proof.
  induction l as [|x l IH]; simpl; [done|].
  unfold Py.sorted in *. simpl. rewrite insert_by_elem, elem_of_cons, IH. tauto.
Qed.

Lemma attachment_of_link_no_content (rows : list (gmap string Sqlite.value))
    (link : Sqlite.AttachmentLink) (att : gmap string Sqlite.value) :
  Responses.attachment_of_link rows link = Some att -> att !! "content" = None.
Proof.
  unfold Responses.attachment_of_link.
  destruct (filter _ rows) as [|row ?]; [done|].
  intros [= <-]. rewrite lookup_insert_ne by done. apply lookup_delete_eq.
Qed.

Lemma attachment_of_link_content (rows rows' : list (gmap string Sqlite.value))
    (link : Sqlite.AttachmentLink) :
  Forall2 same_but_content rows rows' ->
  Responses.attachment_of_link rows link = Responses.attachment_of_link rows' link.
Proof.
  unfold Responses.attachment_of_link.
  induction 1 as [|a b rows rows' Hab Hrows IH]; [done|].
  assert (Hid : a !! "id" = b !! "id").
  { unfold same_but_content in Hab.
    rewrite <- (lookup_delete_ne a "content" "id") by done.
    rewrite <- (lookup_delete_ne b "content" "id") by done.
    by rewrite Hab. }
  rewrite !filter_cons. rewrite Hid.
  destruct (decide (b !! "id" = Some (Sqlite.Text (Sqlite.pa_attachment_id link))));
    [|exact IH].
  unfold same_but_content in Hab. by rewrite Hab.
Qed.

(** C9: no attachment the listing returns has a [content] field, and the
    answer is the same for two databases that differ only in the binary
    content of their attachments. *)
Theorem attachments_exclude_content (db db' : Sqlite.Db) (response_id : string) :
  without_content (Responses.get_response_attachments db response_id) /\
  (content_changed db db' ->
   Responses.get_response_attachments db response_id =
   Responses.get_response_attachments db' response_id).
Proof.
  split.
  - unfold without_content, Responses.get_response_attachments.
    destruct (negb _); [by constructor|].
    destruct (filter _ _) as [|l ls]; [by constructor|].
    apply Forall_forall. intros att Hatt.
    apply sorted_elem, list_elem_of_omap in Hatt as (link & _ & Hlink).
    by apply attachment_of_link_no_content in Hlink.
  - intros (H1 & H2 & H3 & H4 & H5 & H6 & H7 & H8).
    unfold Responses.get_response_attachments.
    rewrite !has_table_prompt_attachments, <- H6.
    destruct (negb _); [done|].
    destruct (filter _ _) as [|l ls]; [done|].
    do 2 f_equal. apply list_omap_ext.
    apply Forall2_same_length_lookup_2; [done|].
    intros i x y Hx Hy. simplify_eq. apply attachment_of_link_content.
    by destruct (Sqlite.attachments db) as [rows|],
      (Sqlite.attachments db') as [rows'|].
Qed.

(** C6 at the failing input: on a database without a [responses] table and
    without a full-text index the search endpoint of the JSON API goes to
    the fallback statement over [responses], and SQLite raises. *)
Theorem search_without_responses_raises (lower : string -> string)
    (fts_count : Sqlite.Db -> string -> result Z)
    (fts_rows : Sqlite.Db -> string -> gmap string Sqlite.value ->
                result (list Sqlite.Response))
    (db : Sqlite.Db) (q : string) (limit offset : Z) :
  Sqlite.responses db = None ->
  Sqlite.responses_fts db = false ->
  Search.search lower fts_count fts_rows db q limit offset =
    Raise (OperationalError "no such table: responses").
Proof.
  intros Hrows Hfts. unfold Search.search.
  rewrite has_table_responses_fts, Hfts. cbn [negb].
  unfold Search._search_like, Sqlite.count_like. by rewrite Hrows.
Qed.

(** With an index and without [responses] the fallback is the handler of
    the failed indexed search, and raises all the same. *)
Lemma search_fallback_without_responses (lower : string -> string)
    (fts_count : Sqlite.Db -> string -> result Z)
    (fts_rows : Sqlite.Db -> string -> gmap string Sqlite.value ->
                result (list Sqlite.Response))
    (db : Sqlite.Db) (q : string) (limit offset : Z) (e : exn) :
  Sqlite.responses db = None ->
  fts_count db (fts_count_text q) = Raise e ->
  Search.search lower fts_count fts_rows db q limit offset =
    Raise (OperationalError "no such table: responses").
Proof.
  intros Hrows Hfts. unfold Search.search.
  assert (Hlike : Search._search_like lower db q limit offset =
                  Raise (OperationalError "no such table: responses")).
  { unfold Search._search_like, Sqlite.count_like. by rewrite Hrows. }
  destruct (negb _); [done|].
  unfold Search._search_fts. fold (fts_count_text q). by rewrite Hfts.
Qed.

(** The search page of the HTML views asks for the [responses] table first
    and answers with no results. *)
Lemma search_page_without_responses (lower : string -> string)
    (fts_count : Sqlite.Db -> string -> result Z)
    (fts_rows : Sqlite.Db -> string -> gmap string Sqlite.value ->
                result (list Sqlite.Response))
    (q : option string) (page limit : Z) :
  SearchView.search_page lower fts_count fts_rows empty_db q page limit =
    Ok {| SearchView.query := default "" q; SearchView.results := [];
          SearchView.total := 0; SearchView.page := page;
          SearchView.limit := limit; SearchView.total_pages := 0 |}.
Proof.
  unfold SearchView.search_page. by rewrite andb_false_r.
Qed.

(** The guarded endpoints answer a missing table with an empty result. *)
Lemma list_tools_without_table (db : Sqlite.Db) :
  Sqlite.tools db = None ->
  Tools.list_tools db = Ok {| Tools.items := []; Tools.total := 0 |}.
Proof.
  intros H. unfold Tools.list_tools. by rewrite has_table_tools, H.
Qed.

Lemma list_responses_without_table (db : Sqlite.Db) (limit offset : Z)
    (model conversation_id start_date end_date : option string) :
  Sqlite.responses db = None ->
  Responses.list_responses db limit offset model conversation_id start_date end_date =
    Ok {| Responses.items := []; Responses.total := 0;
          Responses.limit := limit; Responses.offset := offset |}.
Proof.
  intros H. unfold Responses.list_responses. by rewrite has_table_responses, H.
Qed.

Lemma metrics_summary_without_table (db : Sqlite.Db) (start_date end_date : option string) :
  Sqlite.responses db = None ->
  Metrics.get_metrics_summary db start_date end_date = Ok Metrics.MetricsSummary_default.
Proof.
  intros H. unfold Metrics.get_metrics_summary. by rewrite has_table_responses, H.
Qed.

Lemma attachments_without_links_table (db : Sqlite.Db) (response_id : string) :
  Sqlite.prompt_attachments db = None ->
  Responses.get_response_attachments db response_id = Ok [].
Proof.
  intros H. unfold Responses.get_response_attachments.
  by rewrite has_table_prompt_attachments, H.
Qed.

(** The clauses of [list_responses] depend on which filters are given, and
    not on their values. *)
Lemma build_query_text_independent
    (model conversation_id start_date end_date : option string)
    (model' conversation_id' start_date' end_date' : option string) :
  Py.truthy model = Py.truthy model' ->
  Py.truthy conversation_id = Py.truthy conversation_id' ->
  Py.truthy start_date = Py.truthy start_date' ->
  Py.truthy end_date = Py.truthy end_date' ->
  (Responses.build_query model conversation_id start_date end_date).1 =
  (Responses.build_query model' conversation_id' start_date' end_date').1.
Proof.
  unfold Responses.build_query.
  destruct model as [[|? ?]|], model' as [[|? ?]|]; try done;
  destruct conversation_id as [[|? ?]|], conversation_id' as [[|? ?]|]; try done;
  destruct start_date as [[|? ?]|], start_date' as [[|? ?]|]; try done;
  destruct end_date as [[|? ?]|], end_date' as [[|? ?]|]; done.
Qed.

Lemma append_assoc (a b c : string) : (a +:+ b) +:+ c = a +:+ (b +:+ c).
Proof. induction a as [|x a IH]; [done|]. by rewrite !append_cons, IH. Qed.

Lemma length_append (a b : string) :
  String.length (a +:+ b) = (String.length a + String.length b)%nat.
Proof. induction a as [|x a IH]; [done|]. rewrite append_cons. simpl. by rewrite IH. Qed.

Lemma append_cancel_r (a b c : string) : a +:+ c = b +:+ c -> a = b.
Proof.
  revert b. induction a as [|x a IH]; intros [|y b] H; [done|..].
  - apply (f_equal String.length) in H.
    rewrite append_nil_l, length_append in H. simpl in H. lia.
  - apply (f_equal String.length) in H.
    rewrite append_nil_l, length_append in H. simpl in H. lia.
  - rewrite !append_cons in H. injection H as -> H. f_equal. by apply IH.
Qed.

(** Doubling the double quotes loses nothing of the query. *)
Lemma replace_dquote_inj (q q' : string) :
  Py.replace "034" (Search.dquote +:+ Search.dquote) q =
  Py.replace "034" (Search.dquote +:+ Search.dquote) q' -> q = q'.
Proof.
  revert q'. induction q as [|c q IH]; intros [|c' q']; simpl.
  - done.
  - destruct (Ascii.eqb c' "034"); discriminate.
  - destruct (Ascii.eqb c "034"); discriminate.
  - destruct (Ascii.eqb_spec c "034") as [->|Hc],
             (Ascii.eqb_spec c' "034") as [->|Hc'].
    + intros H. injection H as H. f_equal. by apply IH.
    + intros H. injection H as H _. congruence.
    + intros H. injection H as H _. congruence.
    + intros H. injection H as -> H. f_equal. by apply IH.
Qed.

Lemma fts_count_query_inj (s s' : string) :
  Search.fts_count_query s = Search.fts_count_query s' -> s = s'.
Proof.
  unfold Search.fts_count_query, Py.join.
  rewrite !append_nil_l. intros H.
  repeat (apply String.app_inj in H).
  rewrite !append_assoc in H.
  repeat (apply String.app_inj in H).
  by apply append_cancel_r in H.
Qed.

Lemma fts_search_query_inj (s s' : string) :
  Search.fts_search_query s = Search.fts_search_query s' -> s = s'.
Proof.
  unfold Search.fts_search_query, Py.join.
  rewrite !append_nil_l. intros H.
  repeat (apply String.app_inj in H).
  rewrite !append_assoc in H.
  repeat (apply String.app_inj in H).
  by apply append_cancel_r in H.
Qed.

(** C3 at the failing input: the statements of [_search_fts] carry the query
    in their text, so that two different queries always give two different
    texts for the count and for the page. *)
Theorem fts_statement_text_depends_on_query (q q' : string) :
  q <> q' ->
  fts_count_text q <> fts_count_text q' /\
  fts_search_text q <> fts_search_text q'.
Proof.
  intros Hq. unfold fts_count_text, fts_search_text. split; intros H; apply Hq.
  - by apply replace_dquote_inj, fts_count_query_inj.
  - by apply replace_dquote_inj, fts_search_query_inj.
Qed.

Lemma strip_nocase_spec (q t t' : string) :
  strip_nocase q t = Some t' <->
  exists m, t = m +:+ t' /\ same_nocase q m = true.
Proof.
  revert t. induction q as [|c q IH]; intros t; simpl.
  - split.
    + intros [= ->]. by exists "".
    + intros (m & -> & Hm). destruct m; [done|discriminate].
  - destruct t as [|x t].
    + split; [done|]. intros (m & Ht & Hm). destruct m; [done|discriminate].
    + destruct (Sqlite.char_eq_nocase c x) eqn:Hcx.
      * rewrite IH. split.
        -- intros (m & -> & Hm). exists (String x m). rewrite append_cons.
           split; [done|]. simpl. by rewrite Hcx.
        -- intros (m & Ht & Hm). destruct m as [|y m]; [done|].
           rewrite append_cons in Ht. injection Ht as <- ->.
           simpl in Hm. rewrite Hcx in Hm. eauto.
      * split; [done|]. intros (m & Ht & Hm). destruct m as [|y m]; [done|].
        rewrite append_cons in Ht. injection Ht as <- ->.
        simpl in Hm. by rewrite Hcx in Hm.
Qed.

Lemma find_nocase_spec (q t : string) :
  find_nocase q t = true <-> contains_nocase q t.
Proof.
  unfold contains_nocase. induction t as [|x t IH]; simpl.
  - rewrite orb_false_r. split.
    + destruct (strip_nocase q "") as [t'|] eqn:Hs; [|done]. intros _.
      apply strip_nocase_spec in Hs as (m & Ht & Hm). by exists "", m, t'.
    + intros (pre & m & post & Ht & Hm).
      destruct pre; [|done]. rewrite append_nil_l in Ht.
      assert (strip_nocase q "" = Some post) as ->; [|done].
      apply strip_nocase_spec. eauto.
  - rewrite orb_true_iff, IH. split.
    + intros [Hs|(pre & m & post & -> & Hm)].
      * destruct (strip_nocase q (String x t)) as [t'|] eqn:Hs'; [|done].
        apply strip_nocase_spec in Hs' as (m & Ht & Hm). by exists "", m, t'.
      * exists (String x pre), m, post. by rewrite append_cons.
    + intros (pre & m & post & Ht & Hm). destruct pre as [|y pre].
      * left. rewrite append_nil_l in Ht.
        assert (strip_nocase q (String x t) = Some post) as ->; [|done].
        apply strip_nocase_spec. eauto.
      * right. rewrite append_cons in Ht. injection Ht as <- ->. eauto.
Qed.

Lemma like_percent_unfold (e : ascii) (p t : string) :
  Sqlite.like e (String "%" p) t =
    Sqlite.like e p t ||
    match t with
    | EmptyString => false
    | String _ t' => Sqlite.like e (String "%" p) t'
    end.
Proof. by destruct t. Qed.

Lemma like_percent_iff (e : ascii) (p t : string) :
  Sqlite.like e (String "%" p) t = true <->
  exists pre t', t = pre +:+ t' /\ Sqlite.like e p t' = true.
Proof.
  induction t as [|x t IH]; rewrite like_percent_unfold, orb_true_iff.
  - split.
    + intros [H|H]; [|done]. by exists "", "".
    + intros (pre & t' & Ht & H). destruct pre; [|done].
      rewrite append_nil_l in Ht. subst. by left.
  - rewrite IH. split.
    + intros [H|(pre & t' & -> & H)]; [by exists "", (String x t)|].
      exists (String x pre), t'. by rewrite append_cons.
    + intros (pre & t' & Ht & H). destruct pre as [|y pre].
      * rewrite append_nil_l in Ht. subst. by left.
      * right. rewrite append_cons in Ht. injection Ht as <- ->. eauto.
Qed.

Lemma like_percent_all (e : ascii) (t : string) : Sqlite.like e "%" t = true.
Proof.
  apply like_percent_iff. exists t, "". by rewrite append_nil_r.
Qed.

Lemma escape_like_cons (c : ascii) (q : string) :
  escape_like (String c q) =
    (if Ascii.eqb c "%" then "\%"
     else if Ascii.eqb c "_" then "\_"
     else String c "") +:+ escape_like q.
Proof.
  unfold escape_like. simpl.
  destruct (Ascii.eqb_spec c "%") as [->|Hp]; [reflexivity|].
  simpl. by destruct (Ascii.eqb c "_").
Qed.

(** A query without backslash, once escaped, matches as a literal. *)
Lemma like_escaped (q rest t : string) :
  no_backslash q = true ->
  Sqlite.like "\" (escape_like q +:+ rest) t =
    match strip_nocase q t with
    | Some t' => Sqlite.like "\" rest t'
    | None => false
    end.
Proof.
  revert t. induction q as [|c q IH]; intros t Hq; [reflexivity|].
  simpl in Hq. apply andb_true_iff in Hq as [Hc Hq].
  apply negb_true_iff in Hc.
  rewrite escape_like_cons.
  destruct (Ascii.eqb_spec c "%") as [->|Hp].
  - change (Sqlite.like "\" (String "\" (String "%" (escape_like q +:+ rest))) t = 
            match strip_nocase (String "%" q) t with
            | Some t' => Sqlite.like "\" rest t'
            | None => false
            end).
    destruct t as [|x t]; [reflexivity|]. simpl.
    destruct (Sqlite.char_eq_nocase "%" x); [|reflexivity]. by apply IH.
  - destruct (Ascii.eqb_spec c "_") as [->|Hu].
    + change (Sqlite.like "\" (String "\" (String "_" (escape_like q +:+ rest))) t = 
              match strip_nocase (String "_" q) t with
              | Some t' => Sqlite.like "\" rest t'
              | None => false
              end).
      destruct t as [|x t]; [reflexivity|]. simpl.
      destruct (Sqlite.char_eq_nocase "_" x); [|reflexivity]. by apply IH.
    + rewrite append_cons, append_nil_l.
      assert (Hp' : Ascii.eqb c "%" = false) by (by apply Ascii.eqb_neq).
      assert (Hu' : Ascii.eqb c "_" = false) by (by apply Ascii.eqb_neq).
      destruct t as [|x t]; simpl; rewrite Hp', Hc; [reflexivity|].
      rewrite Hu'. simpl.
      destruct (Sqlite.char_eq_nocase c x); [|reflexivity]. by apply IH.
Qed.

(** For a query without backslash, the pattern of the fallback search
    matches exactly the texts that contain the query, up to the case of
    ASCII letters. *)
Lemma like_pattern_contains (q t : string) :
  no_backslash q = true ->
  Sqlite.like "\" (like_pattern q) t = true <-> contains_nocase q t.
Proof.
  intros Hq. unfold like_pattern.
  rewrite append_cons, append_nil_l, like_percent_iff.
  unfold contains_nocase. split.
  - intros (pre & t' & -> & H). rewrite like_escaped in H by done.
    destruct (strip_nocase q t') as [t''|] eqn:Hs; [|done].
    apply strip_nocase_spec in Hs as (m & -> & Hm). eauto.
  - intros (pre & m & post & -> & Hm). exists pre, (m +:+ post).
    split; [done|]. rewrite like_escaped by done.
    assert (strip_nocase q (m +:+ post) = Some post) as ->.
    { apply strip_nocase_spec. eauto. }
    apply like_percent_all.
Qed.

Lemma like_where_contains (q : string) (r : Sqlite.Response) :
  no_backslash q = true ->
  Sqlite.like_where (Some (like_pattern q)) r = true <-> response_contains q r.
Proof.
  intros Hq. unfold Sqlite.like_where, response_contains, field_contains.
  rewrite orb_true_iff. unfold Sqlite.like_column.
  destruct (Sqlite.r_prompt r) as [a|], (Sqlite.r_response r) as [b|];
    rewrite ?like_pattern_contains by done; naive_solver.
Qed.

Lemma like_check_short (p : string) (rows : list Sqlite.Response) :
  Sqlite.like_accepts p = true -> Sqlite.like_check (Some p) rows = Ok tt.
Proof. intros Hp. unfold Sqlite.like_check. destruct rows; by rewrite ?Hp. Qed.

(** The fallback search on a database with the [responses] table, for a
    limit and an offset that SQLite can read and a pattern that it
    accepts. *)
Lemma search_like_run (lower : string -> string) (db : Sqlite.Db)
    (rows : list Sqlite.Response) (q : string) (limit offset : Z) :
  Sqlite.responses db = Some rows ->
  Sqlite.int64 limit = true -> Sqlite.int64 offset = true ->
  Sqlite.like_accepts (like_pattern q) = true ->
  Search._search_like lower db q limit offset =
    Ok {| Search.query := q;
          Search.results :=
            (fun r => Search.result_of_row lower r q) <$>
              Sqlite.limit_offset limit offset
                (Sqlite.order_by Sqlite.datetime_desc
                   (filter (fun r => Sqlite.like_where (Some (like_pattern q)) r = true)
                           rows));
          Search.total := count_if (Sqlite.like_where (Some (like_pattern q))) rows;
          Search.limit := limit;
          Search.offset := offset |}.
Proof.
  intros Hrows Hl Ho Hp.
  unfold Search._search_like, Sqlite.count_like, Sqlite.rows_like.
  rewrite Hrows. cbv zeta. fold (like_pattern q).
  change (Sqlite.text_param (<["pattern" := _]> ∅) "pattern")
    with (Ok (Some (like_pattern q))).
  set (params := <["offset" := _]> _).
  change (Sqlite.text_param params "pattern")
    with (Ok (Some (like_pattern q))).
  change (Sqlite.table "responses" (Some rows)) with (Ok rows).
  cbn [mbind result_bind]. rewrite like_check_short by done.
  cbn [mbind result_bind].
  assert (Hlimit : Sqlite.integer_param params "limit" = Ok limit).
  { unfold Sqlite.integer_param.
    change (params !! "limit") with (Some (Sqlite.Integer limit)).
    cbv beta iota. by rewrite Hl. }
  assert (Hoffset : Sqlite.integer_param params "offset" = Ok offset).
  { unfold Sqlite.integer_param.
    change (params !! "offset") with (Some (Sqlite.Integer offset)).
    cbv beta iota. by rewrite Ho. }
  rewrite Hlimit, Hoffset. reflexivity.
Qed.

(** On a query without backslash the fallback search returns normally, and
    counts and pages exactly the responses one of whose fields contains the
    query. *)
Lemma search_like_without_backslash (lower : string -> string) (db : Sqlite.Db)
    (rows : list Sqlite.Response) (q : string) (limit offset : Z) :
  Sqlite.responses db = Some rows ->
  Sqlite.int64 limit = true -> Sqlite.int64 offset = true ->
  Sqlite.like_accepts (like_pattern q) = true ->
  no_backslash q = true ->
  let hit (r : Sqlite.Response) := Sqlite.like_where (Some (like_pattern q)) r in
  let matching := filter (fun r => hit r = true) rows in
  (forall r, hit r = true <-> response_contains q r) /\
  Search._search_like lower db q limit offset =
    Ok {| Search.query := q;
          Search.results :=
            (fun r => Search.result_of_row lower r q) <$>
              Sqlite.limit_offset limit offset
                (Sqlite.order_by Sqlite.datetime_desc matching);
          Search.total := Z.of_nat (length matching);
          Search.limit := limit;
          Search.offset := offset |}.
Proof.
  intros Hrows Hl Ho Hp Hq hit matching. split.
  - intros r. by apply like_where_contains.
  - by rewrite (search_like_run lower db rows).
Qed.

(** C8 at the failing input: the query is one backslash.  The escaping
    leaves it alone, so that in the pattern it escapes the closing [%]; the
    search then returns the response whose text ends in a percent sign and
    not the one whose text has a backslash. *)
Theorem search_like_backslash (lower : string -> string) :
  like_pattern "\" = "%\%" /\
  Search._search_like lower like_db "\" 50 0 =
    Ok {| Search.query := "\";
          Search.results := [Search.result_of_row lower r_percent "\"];
          Search.total := 1;
          Search.limit := 50;
          Search.offset := 0 |} /\
  response_contains "\" r_path /\
  ~ response_contains "\" r_percent.
Proof.
  split; [reflexivity|]. split; [|split].
  - rewrite (search_like_run lower like_db [r_path; r_percent]) by done.
    change (filter _ [r_path; r_percent]) with [r_percent].
    by rewrite order_by_singleton.
  - left. eexists. split; [reflexivity|]. by apply find_nocase_spec.
  - intros [(t & [= <-] & H)|(t & [= <-] & H)];
      by apply find_nocase_spec in H.
Qed.

(** ** Snippets and the case of the text *)

Lemma map_chars_length (f : ascii -> ascii) (s : string) :
  String.length (map_chars f s) = String.length s.
Proof. induction s as [|c s IH]; simpl; congruence. Qed.

Lemma map_chars_app (f : ascii -> ascii) (a b : string) :
  map_chars f (a +:+ b) = map_chars f a +:+ map_chars f b.
Proof. induction a as [|c a IH]; simpl; [done|]. by rewrite IH. Qed.

Lemma map_chars_app_inv (f : ascii -> ascii) (s a b : string) :
  map_chars f s = a +:+ b ->
  exists s1 s2, s = s1 +:+ s2 /\ map_chars f s1 = a /\ map_chars f s2 = b.
Proof.
  revert s. induction a as [|c a IH]; intros s H.
  - exists "", s. by rewrite append_nil_l in H.
  - destruct s as [|x s]; [done|]. simpl in H. injection H as Hc H.
    destruct (IH s H) as (s1 & s2 & -> & H1 & H2).
    exists (String x s1), s2. simpl. by rewrite Hc, H1.
Qed.

(** For a lower-casing that works character by character, the occurrences
    of the lower-cased query in the lower-cased text are the occurrences of
    the query in the text up to case, at the same positions. *)
Lemma occurs_charwise (f : ascii -> ascii) (query text : string) (p : nat) :
  occurs_at (map_chars f query) (map_chars f text) p <->
  occurs_nocase (map_chars f) query text p.
Proof.
  split.
  - intros (pre & post & H & Hp).
    apply map_chars_app_inv in H as (s1 & s2 & -> & H1 & H2).
    apply map_chars_app_inv in H2 as (m & s3 & -> & Hm & H3).
    exists s1, m, s3. split; [done|]. split; [|done].
    by rewrite <- (map_chars_length f s1), H1.
  - intros (pre & m & post & -> & Hp & Hm).
    exists (map_chars f pre), (map_chars f post).
    rewrite !map_chars_app, map_chars_length. by rewrite Hm.
Qed.

Lemma first_charwise (f : ascii -> ascii) (query text : string) (p : nat) :
  first_occurrence (map_chars f query) (map_chars f text) p <->
  first_nocase (map_chars f) query text p.
Proof.
  unfold first_occurrence, first_nocase. rewrite occurs_charwise.
  split; intros [H1 H2]; (split; [done|]); intros j Hj;
    specialize (H2 j Hj); by rewrite occurs_charwise in *.
Qed.

(** X25: what the claim C2 says holds of the code for every lower-casing
    that works character by character, as the one of ASCII does: with the first
    occurrence of the query in the text, up to case, at [p], the snippet is
    the window around [p]; without an occurrence it is the start of the
    text. *)
Lemma create_snippet_charwise (f : ascii -> ascii)
    (text query : string) (max_length : Z) :
  text <> "" -> 0 <= max_length ->
  snippet_as_specified (map_chars f) text query max_length /\
  ((forall p, ~ occurs_nocase (map_chars f) query text p) ->
   Search.create_snippet (map_chars f) text query max_length =
     String.substring 0 (Z.to_nat max_length) text +:+
     (if Py.len text >? max_length then "..." else "")).
Proof.
  intros Htext Hmax.
  destruct (create_snippet_window (map_chars f) text query max_length Htext Hmax)
    as (Hnone & Hfound & _).
  split.
  - intros p Hp. apply first_charwise in Hp. exact (Hfound p Hp).
  - intros Hno. rewrite Hnone.
    + by rewrite Z.sub_0_r.
    + intros p Hp. apply occurs_charwise in Hp. by apply (Hno p).
Qed.

Lemma lower_ascii_map_chars (s : string) :
  Py.lower_ascii s = map_chars Py.ascii_lower s.
Proof. induction s as [|c s IH]; simpl; congruence. Qed.

Lemma get_app_length (pre : string) (c : ascii) (rest : string) :
  String.get (String.length pre) (pre +:+ String c rest) = Some c.
Proof. induction pre as [|x pre IH]; [done|]. exact IH. Qed.

Lemma get_repeat_char (n j : nat) (c : ascii) (rest : string) :
  (j < n)%nat -> String.get j (repeat_char n c rest) = Some c.
Proof.
  revert j. induction n as [|n IH]; intros j Hj; [lia|].
  destruct j as [|j]; [done|]. simpl. apply IH. lia.
Qed.

(** A text that [lower_dotted] takes to ["x"] does not start with the
    dotted capital I. *)
Lemma lower_dotted_x (m : string) :
  lower_dotted m = "x" ->
  exists c m', m = String c m' /\ Ascii.eqb c dotted_I = false.
Proof.
  destruct m as [|c m']; [done|]. simpl.
  destruct (Ascii.eqb c dotted_I) eqn:E; [done|]. intros _. by exists c, m'.
Qed.

(** C2 at the failing input: the text is sixty capital I with a dot above
    followed by an [x], the query is [x].  Lower-casing turns each dotted I
    into two characters, so that the position of the match in the
    lower-cased text, 120, is not its position in the text, 60.  The first
    occurrence of the query in the text, up to case, is at 60, and the
    window the claim describes is an ellipsis, the last fifty dotted I and
    the [x]; [create_snippet] cuts the text at the position it found,
    behind its end, and returns the ellipsis alone. *)
Theorem create_snippet_lengthening_lower :
  first_nocase lower_dotted "x" dotted_text 60 /\
  Py.find (lower_dotted dotted_text) (lower_dotted "x") = 120 /\
  window_at dotted_text "x" 60 = "..." +:+ repeat_char 50 dotted_I "x" /\
  Search.create_snippet lower_dotted dotted_text "x" 200 = "..." /\
  ~ snippet_as_specified lower_dotted dotted_text "x" 200.
Proof.
  assert (Hfirst : first_nocase lower_dotted "x" dotted_text 60).
  { split.
    - exists (repeat_char 60 dotted_I ""), "x", "". by repeat split.
    - intros j Hj (pre & m & post & Htext & Hpre & Hm).
      apply lower_dotted_x in Hm as (c & m' & -> & Hc).
      pose proof (get_repeat_char 60 j dotted_I "x" Hj) as Hget.
      fold dotted_text in Hget. rewrite Htext, <- Hpre in Hget.
      change (String c m' +:+ post) with (String c (m' +:+ post)) in Hget.
      rewrite get_app_length in Hget.
      injection Hget as ->. by rewrite Ascii.eqb_refl in Hc. }
  split; [exact Hfirst|]. split; [by vm_compute|]. split; [by vm_compute|].
  split; [by vm_compute|].
  intros H. specialize (H 60%nat Hfirst). by vm_compute in H.
Qed.

End Properties.


(** * Further properties of the endpoints *)

Section Extras.
Context {engine : Sqlite.Engine}.

(** ** Pages *)

Lemma limit_offset_length {A} (limit offset : Z) (rows : list A) :
  0 <= limit -> 0 <= offset ->
  Z.of_nat (length (Sqlite.limit_offset limit offset rows)) =
    Z.min limit (Z.max 0 (Z.of_nat (length rows) - offset)).
Proof.
  intros Hl Ho. rewrite (proj1 (limit_offset_page limit offset rows Hl Ho)).
  rewrite length_take, length_drop. lia.
Qed.


Lemma limit_offset_nil {A} (limit offset : Z) :
  Sqlite.limit_offset limit offset (@nil A) = [].
Proof.
  unfold Sqlite.limit_offset. rewrite drop_nil, take_nil. by destruct (limit <? 0).
Qed.

Lemma limit_offset_elem {A} (limit offset : Z) (rows : list A) (x : A) :
  x ∈ Sqlite.limit_offset limit offset rows -> x ∈ rows.
Proof.
  unfold Sqlite.limit_offset. intros H.
  destruct (limit <? 0); [|apply subseteq_take in H]; by apply subseteq_drop in H.
Qed.

(** What [rows_where] reads from [responses] for a limit and an offset that
    SQLite takes as integers. *)
Lemma rows_where_run (db : Sqlite.Db) (rows : list Sqlite.Response)
    (where_ : option (list Sqlite.clause)) (params : gmap string Sqlite.value)
    (p : Sqlite.Response -> bool) (limit offset : Z) :
  Sqlite.responses db = Some rows ->
  Sqlite.where_pred (default [] where_) params = Ok p ->
  Sqlite.int64 limit = true -> Sqlite.int64 offset = true ->
  Sqlite.rows_where db where_ params limit offset =
    Ok (Sqlite.limit_offset limit offset
          (Sqlite.order_by Sqlite.datetime_desc (filter (fun r => p r = true) rows))).
Proof.
  intros Hrows Hp Hl Ho. unfold Sqlite.rows_where.
  rewrite Hrows, Hp. simpl. by rewrite Hl, Ho.
Qed.

(** What [list_responses] returns, on any database, for a limit and an
    offset that SQLite takes as integers. *)
Lemma list_responses_run (db : Sqlite.Db) (limit offset : Z)
    (model conversation_id start_date end_date : option string) :
  Sqlite.int64 limit = true -> Sqlite.int64 offset = true ->
  let matching :=
    filter (fun r => matches_filter model conversation_id start_date end_date r = true)
           (default [] (Sqlite.responses db)) in
  Responses.list_responses db limit offset model conversation_id start_date end_date =
    Ok {| Responses.items :=
            Responses.summary_of_row <$>
              Sqlite.limit_offset limit offset
                (Sqlite.order_by Sqlite.datetime_desc matching);
          Responses.total := Z.of_nat (length matching);
          Responses.limit := limit;
          Responses.offset := offset |}.
Proof.
  intros Hl Ho matching. unfold Responses.list_responses. rewrite has_table_responses.
  destruct (Sqlite.responses db) as [rows|] eqn:Hrows; simpl in *.
  2:{ subst matching. rewrite filter_nil, order_by_nil, limit_offset_nil. done. }
  destruct (build_query_pred model conversation_id start_date end_date)
    as (p & Hp & Hpm).
  destruct (Responses.build_query model conversation_id start_date end_date)
    as [where_clauses params] eqn:Hq. simpl in Hp.
  assert (Hfilter : filter (fun r => p r = true) rows = matching).
  { subst matching. apply list_filter_iff. intros r. by rewrite Hpm. }
  cbv zeta. cbn [fst snd].
  assert (Hwhere : Sqlite.where_pred
            (default [] (Responses.join_where where_clauses)) params = Ok p).
  { destruct where_clauses; simpl; [|done]. exact Hp. }
  rewrite (rows_where_run db rows _ params p) by done. rewrite Hfilter.
  destruct where_clauses as [|c cs].
  - simpl. unfold Sqlite.where_pred in Hp. simpl in Hp. injection Hp as <-.
    rewrite filter_all in *. by rewrite Hfilter.
  - unfold Sqlite.count_where. simpl in *. rewrite Hrows. simpl. rewrite Hp. simpl.
    by rewrite Hfilter.
Qed.


(** X2: the size of a page of the response listing.  A page holds [limit]
    responses as long as that many are left behind the offset, the rest
    otherwise, and none when the offset is at or behind the total. *)
Theorem list_responses_page_size (db : Sqlite.Db) (limit offset : Z)
    (model conversation_id start_date end_date : option string) :
  0 <= limit < 2 ^ 63 -> 0 <= offset < 2 ^ 63 ->
  exists p,
    Responses.list_responses db limit offset
      model conversation_id start_date end_date = Ok p /\
    Z.of_nat (length (Responses.items p)) =
      Z.min limit (Z.max 0 (Responses.total p - offset)).
Proof.
  intros Hl Ho. rewrite list_responses_run by (apply int64_true; lia).
  eexists. split; [reflexivity|].
  simpl. rewrite length_fmap, limit_offset_length by lia.
  f_equal. f_equal. f_equal. apply Nat2Z.inj_iff.
  apply Permutation_length, order_by_perm.
Qed.

(** ** Search *)






(** ** Page counts and the list page of the responses *)

Lemma ceil_div (total limit : Z) :
  1 <= limit -> 0 <= total ->
  total <= (total + limit - 1) `div` limit * limit < total + limit.
Proof.
  intros Hl Ht.
  pose proof (Z.div_mod (total + limit - 1) limit ltac:(lia)) as Hdm.
  pose proof (Z.mod_pos_bound (total + limit - 1) limit ltac:(lia)) as Hb.
  lia.
Qed.

(** X6: the page count of the list pages.  On the pages of responses, of
    conversations and of search results, for a page size of at least one
    and a total that is not negative, [total_pages] is the least number of
    pages of that size that hold [total] entries; it is zero on an empty
    listing. *)
Theorem total_pages_is_ceiling (lower : string -> string)
    (fts_count : Sqlite.Db -> string -> result Z)
    (fts_rows : Sqlite.Db -> string -> gmap string Sqlite.value ->
                result (list Sqlite.Response))
    (db : Sqlite.Db) (page limit : Z) (model q : option string) :
  1 <= limit ->
  (forall ctx, ResponsesView.list_responses db page limit model = Ok ctx ->
     ResponsesView.total ctx <=
       ResponsesView.total_pages ctx * limit < ResponsesView.total ctx + limit) /\
  (forall ctx, ConversationsView.list_conversations db page limit = Ok ctx ->
     ConversationsView.total ctx <=
       ConversationsView.total_pages ctx * limit < ConversationsView.total ctx + limit) /\
  (forall ctx, SearchView.search_page lower fts_count fts_rows db q page limit = Ok ctx ->
     0 <= SearchView.total ctx ->
     SearchView.total ctx <=
       SearchView.total_pages ctx * limit < SearchView.total ctx + limit).
Proof.
  intros Hl. split; [|split].
  - intros ctx. unfold ResponsesView.list_responses.
    destruct (negb _); [intros [= <-]; simpl; lia|]. cbv zeta.
    destruct (match Responses.join_where _ with Some _ => _ | None => _ end)
      as [total|] eqn:Htotal; [|done]. simpl.
    destruct (Sqlite.rows_where _ _ _ _ _) as [rs|]; [|done]. simpl.
    destruct (Sqlite.distinct_models db) as [ms|]; [|done]. simpl.
    intros [= <-]. simpl. apply ceil_div; [done|].
    destruct (Responses.join_where _).
    + unfold Sqlite.count_where in Htotal.
      destruct (Sqlite.table _ _); [|done]. simpl in Htotal.
      destruct (Sqlite.where_pred _ _); [|done]. simpl in Htotal.
      injection Htotal as <-. lia.
    + unfold Sqlite.count in Htotal.
      destruct (Sqlite.table _ _); [|done]. simpl in Htotal.
      injection Htotal as <-. lia.
  - intros ctx. unfold ConversationsView.list_conversations.
    destruct (negb _); [intros [= <-]; simpl; lia|]. cbv zeta.
    unfold Sqlite.count.
    destruct (Sqlite.table _ _) as [cs|]; [|done]. simpl.
    destruct (Sqlite.select_conversations _ _) as [rs|]; [|done]. simpl.
    intros [= <-]. simpl. apply ceil_div; lia.
  - intros ctx. unfold SearchView.search_page.
    destruct (if _ && _ then _ else _) as [[results total]|]; [|done]. simpl.
    intros [= <-]. simpl. intros Ht.
    destruct (total >? 0) eqn:E; [apply ceil_div; lia|lia].
Qed.

Lemma leb_trans (a b c : string) :
  String.leb a b = true -> String.leb b c = true -> String.leb a c = true.
Proof.
  unfold String.leb. revert b c.
  induction a as [|x a IH]; intros [|y b] [|z c]; simpl; try done.
  unfold Ascii.compare.
  destruct (N.compare_spec (N_of_ascii x) (N_of_ascii y)) as [E1|E1|E1];
    destruct (N.compare_spec (N_of_ascii y) (N_of_ascii z)) as [E2|E2|E2];
    try done;
    destruct (N.compare_spec (N_of_ascii x) (N_of_ascii z)) as [E3|E3|E3];
    try done; try lia.
  apply IH.
Qed.

#[local] Instance leb_transitive : Transitive (fun a b => String.leb a b = true).
Proof. intros a b c. apply leb_trans. Qed.

Lemma leb_total_false (a b : string) :
  String.leb a b = false -> String.leb b a = true.
Proof. intros H. destruct (String.leb_total a b); congruence. Qed.

Lemma StronglySorted_filter {A} (R : A -> A -> Prop) (P : A -> Prop)
    `{!forall x, Decision (P x)} (l : list A) :
  StronglySorted R l -> StronglySorted R (filter P l).
Proof.
  induction 1 as [|x l Hs IH Hx]; [constructor|].
  rewrite filter_cons. destruct (decide (P x)); [|done].
  constructor; [done|]. apply Forall_forall. intros y Hy.
  apply list_elem_of_filter in Hy as [_ Hy].
  rewrite Forall_forall in Hx. by apply Hx.
Qed.

(** What the list page returns when the table is there. *)
Lemma responses_view_run (db : Sqlite.Db) (rows : list Sqlite.Response)
    (page limit : Z) (model : option string) :
  Sqlite.responses db = Some rows ->
  Sqlite.int64 limit = true -> Sqlite.int64 ((page - 1) * limit) = true ->
  let matching :=
    filter (fun r => matches_filter model None None None r = true) rows in
  ResponsesView.list_responses db page limit model =
    Ok {| ResponsesView.responses :=
            Sqlite.limit_offset limit ((page - 1) * limit)
              (Sqlite.order_by Sqlite.datetime_desc matching);
          ResponsesView.total := Z.of_nat (length matching);
          ResponsesView.page := page;
          ResponsesView.limit := limit;
          ResponsesView.total_pages :=
            (Z.of_nat (length matching) + limit - 1) `div` limit;
          ResponsesView.models :=
            filter (fun m => m <> "")
              (Sqlite.order_by String.leb (remove_dups (Sqlite.r_model <$> rows)));
          ResponsesView.selected_model := model |}.
Proof.
  intros Hrows Hl Ho matching. unfold ResponsesView.list_responses.
  rewrite has_table_responses, Hrows. cbn [present negb].
  change (Filters.add_filter (Sqlite.Clause Sqlite.col_model Sqlite.op_eq "model")
            model ([], ∅))
    with (Responses.build_query model None None None).
  destruct (build_query_pred model None None None) as (p & Hp & Hpm).
  destruct (Responses.build_query model None None None)
    as [where_clauses params] eqn:Hq. simpl in Hp.
  assert (Hfilter : filter (fun r => p r = true) rows = matching).
  { subst matching. apply list_filter_iff. intros r. by rewrite Hpm. }
  cbv zeta. cbn [fst snd].
  assert (Hwhere : Sqlite.where_pred
            (default [] (Responses.join_where where_clauses)) params = Ok p).
  { destruct where_clauses; simpl; [|done]. exact Hp. }
  rewrite (rows_where_run db rows _ params p) by done. rewrite Hfilter.
  unfold Sqlite.count_where, Sqlite.distinct_models. rewrite Hrows.
  destruct where_clauses as [|c cs].
  - simpl. unfold Sqlite.where_pred in Hp. simpl in Hp. injection Hp as <-.
    rewrite filter_all in *. by rewrite Hfilter.
  - simpl in *. rewrite Hp. simpl. by rewrite Hfilter.
Qed.

(** X7: the list page of the responses shows what the list endpoint
    returns.  Page [page] of the HTML view holds the rows and the total
    that the endpoint of the JSON API gives for the same model filter, no
    other filter, at offset [(page - 1) * limit]; this holds on every
    database, with or without the [responses] table, for a page size and
    an offset within the 64-bit integers of SQLite. *)
Theorem responses_page_shows_api_items (db : Sqlite.Db) (page limit : Z)
    (model : option string) :
  Sqlite.int64 limit = true -> Sqlite.int64 ((page - 1) * limit) = true ->
  exists ctx resp,
    ResponsesView.list_responses db page limit model = Ok ctx /\
    Responses.list_responses db limit ((page - 1) * limit) model None None None
      = Ok resp /\
    Responses.summary_of_row <$> ResponsesView.responses ctx = Responses.items resp /\
    ResponsesView.total ctx = Responses.total resp /\
    ResponsesView.selected_model ctx = model.
Proof.
  intros Hl Ho. rewrite list_responses_run by done.
  destruct (Sqlite.responses db) as [rows|] eqn:Hrows.
  - rewrite (responses_view_run db rows) by done.
    do 2 eexists. split; [reflexivity|]. split; [reflexivity|]. done.
  - unfold ResponsesView.list_responses. rewrite has_table_responses, Hrows.
    cbn [present negb]. do 2 eexists. split; [reflexivity|].
    split; [reflexivity|]. simpl. by rewrite filter_nil, order_by_nil, limit_offset_nil.
Qed.

(** X8: the model filter of the list page offers every model that is not
    the empty string and that some response has, each once, in ascending
    order. *)
Theorem responses_page_models (db : Sqlite.Db) (rows : list Sqlite.Response)
    (page limit : Z) (model : option string) :
  Sqlite.responses db = Some rows ->
  Sqlite.int64 limit = true -> Sqlite.int64 ((page - 1) * limit) = true ->
  exists ctx,
    ResponsesView.list_responses db page limit model = Ok ctx /\
    NoDup (ResponsesView.models ctx) /\
    StronglySorted (fun a b => String.leb a b = true) (ResponsesView.models ctx) /\
    forall m, m ∈ ResponsesView.models ctx <->
              m <> "" /\ exists r, r ∈ rows /\ Sqlite.r_model r = m.
Proof.
  intros Hrows Hl Ho. rewrite (responses_view_run db rows) by done.
  eexists. split; [reflexivity|]. simpl. split; [|split].
  - apply NoDup_filter.
    rewrite (order_by_perm String.leb). apply NoDup_remove_dups.
  - apply StronglySorted_filter, Sorted_StronglySorted; [apply _|].
    apply order_by_sorted, leb_total_false.
  - intros m. rewrite list_elem_of_filter, (order_by_perm String.leb).
    rewrite elem_of_remove_dups, list_elem_of_fmap. naive_solver.
Qed.

(** X9: the pages of the list page.  For a page size of at least one, page
    [page] holds responses exactly when it is one of the pages 1 to
    [total_pages], and every page before the last is full. *)
Theorem responses_page_filled (db : Sqlite.Db) (page limit : Z)
    (model : option string) :
  1 <= limit -> 1 <= page -> page * limit < 2 ^ 63 ->
  exists ctx,
    ResponsesView.list_responses db page limit model = Ok ctx /\
    (ResponsesView.responses ctx <> [] <-> page <= ResponsesView.total_pages ctx) /\
    (page < ResponsesView.total_pages ctx ->
     Z.of_nat (length (ResponsesView.responses ctx)) = limit).
Proof.
  intros Hl Hp Hmax. destruct (Sqlite.responses db) as [rows|] eqn:Hrows.
  - rewrite (responses_view_run db rows) by (try apply int64_true; try done; nia).
    eexists. split; [reflexivity|]. simpl.
    set (matching := filter _ rows).
    pose proof (ceil_div (Z.of_nat (length matching)) limit Hl ltac:(lia)) as Hc.
    set (pages := (Z.of_nat (length matching) + limit - 1) `div` limit) in *.
    pose proof (limit_offset_length limit ((page - 1) * limit)
                  (Sqlite.order_by Sqlite.datetime_desc matching)
                  ltac:(lia) ltac:(nia)) as Hlen.
    rewrite (Permutation_length (order_by_perm Sqlite.datetime_desc matching)) in Hlen.
    split.
    + rewrite <- length_zero_iff_nil. split; intros H; nia.
    + intros H. nia.
  - unfold ResponsesView.list_responses. rewrite has_table_responses, Hrows.
    cbn [present negb]. eexists. split; [reflexivity|]. simpl.
    split; [split; [done|lia]|lia].
Qed.

(** ** The detail of a response *)

Lemma sorted_insertion {A} (key : A -> Z) (l : list A) :
  Py.sorted key l = foldr (Sqlite.insert_sorted (fun x y => key x <=? key y)) [] l.
Proof.
  unfold Py.sorted.
  induction l as [|x l IH]; [done|]. simpl. rewrite IH.
  generalize (foldr (Sqlite.insert_sorted (fun x y => key x <=? key y)) [] l).
  intros k. induction k as [|y k IHk]; [done|]. simpl. by rewrite IHk.
Qed.

Lemma Sorted_mono {A} (R R' : A -> A -> Prop) (l : list A) :
  (forall a b, R a b -> R' a b) -> Sorted R l -> Sorted R' l.
Proof.
  intros HR. induction 1 as [|x l Hs IH Hhd]; constructor; [done|].
  destruct Hhd; constructor; auto.
Qed.

(** X10: the detail of a response.  The endpoint answers 404 exactly when
    no response has the id, which includes the database without a
    [responses] table; otherwise it returns the detail of a response with
    that id, with the tool calls and the tool results of that response as
    their tables give them, and with none of them when their table is
    missing. *)
Theorem get_response_found_or_404 (db : Sqlite.Db) (response_id : string) :
  (response_id ∉ Sqlite.r_id <$> rows_of (Sqlite.responses db) <->
   Responses.get_response db response_id =
     Raise (HTTPException 404 "Response not found")) /\
  (response_id ∈ Sqlite.r_id <$> rows_of (Sqlite.responses db) ->
   exists d r,
     Responses.get_response db response_id = Ok d /\
     r ∈ rows_of (Sqlite.responses db) /\ Sqlite.r_id r = response_id /\
     shows (Responses.summary d) r /\
     Responses.system d = Sqlite.r_system r /\
     Responses.tool_calls d =
       Responses.tool_call_of_row <$>
         filter (fun c => Sqlite.tc_response_id c = response_id)
                (rows_of (Sqlite.tool_calls db)) /\
     Responses.tool_results d =
       Responses.tool_result_of_row <$>
         filter (fun t => Sqlite.tr_response_id t = response_id)
                (rows_of (Sqlite.tool_results db))).
Proof.
  unfold Responses.get_response, rows_of, Sqlite.table_rows.
  rewrite has_table_tool_calls, has_table_tool_results.
  generalize (default [] (Sqlite.responses db)). intros rows. cbv zeta.
  assert (Hfound : response_id ∈ Sqlite.r_id <$> rows ->
    exists r rs, filter (fun r => Sqlite.r_id r = response_id) rows = r :: rs /\
                 r ∈ rows /\ Sqlite.r_id r = response_id).
  { intros Hin. apply list_elem_of_fmap in Hin as (r0 & -> & Hr0).
    destruct (filter _ rows) as [|r rs] eqn:Hf.
    - assert (Hr : r0 ∈ filter (fun r => Sqlite.r_id r = Sqlite.r_id r0) rows)
        by by apply list_elem_of_filter.
      rewrite Hf in Hr. by apply elem_of_nil in Hr.
    - assert (Hr : r ∈ filter (fun r => Sqlite.r_id r = Sqlite.r_id r0) rows)
        by (rewrite Hf; left).
      apply list_elem_of_filter in Hr as [Hid Hr]. by exists r, rs. }
  split.
  - split.
    + intros Hnot.
      destruct (filter _ rows) as [|r rs] eqn:Hf; [done|]. exfalso. apply Hnot.
      assert (Hr : r ∈ filter (fun r => Sqlite.r_id r = response_id) rows)
        by (rewrite Hf; left).
      apply list_elem_of_filter in Hr as [<- Hr]. by apply list_elem_of_fmap_2.
    + intros Hrun Hin. destruct (Hfound Hin) as (r & rs & Hf & _).
      by rewrite Hf in Hrun.
  - intros Hin. destruct (Hfound Hin) as (r & rs & -> & Hr & Hid).
    eexists _, r. split; [reflexivity|]. simpl.
    split; [done|]. split; [done|]. split; [apply shows_summary|].
    split; [done|].
    by destruct (Sqlite.tool_calls db) as [calls|],
             (Sqlite.tool_results db) as [results|].
Qed.

(** X11: the detail page of a response shows what the two endpoints of
    the JSON API return for it.  When the detail endpoint answers, the
    page shows the same response, the same tool calls and tool results,
    and the attachments that the attachment endpoint lists; when the
    detail endpoint answers 404, so does the page. *)
Theorem view_response_shows_api_detail (db : Sqlite.Db) (response_id : string) :
  match Responses.get_response db response_id with
  | Ok d =>
      exists ctx,
        ResponsesView.view_response db response_id = Ok ctx /\
        Responses.summary_of_row (ResponsesView.response ctx) = Responses.summary d /\
        Sqlite.r_system (ResponsesView.response ctx) = Responses.system d /\
        Responses.tool_call_of_row <$> ResponsesView.tool_calls ctx =
          Responses.tool_calls d /\
        Responses.tool_result_of_row <$> ResponsesView.tool_results ctx =
          Responses.tool_results d /\
        Responses.get_response_attachments db response_id =
          Ok (ResponsesView.attachments ctx)
  | Raise e => ResponsesView.view_response db response_id = Raise e
  end.
Proof.
  unfold Responses.get_response, ResponsesView.view_response,
    Responses.get_response_attachments.
  destruct (filter _ (Sqlite.table_rows (Sqlite.responses db))) as [|r rs]; [done|].
  cbv zeta. eexists. split; [reflexivity|]. simpl.
  repeat (split; [by repeat case_match|]).
  destruct (Sqlite.has_table "prompt_attachments" db); [|done]. simpl.
  by destruct (filter _ (Sqlite.table_rows (Sqlite.prompt_attachments db))).
Qed.

(** X12: the attachments of a response come in the order of their links.
    The listing holds one attachment for every link of the response whose
    attachment row exists, carries the id of the attachment and the order
    of the link, and is ascending in that order; a table that is missing
    counts as empty. *)
Theorem attachments_in_link_order (db : Sqlite.Db) (response_id : string) :
  let links := rows_of (Sqlite.prompt_attachments db) in
  let rows := rows_of (Sqlite.attachments db) in
  exists atts,
    Responses.get_response_attachments db response_id = Ok atts /\
    atts ≡ₚ omap (Responses.attachment_of_link rows)
              (filter (fun l => Sqlite.pa_response_id l = response_id) links) /\
    Sorted (fun a b => Responses.order_key a <= Responses.order_key b) atts /\
    Forall (fun att =>
              exists link,
                link ∈ links /\ Sqlite.pa_response_id link = response_id /\
                att !! "id" = Some (Sqlite.Text (Sqlite.pa_attachment_id link)) /\
                att !! "order" = Some (Sqlite.Integer (Sqlite.pa_order link)) /\
                Responses.order_key att = Sqlite.pa_order link) atts.
Proof.
  intros links rows. unfold Responses.get_response_attachments.
  fold (rows_of (Sqlite.prompt_attachments db)) (rows_of (Sqlite.attachments db)).
  fold links rows.
  set (mine := filter _ links).
  assert (Hrun :
    (if negb (Sqlite.has_table "prompt_attachments" db) then Ok []
     else if mine is [] then Ok []
     else Ok (Py.sorted Responses.order_key
                (omap (Responses.attachment_of_link rows) mine))) =
    Ok (Py.sorted Responses.order_key
          (omap (Responses.attachment_of_link rows) mine))).
  { rewrite has_table_prompt_attachments. subst mine links. unfold rows_of.
    destruct (Sqlite.prompt_attachments db) as [ls|]; simpl; [|done].
    by destruct (filter _ ls). }
  eexists. split; [exact Hrun|]. rewrite sorted_insertion. split; [|split].
  - apply insertion_sort_perm.
  - eapply Sorted_mono; [|apply insertion_sort_sorted].
    + intros a b. simpl. lia.
    + intros a b. simpl. lia.
  - apply Forall_forall. intros att Hatt.
    rewrite (insertion_sort_perm
               (fun x y => Responses.order_key x <=? Responses.order_key y)) in Hatt.
    apply list_elem_of_omap in Hatt as (link & Hlink & Hatt).
    apply list_elem_of_filter in Hlink as [Hid Hlink].
    exists link. split; [done|]. split; [done|].
    unfold Responses.attachment_of_link in Hatt.
    destruct (filter _ rows) as [|row more] eqn:Hf; [done|].
    injection Hatt as <-.
    assert (Hrow : row ∈ filter (fun row => row !! "id" =
                     Some (Sqlite.Text (Sqlite.pa_attachment_id link))) rows)
      by (rewrite Hf; left).
    apply list_elem_of_filter in Hrow as [Hrow _].
    unfold Responses.order_key.
    rewrite lookup_insert_eq, lookup_insert_ne, lookup_delete_ne by done.
    done.
Qed.

(** ** Tools *)

Lemma integer_param_lookup (params : gmap string Sqlite.value) (name : string) (z : Z) :
  params !! name = Some (Sqlite.Integer z) -> Sqlite.int64 z = true ->
  Sqlite.integer_param params name = Ok z.
Proof. intros Hp Hz. unfold Sqlite.integer_param. by rewrite Hp, Hz. Qed.

(** X13: the statistics of the tool listing.  Every tool is listed once
    and the total is their number.  The call count of a tool is the number
    of calls with its id; its result and error counts are the numbers of
    results and of failed results with its id, so that the errors never
    exceed the results; and the tools come in descending order of their
    call count.  Without the [tool_calls] table all three counts are zero,
    also when there are tool results. *)
Theorem list_tools_statistics (db : Sqlite.Db) (ts : list Sqlite.Tool) :
  Sqlite.tools db = Some ts ->
  exists resp,
    Tools.list_tools db = Ok resp /\
    Tools.total resp = Z.of_nat (length ts) /\
    Tools.id <$> Tools.items resp ≡ₚ Sqlite.t_id <$> ts /\
    Sorted (fun a b => Tools.call_count b <= Tools.call_count a) (Tools.items resp) /\
    Forall (fun d =>
              Tools.call_count d =
                Z.of_nat (length (filter (fun c => Sqlite.tc_tool_id c = Tools.id d)
                                         (rows_of (Sqlite.tool_calls db)))) /\
              Tools.result_count d =
                (if present (Sqlite.tool_calls db)
                 then Z.of_nat (length (filter (fun r => Sqlite.tr_tool_id r = Tools.id d)
                                               (rows_of (Sqlite.tool_results db))))
                 else 0) /\
              Tools.error_count d =
                (if present (Sqlite.tool_calls db)
                 then Z.of_nat (length (filter (fun r => Sqlite.tr_tool_id r = Tools.id d /\
                                                         is_Some (Sqlite.tr_exception r))
                                               (rows_of (Sqlite.tool_results db))))
                 else 0) /\
              0 <= Tools.error_count d <= Tools.result_count d)
           (Tools.items resp).
Proof.
  intros Hts. unfold Tools.list_tools.
  rewrite has_table_tools, has_table_tool_calls, has_table_tool_results, Hts.
  cbn [present negb].
  assert (Herr : forall (results : list Sqlite.ToolResult) (t : Z),
    (length (filter (fun r => Sqlite.tr_tool_id r = t /\ is_Some (Sqlite.tr_exception r))
                    results)
     <= length (filter (fun r => Sqlite.tr_tool_id r = t) results))%nat).
  { intros results t. induction results as [|r rs IH]; [done|].
    rewrite !filter_cons.
    destruct (decide (Sqlite.tr_tool_id r = t /\ is_Some (Sqlite.tr_exception r)))
      as [[? ?]|], (decide (Sqlite.tr_tool_id r = t)); simpl; try lia; done. }
  assert (Hsorted : forall rows : list Sqlite.tool_stats,
    Sorted (fun a b => Tools.call_count b <= Tools.call_count a)
      (Tools.definition_of_row <$> Sqlite.order_by Sqlite.by_call_count_desc rows)).
  { intros rows.
    assert (H : Sorted (fun a b => Sqlite.by_call_count_desc a b = true)
                  (Sqlite.order_by Sqlite.by_call_count_desc rows)).
    { apply order_by_sorted. unfold Sqlite.by_call_count_desc. intros; lia. }
    induction H as [|x l Hs IH Hhd]; simpl; constructor; [done|].
    destruct Hhd as [|y l Hxy]; constructor.
    unfold Sqlite.by_call_count_desc in Hxy. simpl. lia. }
  unfold Sqlite.select_tools_calls_results, Sqlite.select_tools_calls,
    Sqlite.select_tools.
  rewrite Hts.
  destruct (Sqlite.tool_calls db) as [calls|],
           (Sqlite.tool_results db) as [results|]; simpl;
    eexists; (split; [reflexivity|]); simpl;
    rewrite ?length_fmap,
      ?(Permutation_length (order_by_perm Sqlite.by_call_count_desc _)),
      ?length_fmap;
    (split; [done|]).
  - split; [|split; [apply Hsorted|]].
    + rewrite (order_by_perm Sqlite.by_call_count_desc), <- !list_fmap_compose. done.
    + rewrite (order_by_perm Sqlite.by_call_count_desc).
      apply Forall_fmap, Forall_fmap, Forall_forall. intros t _. simpl.
      unfold Sqlite.call_count_of, Sqlite.result_count_of, Sqlite.error_count_of.
      repeat (split; [done|]). specialize (Herr results (Sqlite.t_id t)). lia.
  - split; [|split; [apply Hsorted|]].
    + rewrite (order_by_perm Sqlite.by_call_count_desc), <- !list_fmap_compose. done.
    + rewrite (order_by_perm Sqlite.by_call_count_desc).
      apply Forall_fmap, Forall_fmap, Forall_forall. intros t _. simpl.
      unfold Sqlite.call_count_of. done.
  - rewrite <- !list_fmap_compose. split; [done|]. split.
    + clear Hts. induction ts as [|t ts' IH]; simpl; [constructor|].
      constructor; [apply IH|]. destruct ts'; constructor. simpl. lia.
    + apply Forall_fmap, Forall_forall. intros t _. simpl. done.
  - rewrite <- !list_fmap_compose. split; [done|]. split.
    + clear Hts. induction ts as [|t ts' IH]; simpl; [constructor|].
      constructor; [apply IH|]. destruct ts'; constructor. simpl. lia.
    + apply Forall_fmap, Forall_forall. intros t _. simpl. done.
Qed.

Lemma filter_key_unique {A K} `{EqDecision K} (key : A -> K) (k : K) (l : list A) :
  NoDup (key <$> l) -> (length (filter (fun x => key x = k) l) <= 1)%nat.
Proof.
  induction l as [|x l IH]; [simpl; lia|].
  rewrite fmap_cons, NoDup_cons. intros [Hx Hl].
  rewrite filter_cons. destruct (decide (key x = k)) as [<-|]; [|by apply IH].
  assert (Hnone : filter (fun y => key y = key x) l = []).
  { apply length_zero_iff_nil. destruct (filter _ l) as [|y ys] eqn:Hf; [done|].
    exfalso. apply Hx.
    assert (Hy : y ∈ filter (fun y => key y = key x) l) by (rewrite Hf; left).
    apply list_elem_of_filter in Hy as [<- Hy]. by apply list_elem_of_fmap_2. }
  rewrite Hnone. simpl. lia.
Qed.

(** With unique keys on the right a left join gives one row for every left
    row. *)
Lemma left_join_unique {A} (key : A -> string) (rs : list Sqlite.Response) (x : A) :
  NoDup (Sqlite.r_id <$> rs) ->
  Sqlite.left_join (fun x r => String.eqb (key x) (Sqlite.r_id r)) rs x =
    [(x, head (filter (fun r => Sqlite.r_id r = key x) rs))].
Proof.
  intros Hrs. unfold Sqlite.left_join.
  assert (Hf : filter (fun r => String.eqb (key x) (Sqlite.r_id r) = true) rs =
               filter (fun r => Sqlite.r_id r = key x) rs).
  { apply list_filter_iff. intros r. rewrite String.eqb_eq. naive_solver. }
  rewrite Hf. clear Hf. pose proof (filter_key_unique Sqlite.r_id (key x) rs Hrs) as Hlen.
  destruct (filter _ rs) as [|r [|r' more]]; simpl in *; first [done|lia].
Qed.

Lemma bind_singleton_fmap {A B} (f : A -> list B) (g : A -> B) (l : list A) :
  (forall x, f x = [g x]) -> l ≫= f = g <$> l.
Proof.
  intros Hf. induction l as [|x l IH]; [done|].
  rewrite bind_cons, fmap_cons, Hf, IH. done.
Qed.

Lemma left_join_fst {A} (matches : A -> Sqlite.Response -> bool)
    (rs : list Sqlite.Response) (x : A) (j : A * option Sqlite.Response) :
  j ∈ Sqlite.left_join matches rs x ->
  j.1 = x /\ (forall r, j.2 = Some r -> r ∈ rs /\ matches x r = true).
Proof.
  unfold Sqlite.left_join.
  destruct (filter _ rs) as [|r0 more] eqn:Hf.
  - intros ->%list_elem_of_singleton. split; [done|]. intros r [=].
  - intros (r & -> & Hr)%list_elem_of_fmap. split; [done|]. intros r' [= <-].
    rewrite <- Hf in Hr. by apply list_elem_of_filter in Hr as [? ?].
Qed.

Lemma sorted_fmap {A B} (f : A -> B) (R : B -> B -> Prop) (l : list A) :
  Sorted (fun a b => R (f a) (f b)) l -> Sorted R (f <$> l).
Proof.
  induction 1 as [|x l Hs IH Hhd]; simpl; constructor; [done|].
  destruct Hhd; constructor. done.
Qed.

Lemma joined_desc_total {A} (a b : A * option Sqlite.Response) :
  Sqlite.joined_desc a b = false -> Sqlite.joined_desc b a = true.
Proof. apply desc_total. Qed.

Lemma Sorted_drop {A} (R : A -> A -> Prop) (n : nat) (l : list A) :
  Sorted R l -> Sorted R (drop n l).
Proof.
  revert l. induction n as [|n IH]; intros l Hl; [done|].
  destruct l as [|x l]; [done|]. simpl. apply IH. by inversion Hl.
Qed.

Lemma Sorted_take {A} (R : A -> A -> Prop) (n : nat) (l : list A) :
  Sorted R l -> Sorted R (take n l).
Proof.
  intros Hl. revert n. induction Hl as [|x l Hs IH Hhd]; intros n.
  - by destruct n.
  - destruct n as [|n]; simpl; [constructor|]. constructor; [apply IH|].
    destruct Hhd as [|y l Hxy]; [destruct n; constructor|].
    destruct n; simpl; by constructor.
Qed.

Lemma limit_offset_sorted {A} (R : A -> A -> Prop) (limit offset : Z) (l : list A) :
  Sorted R l -> Sorted R (Sqlite.limit_offset limit offset l).
Proof.
  intros Hl. unfold Sqlite.limit_offset.
  destruct (limit <? 0); [|apply Sorted_take]; by apply Sorted_drop.
Qed.

(** What [get_tool_calls] returns when both tables are there. *)
Lemma get_tool_calls_run (db : Sqlite.Db) (calls : list Sqlite.ToolCall)
    (rs : list Sqlite.Response) (tool_id limit offset : Z) :
  Sqlite.tool_calls db = Some calls ->
  Sqlite.responses db = Some rs ->
  Sqlite.int64 tool_id = true -> Sqlite.int64 limit = true ->
  Sqlite.int64 offset = true ->
  Tools.get_tool_calls db tool_id limit offset =
    Ok {| Tools.l_items :=
            Tools.call_detail <$>
              Sqlite.limit_offset limit offset
                (Sqlite.order_by Sqlite.joined_desc
                   (filter (fun c => Sqlite.tc_tool_id c = tool_id) calls ≫=
                      Sqlite.left_join
                        (fun c r => String.eqb (Sqlite.tc_response_id c) (Sqlite.r_id r))
                        rs));
          Tools.l_total :=
            Z.of_nat (length (filter (fun c => Sqlite.tc_tool_id c = tool_id) calls));
          Tools.l_limit := Some limit;
          Tools.l_offset := Some offset |}.
Proof.
  intros Hcalls Hrs Ht Hl Ho. unfold Tools.get_tool_calls.
  rewrite has_table_tool_calls, Hcalls. cbn [present negb].
  unfold Sqlite.select_tool_calls, Sqlite.count_tool_calls.
  rewrite Hcalls, Hrs. set (params := <["offset" := _]> _).
  rewrite (integer_param_lookup params "tool_id" tool_id eq_refl Ht),
    (integer_param_lookup params "limit" limit eq_refl Hl),
    (integer_param_lookup params "offset" offset eq_refl Ho).
  reflexivity.
Qed.

(** X14: the calls of a tool.  With the [tool_calls] and [responses] tables
    in place, response ids unique and the arguments within the 64-bit
    integers of SQLite, a page holds [limit] calls as long as
    that many are left behind the offset; every call shown is a call of the
    tool, with the datetime of its response when that exists and none
    otherwise; the calls come in descending order of that datetime, those
    without one last; and the total is the number of calls of the tool. *)
Theorem tool_calls_page (db : Sqlite.Db) (calls : list Sqlite.ToolCall)
    (rs : list Sqlite.Response) (tool_id limit offset : Z) :
  Sqlite.tool_calls db = Some calls ->
  Sqlite.responses db = Some rs ->
  NoDup (Sqlite.r_id <$> rs) ->
  Sqlite.int64 tool_id = true -> 0 <= limit < 2 ^ 63 -> 0 <= offset < 2 ^ 63 ->
  exists page,
    Tools.get_tool_calls db tool_id limit offset = Ok page /\
    Tools.l_total page =
      Z.of_nat (length (filter (fun c => Sqlite.tc_tool_id c = tool_id) calls)) /\
    Tools.l_limit page = Some limit /\
    Tools.l_offset page = Some offset /\
    Z.of_nat (length (Tools.l_items page)) =
      Z.min limit (Z.max 0 (Tools.l_total page - offset)) /\
    Forall (fun d =>
              Tools.tcd_tool_id d = tool_id /\
              exists c,
                c ∈ calls /\ Tools.tcd_id d = Sqlite.tc_id c /\
                Tools.tcd_response_id d = Sqlite.tc_response_id c /\
                Tools.tcd_datetime_utc d =
                  head (filter (fun r => Sqlite.r_id r = Sqlite.tc_response_id c) rs)
                    ≫= Sqlite.r_datetime_utc)
           (Tools.l_items page) /\
    Sorted (fun a b => Sqlite.desc (Tools.tcd_datetime_utc a)
                                   (Tools.tcd_datetime_utc b) = true)
           (Tools.l_items page).
Proof.
  intros Hcalls Hrs Hids Ht Hl Ho.
  rewrite (get_tool_calls_run db calls rs) by first [done | apply int64_true; lia].
  eexists. split; [reflexivity|]. simpl. repeat (split; [done|]).
  rewrite (bind_singleton_fmap _
             (fun c => (c, head (filter (fun r => Sqlite.r_id r = Sqlite.tc_response_id c)
                                        rs))))
    by (intros c; by apply (left_join_unique Sqlite.tc_response_id)).
  set (mine := filter _ calls).
  set (joined := _ <$> mine).
  split; [|split].
  - rewrite length_fmap, limit_offset_length by lia.
    rewrite (Permutation_length (order_by_perm Sqlite.joined_desc joined)).
    unfold joined. by rewrite length_fmap.
  - apply Forall_fmap, Forall_forall. intros j Hj.
    apply limit_offset_elem in Hj. rewrite order_by_perm in Hj.
    apply list_elem_of_fmap in Hj as (c & -> & Hc).
    apply list_elem_of_filter in Hc as [Hid Hc]. simpl. split; [done|].
    exists c. done.
  - apply sorted_fmap, limit_offset_sorted.
    apply (order_by_sorted Sqlite.joined_desc), joined_desc_total.
Qed.

(** What [get_tool_results] returns when both tables are there. *)
Lemma get_tool_results_run (db : Sqlite.Db) (results : list Sqlite.ToolResult)
    (rs : list Sqlite.Response) (tool_id limit offset : Z) (errors_only : bool) :
  Sqlite.tool_results db = Some results ->
  Sqlite.responses db = Some rs ->
  Sqlite.int64 tool_id = true -> Sqlite.int64 limit = true ->
  Sqlite.int64 offset = true ->
  Tools.get_tool_results db tool_id limit offset errors_only =
    Ok {| Tools.l_items :=
            Tools.result_detail <$>
              Sqlite.limit_offset limit offset
                (Sqlite.order_by Sqlite.joined_desc
                   (filter (fun t => Sqlite.result_selected tool_id errors_only t = true)
                           results ≫=
                      Sqlite.left_join
                        (fun t r => String.eqb (Sqlite.tr_response_id t) (Sqlite.r_id r))
                        rs));
          Tools.l_total :=
            Z.of_nat (length (filter (fun t => Sqlite.result_selected tool_id errors_only t
                                               = true) results));
          Tools.l_limit := Some limit;
          Tools.l_offset := Some offset |}.
Proof.
  intros Hresults Hrs Ht Hl Ho. unfold Tools.get_tool_results.
  rewrite has_table_tool_results, Hresults. cbn [present negb].
  unfold Sqlite.select_tool_results, Sqlite.count_tool_results.
  rewrite Hresults, Hrs. set (params := <["offset" := _]> _).
  rewrite (integer_param_lookup params "tool_id" tool_id eq_refl Ht),
    (integer_param_lookup params "limit" limit eq_refl Hl),
    (integer_param_lookup params "offset" offset eq_refl Ho).
  reflexivity.
Qed.

(** X15: the results of a tool.  With the [tool_results] and [responses]
    tables in place and the arguments within the 64-bit integers of SQLite,
    every result shown is a result of the tool, a page
    never holds more than [limit] of them, and the total is the number of
    results of the tool.  Under [errors_only] every result shown has an
    exception, the total counts the results with an exception only, and it
    is at most the total without the flag. *)
Theorem tool_results_errors_only (db : Sqlite.Db) (results : list Sqlite.ToolResult)
    (rs : list Sqlite.Response) (tool_id limit offset : Z) (errors_only : bool) :
  Sqlite.tool_results db = Some results ->
  Sqlite.responses db = Some rs ->
  Sqlite.int64 tool_id = true -> 0 <= limit < 2 ^ 63 -> Sqlite.int64 offset = true ->
  exists page every,
    Tools.get_tool_results db tool_id limit offset errors_only = Ok page /\
    Tools.get_tool_results db tool_id limit offset false = Ok every /\
    Tools.l_total every =
      Z.of_nat (length (filter (fun t => Sqlite.tr_tool_id t = tool_id) results)) /\
    Tools.l_total page =
      (if errors_only
       then Z.of_nat (length (filter (fun t => Sqlite.tr_tool_id t = tool_id /\
                                               is_Some (Sqlite.tr_exception t)) results))
       else Tools.l_total every) /\
    Tools.l_total page <= Tools.l_total every /\
    Z.of_nat (length (Tools.l_items page)) <= limit /\
    Forall (fun d =>
              Tools.trd_tool_id d = tool_id /\
              (errors_only = true -> is_Some (Tools.trd_exception d)) /\
              exists t, t ∈ results /\ Tools.trd_id d = Sqlite.tr_id t /\
                        Tools.trd_exception d = Sqlite.tr_exception t)
           (Tools.l_items page).
Proof.
  intros Hresults Hrs Htool Hl Ho.
  rewrite !(get_tool_results_run db results rs)
    by first [done | apply int64_true; lia].
  do 2 eexists. do 2 (split; [reflexivity|]). simpl.
  assert (Hall : filter (fun t => Sqlite.result_selected tool_id false t = true) results =
                 filter (fun t => Sqlite.tr_tool_id t = tool_id) results).
  { apply list_filter_iff. intros t. unfold Sqlite.result_selected.
    rewrite andb_true_r, bool_decide_eq_true. done. }
  assert (Herr : filter (fun t => Sqlite.result_selected tool_id true t = true) results =
                 filter (fun t => Sqlite.tr_tool_id t = tool_id /\
                                  is_Some (Sqlite.tr_exception t)) results).
  { apply list_filter_iff. intros t. unfold Sqlite.result_selected.
    rewrite andb_true_iff, !bool_decide_eq_true. done. }
  assert (Hle : (length (filter (fun t => Sqlite.tr_tool_id t = tool_id /\
                                          is_Some (Sqlite.tr_exception t)) results)
                 <= length (filter (fun t => Sqlite.tr_tool_id t = tool_id) results))%nat).
  { clear. induction results as [|r rs IH]; [done|].
    rewrite !filter_cons.
    destruct (decide (Sqlite.tr_tool_id r = tool_id /\ is_Some (Sqlite.tr_exception r)))
      as [[? ?]|], (decide (Sqlite.tr_tool_id r = tool_id)); simpl; try lia; done. }
  rewrite Hall. split; [done|]. split; [|split; [|split]].
  - destruct errors_only; [by rewrite Herr|by rewrite Hall].
  - destruct errors_only; [rewrite Herr|rewrite Hall]; lia.
  - rewrite length_fmap. unfold Sqlite.limit_offset.
    destruct (limit <? 0) eqn:E; [lia|]. rewrite length_take. lia.
  - apply Forall_fmap, Forall_forall. intros j Hj.
    apply limit_offset_elem in Hj. rewrite order_by_perm in Hj.
    apply list_elem_of_bind in Hj as (t & Hj & Ht).
    apply left_join_fst in Hj as [Hj1 _].
    apply list_elem_of_filter in Ht as [Hsel Ht].
    unfold Sqlite.result_selected in Hsel.
    apply andb_true_iff in Hsel as [Hid Hexc]. apply bool_decide_eq_true in Hid.
    simpl. rewrite Hj1. split; [done|]. split.
    + intros ->. by apply bool_decide_eq_true in Hexc.
    + by exists t.
Qed.

(** X16: the endpoints that join with [responses] look only for their own
    table.  On a database without the [responses] table, the calls and
    the results of a tool and both listings of the conversations fail with
    the error of SQLite as soon as their own table exists, while the detail
    of an existing conversation, which sqlite-utils reads table by table,
    is answered by the endpoint and by the page with no responses. *)
Theorem joins_need_responses (db : Sqlite.Db) :
  Sqlite.responses db = None ->
  let missing {A} : result A := Raise (OperationalError "no such table: responses") in
  (forall tool_id limit offset,
     Sqlite.tool_calls db <> None ->
     Tools.get_tool_calls db tool_id limit offset = missing) /\
  (forall tool_id limit offset errors_only,
     Sqlite.tool_results db <> None ->
     Tools.get_tool_results db tool_id limit offset errors_only = missing) /\
  (forall limit offset,
     Sqlite.conversations db <> None ->
     Conversations.list_conversations db limit offset = missing) /\
  (forall page limit,
     Sqlite.conversations db <> None ->
     ConversationsView.list_conversations db page limit = missing) /\
  (forall c,
     c ∈ rows_of (Sqlite.conversations db) ->
     (exists ctx,
        ConversationsView.view_conversation db (Sqlite.c_id c) = Ok ctx /\
        Sqlite.c_id (ConversationsView.conversation ctx) = Sqlite.c_id c /\
        ConversationsView.responses ctx = []) /\
     exists d,
       Conversations.get_conversation db (Sqlite.c_id c) = Ok d /\
       Conversations.cd_id d = Sqlite.c_id c /\
       Conversations.cd_responses d = []).
Proof.
  intros Hrs missing.
  assert (Hfound : forall c cs, c ∈ cs ->
    exists c' more, filter (fun c' => Sqlite.c_id c' = Sqlite.c_id c) cs = c' :: more /\
                    Sqlite.c_id c' = Sqlite.c_id c).
  { intros c cs Hc. destruct (filter _ cs) as [|c' more] eqn:Hf.
    - assert (Hin : c ∈ filter (fun c' => Sqlite.c_id c' = Sqlite.c_id c) cs)
        by by apply list_elem_of_filter.
      rewrite Hf in Hin. by apply elem_of_nil in Hin.
    - exists c', more. split; [done|].
      assert (Hin : c' ∈ filter (fun c' => Sqlite.c_id c' = Sqlite.c_id c) cs)
        by (rewrite Hf; left).
      by apply list_elem_of_filter in Hin as [? _]. }
  repeat split.
  - intros tool_id limit offset Hcalls. unfold Tools.get_tool_calls.
    rewrite has_table_tool_calls. unfold Sqlite.select_tool_calls.
    destruct (Sqlite.tool_calls db); [|done]. by rewrite Hrs.
  - intros tool_id limit offset errors_only Hresults. unfold Tools.get_tool_results.
    rewrite has_table_tool_results. unfold Sqlite.select_tool_results.
    destruct (Sqlite.tool_results db); [|done]. by rewrite Hrs.
  - intros limit offset Hcs. unfold Conversations.list_conversations.
    rewrite has_table_conversations. unfold Sqlite.select_conversations.
    destruct (Sqlite.conversations db); [|done]. by rewrite Hrs.
  - intros page limit Hcs. unfold ConversationsView.list_conversations.
    rewrite has_table_conversations. unfold Sqlite.select_conversations.
    destruct (Sqlite.conversations db); [|done]. by rewrite Hrs.
  - unfold ConversationsView.view_conversation.
    rewrite has_table_conversations.
    unfold Sqlite.conversations_with_id, Sqlite.responses_of_conversation.
    rewrite Hrs.
    destruct (Sqlite.conversations db) as [cs|]; [|by apply elem_of_nil in H].
    simpl in *. destruct (Hfound c cs H) as (c' & more & -> & Hid).
    eexists. split; [reflexivity|]. simpl. split; [done|].
    by rewrite filter_nil, order_by_nil.
  - unfold Conversations.get_conversation.
    rewrite has_table_conversations, has_table_responses, Hrs.
    unfold Sqlite.conversations_with_id.
    destruct (Sqlite.conversations db) as [cs|]; [|by apply elem_of_nil in H].
    simpl in *. destruct (Hfound c cs H) as (c' & more & -> & Hid).
    eexists. split; [reflexivity|]. simpl. by split.
Qed.

(** ** Conversations *)

Lemma filter_id {A} (P : A -> Prop) `{!forall x, Decision (P x)} (l : list A) :
  (forall x, x ∈ l -> P x) -> filter P l = l.
Proof.
  induction l as [|x l IH]; [done|]. intros Hall.
  rewrite filter_cons_True by (apply Hall; left). f_equal. apply IH.
  intros y Hy. apply Hall. by right.
Qed.

Lemma filter_none {A} (P : A -> Prop) `{!forall x, Decision (P x)} (l : list A) :
  (forall x, x ∈ l -> ~ P x) -> filter P l = [].
Proof.
  induction l as [|x l IH]; [done|]. intros Hall.
  rewrite filter_cons_False by (apply Hall; left). apply IH.
  intros y Hy. apply Hall. by right.
Qed.

Lemma filter_bind {A B} (P : B -> Prop) `{!forall x, Decision (P x)}
    (Q : A -> Prop) `{!forall x, Decision (Q x)} (f : A -> list B) (l : list A) :
  (forall x j, j ∈ f x -> (P j <-> Q x)) ->
  filter P (l ≫= f) = filter Q l ≫= f.
Proof.
  intros Hall. induction l as [|x l IH]; [done|].
  rewrite bind_cons, filter_app, IH, filter_cons.
  destruct (decide (Q x)) as [Hx|Hx].
  - rewrite bind_cons. f_equal. apply filter_id. intros j Hj. by apply (Hall x).
  - rewrite filter_none; [done|]. intros j Hj HP. by apply Hx, (Hall x j).
Qed.

Lemma fmap_ext_in {A B} (f g : A -> B) (l : list A) :
  (forall x, x ∈ l -> f x = g x) -> f <$> l = g <$> l.
Proof.
  induction l as [|x l IH]; [done|]. intros Hall. rewrite !fmap_cons.
  f_equal; [apply Hall; left|]. apply IH. intros y Hy. apply Hall. by right.
Qed.

Lemma filter_unique {A K} `{EqDecision K} (key : A -> K) (x : A) (l : list A) :
  NoDup (key <$> l) -> x ∈ l -> filter (fun y => key y = key x) l = [x].
Proof.
  intros Hl Hx. pose proof (filter_key_unique key (key x) l Hl) as Hlen.
  assert (Hin : x ∈ filter (fun y => key y = key x) l) by by apply list_elem_of_filter.
  destruct (filter _ l) as [|y [|z more]]; simpl in *.
  - by apply elem_of_nil in Hin.
  - by apply list_elem_of_singleton in Hin as ->.
  - lia.
Qed.

Lemma left_join_cases {A B} (matches : A -> B -> bool) (rights : list B) (x : A) :
  exists j rest,
    Sqlite.left_join matches rights x = j :: rest /\ j.1 = x /\
    omap snd (j :: rest) = filter (fun r => matches x r = true) rights.
Proof.
  unfold Sqlite.left_join. destruct (filter _ rights) as [|r more].
  - by exists (x, None), [].
  - exists (x, Some r), ((fun r => (x, Some r)) <$> more).
    split; [done|]. split; [done|]. simpl. f_equal.
    induction more as [|r' more IH]; [done|]. simpl. by f_equal.
Qed.

Lemma left_join_key {A B} (matches : A -> B -> bool) (rights : list B) (x : A)
    (j : A * option B) :
  j ∈ Sqlite.left_join matches rights x -> j.1 = x.
Proof.
  unfold Sqlite.left_join. destruct (filter _ rights) as [|r more].
  - by intros ->%list_elem_of_singleton.
  - by intros (r' & -> & _)%list_elem_of_fmap.
Qed.

Lemma mapM_ok_in {A B} (f : A -> result B) (g : A -> B) (l : list A) :
  (forall x, x ∈ l -> f x = Ok (g x)) -> mapM f l = Ok (g <$> l).
Proof.
  intros Hf. induction l as [|x l IH]; [done|].
  simpl. rewrite Hf by left. simpl. rewrite IH; [done|].
  intros y Hy. apply Hf. by right.
Qed.

(** The values of a part of the rows fit when those of all rows do. *)
Lemma fits_filter (column : Sqlite.Response -> option Z) (P : Sqlite.Response -> Prop)
    `{!forall r, Decision (P r)} (rows : list Sqlite.Response) :
  fits_int64 column rows -> fits_int64 column (filter P rows).
Proof.
  unfold fits_int64. intros Hfits. eapply Z.le_lt_trans; [|exact Hfits]. clear Hfits.
  induction rows as [|r rows IH]; [done|].
  assert (Hstep : Sqlite.sum_z (Z.abs <$> Sqlite.non_null (column <$> rows)) <=
                  Sqlite.sum_z (Z.abs <$> Sqlite.non_null (column <$> r :: rows))).
  { rewrite fmap_cons. unfold Sqlite.non_null.
    change (omap id (column r :: (column <$> rows))) with
      (match column r with
       | Some v => v :: omap id (column <$> rows)
       | None => omap id (column <$> rows)
       end).
    destruct (column r) as [v|]; [|done].
    rewrite fmap_cons. unfold Sqlite.sum_z. cbn [foldr]. lia. }
  rewrite filter_cons. destruct (decide (P r)); [|lia].
  rewrite !fmap_cons. unfold Sqlite.non_null in *.
  change (omap id (column r :: ?l)) with
    (match column r with Some v => v :: omap id l | None => omap id l end).
  destruct (column r) as [v|]; [|done].
  rewrite !fmap_cons. unfold Sqlite.sum_z in *. cbn [foldr]. lia.
Qed.

(** [COALESCE(SUM(x), 0)] over values that fit is their sum. *)
Lemma sql_sum_fits (column : Sqlite.Response -> option Z) (rows : list Sqlite.Response) :
  fits_int64 column rows ->
  exists s, Sqlite.sql_sum (column <$> rows) = Ok s /\
            Sqlite.coalesce0 s = column_sum column rows.
Proof.
  intros Hfits. pose proof (sql_sum_run (column <$> rows)) as Hrun.
  destruct (Sqlite.sql_sum (column <$> rows)) as [s|e]; [by exists s|].
  by destruct Hrun as [_ Hn].
Qed.

Lemma stats_of_group_fits
    (g : string * list (Sqlite.Conversation * option Sqlite.Response)) :
  fits_int64 Sqlite.r_input_tokens (omap snd g.2) ->
  fits_int64 Sqlite.r_output_tokens (omap snd g.2) ->
  Sqlite.stats_of_group g = Ok (stats_of_joined g).
Proof.
  intros Hin Hout. unfold Sqlite.stats_of_group, stats_of_joined. cbv zeta.
  destruct (sql_sum_fits _ _ Hin) as (si & -> & Hsi).
  destruct (sql_sum_fits _ _ Hout) as (so & -> & Hso).
  simpl. by rewrite Hsi, Hso.
Qed.

(** The joined rows of one conversation, when the ids are unique. *)
Lemma conversation_group (cs : list Sqlite.Conversation) (rs : list Sqlite.Response)
    (c : Sqlite.Conversation) :
  NoDup (Sqlite.c_id <$> cs) -> c ∈ cs ->
  let join := Sqlite.left_join (fun c r => Sqlite.in_conversation (Sqlite.c_id c) r) rs in
  filter (fun j : Sqlite.Conversation * option Sqlite.Response =>
            Sqlite.c_id j.1 = Sqlite.c_id c) (cs ≫= join) = join c /\
  omap snd (join c) = responses_in (Sqlite.c_id c) rs /\
  Conversations.summary_of_row (stats_of_joined (Sqlite.c_id c, join c)) =
    summary_of_conversation rs c.
Proof.
  intros Hcs Hc join.
  assert (Hmine : filter (fun r => Sqlite.in_conversation (Sqlite.c_id c) r = true) rs =
                  responses_in (Sqlite.c_id c) rs).
  { apply list_filter_iff. intros r. unfold Sqlite.in_conversation.
    by rewrite bool_decide_eq_true. }
  destruct (left_join_cases (fun c r => Sqlite.in_conversation (Sqlite.c_id c) r) rs c)
    as (j & rest & Hjoin & Hj & Hsnd).
  split; [|split].
  - rewrite (filter_bind _ (fun c' => Sqlite.c_id c' = Sqlite.c_id c)).
    + rewrite (filter_unique Sqlite.c_id c cs) by done. by rewrite bind_singleton.
    + intros c' j' Hj'. apply left_join_key in Hj'. by rewrite Hj'.
  - unfold join. by rewrite Hjoin, Hsnd.
  - unfold join. rewrite Hjoin.
    unfold stats_of_joined, Conversations.summary_of_row, summary_of_conversation.
    cbn [fst snd Sqlite.cs_id Sqlite.cs_name Sqlite.cs_model Sqlite.cs_response_count
         Sqlite.cs_first_response Sqlite.cs_last_response Sqlite.cs_total_input_tokens
         Sqlite.cs_total_output_tokens head mbind option_bind].
    by rewrite Hsnd, Hj, Hmine.
Qed.

(** The groups of the statement of the conversation listing: one for every
    conversation, with its joined rows. *)
Lemma conversation_groups (cs : list Sqlite.Conversation) (rs : list Sqlite.Response) :
  NoDup (Sqlite.c_id <$> cs) ->
  let join := Sqlite.left_join (fun c r => Sqlite.in_conversation (Sqlite.c_id c) r) rs in
  Sqlite.group_by (fun j : Sqlite.Conversation * option Sqlite.Response =>
                     Sqlite.c_id j.1) String.leb (cs ≫= join)
  ≡ₚ (fun c => (Sqlite.c_id c, join c)) <$> cs.
Proof.
  intros Hcs join. unfold Sqlite.group_by.
  set (joined := cs ≫= join).
  rewrite (order_by_perm String.leb).
  assert (Hkeys : remove_dups ((fun j : Sqlite.Conversation * option Sqlite.Response =>
                                  Sqlite.c_id j.1) <$> joined) ≡ₚ Sqlite.c_id <$> cs).
  { apply NoDup_Permutation; [apply NoDup_remove_dups|done|].
    intros k. rewrite elem_of_remove_dups, !list_elem_of_fmap. split.
    - intros (j & -> & Hj). apply list_elem_of_bind in Hj as (c & Hj & Hc).
      apply left_join_key in Hj. exists c. by rewrite Hj.
    - intros (c & -> & Hc).
      destruct (left_join_cases (fun c r => Sqlite.in_conversation (Sqlite.c_id c) r)
                  rs c) as (j & rest & Hjoin & Hj & _).
      exists j. rewrite Hj. split; [done|].
      apply list_elem_of_bind. exists c. split; [|done].
      unfold join. rewrite Hjoin. left. }
  rewrite Hkeys, <- list_fmap_compose.
  rewrite (fmap_ext_in _ (fun c => (Sqlite.c_id c, join c))); [done|].
  intros c Hc. simpl. f_equal.
  destruct (conversation_group cs rs c Hcs Hc) as (Hg & _). exact Hg.
Qed.

Lemma limit_offset_sublist {A} (limit offset : Z) (rows : list A) :
  Sqlite.limit_offset limit offset rows `sublist_of` rows.
Proof.
  unfold Sqlite.limit_offset. destruct (limit <? 0).
  - apply sublist_drop.
  - etrans; [apply sublist_take|apply sublist_drop].
Qed.

Lemma last_response_desc_total (a b : Sqlite.conversation_stats) :
  Sqlite.last_response_desc a b = false -> Sqlite.last_response_desc b a = true.
Proof. apply desc_total. Qed.

(** What the statement of the conversation listing returns when no token
    sum leaves the 64-bit range. *)
Lemma select_conversations_run (db : Sqlite.Db) (cs : list Sqlite.Conversation)
    (rs : list Sqlite.Response) (limit offset : Z) :
  Sqlite.conversations db = Some cs ->
  Sqlite.responses db = Some rs ->
  NoDup (Sqlite.c_id <$> cs) ->
  Sqlite.int64 limit = true -> Sqlite.int64 offset = true ->
  fits_int64 Sqlite.r_input_tokens rs -> fits_int64 Sqlite.r_output_tokens rs ->
  exists stats,
    Sqlite.select_conversations db
      (<["offset" := Sqlite.Integer offset]> (<["limit" := Sqlite.Integer limit]> ∅)) =
    Ok (Sqlite.limit_offset limit offset
          (Sqlite.order_by Sqlite.last_response_desc stats)) /\
    Conversations.summary_of_row <$> stats ≡ₚ summary_of_conversation rs <$> cs.
Proof.
  intros Hcs Hrs Hids Hl Ho Hin Hout. unfold Sqlite.select_conversations.
  rewrite Hcs, Hrs. set (params := <["offset" := _]> _).
  rewrite (integer_param_lookup params "limit" limit eq_refl Hl),
    (integer_param_lookup params "offset" offset eq_refl Ho).
  cbn [Sqlite.table mbind result_bind].
  pose proof (conversation_groups cs rs Hids) as Hgroups. cbv zeta in Hgroups.
  set (join := Sqlite.left_join
                 (fun c r => Sqlite.in_conversation (Sqlite.c_id c) r) rs) in *.
  set (groups := Sqlite.group_by _ _ _) in *.
  assert (Hrun : mapM Sqlite.stats_of_group groups = Ok (stats_of_joined <$> groups)).
  { apply mapM_ok_in. intros g Hg. rewrite Hgroups in Hg.
    apply list_elem_of_fmap in Hg as (c & -> & Hc).
    destruct (conversation_group cs rs c Hids Hc) as (_ & Hsnd & _).
    fold join in Hsnd.
    apply stats_of_group_fits; simpl; rewrite Hsnd; by apply fits_filter. }
  rewrite Hrun. eexists. split; [reflexivity|].
  rewrite Hgroups, <- !list_fmap_compose.
  rewrite (fmap_ext_in _ (summary_of_conversation rs)); [done|].
  intros c Hc.
  destruct (conversation_group cs rs c Hids Hc) as (_ & _ & Hsum). exact Hsum.
Qed.

(** X17: the listing of the conversations.  With both tables in place,
    conversation ids unique, limit and offset within the 64-bit integers of
    SQLite and token counts whose sums stay within them, the total is the
    number of conversations and a page holds [limit] of them as long as
    that many are left behind the offset.  Every conversation is shown at
    most once, with its own name and model, the number of its responses,
    the datetimes of its first and last response and the sums of its
    tokens; a conversation without responses has counts of zero and no
    datetime.  The conversations come in descending order of their last
    response, those without one last. *)
Theorem list_conversations_statistics (db : Sqlite.Db)
    (cs : list Sqlite.Conversation) (rs : list Sqlite.Response) (limit offset : Z) :
  Sqlite.conversations db = Some cs ->
  Sqlite.responses db = Some rs ->
  NoDup (Sqlite.c_id <$> cs) ->
  0 <= limit < 2 ^ 63 -> 0 <= offset < 2 ^ 63 ->
  fits_int64 Sqlite.r_input_tokens rs -> fits_int64 Sqlite.r_output_tokens rs ->
  exists resp,
    Conversations.list_conversations db limit offset = Ok resp /\
    Conversations.total resp = Z.of_nat (length cs) /\
    Z.of_nat (length (Conversations.items resp)) =
      Z.min limit (Z.max 0 (Conversations.total resp - offset)) /\
    Forall (fun s => exists c, c ∈ cs /\ s = summary_of_conversation rs c)
           (Conversations.items resp) /\
    NoDup (Conversations.id <$> Conversations.items resp) /\
    Sorted (fun a b => Sqlite.desc (Conversations.last_response a)
                                   (Conversations.last_response b) = true)
           (Conversations.items resp).
Proof.
  intros Hcs Hrs Hids Hl Ho Hin Hout. unfold Conversations.list_conversations.
  rewrite has_table_conversations, Hcs. cbn [present negb].
  destruct (select_conversations_run db cs rs limit offset Hcs Hrs Hids
              ltac:(apply int64_true; lia) ltac:(apply int64_true; lia) Hin Hout)
    as (stats & -> & Hgroups).
  unfold Sqlite.count, Sqlite.table. simpl.
  eexists. split; [reflexivity|]. simpl. split; [done|].
  assert (Hsorted : Conversations.summary_of_row <$>
                      Sqlite.order_by Sqlite.last_response_desc stats
                    ≡ₚ summary_of_conversation rs <$> cs).
  { by rewrite (order_by_perm Sqlite.last_response_desc). }
  split; [|split; [|split]].
  - rewrite length_fmap, limit_offset_length by lia.
    rewrite (Permutation_length (order_by_perm Sqlite.last_response_desc stats)).
    apply Permutation_length in Hgroups. rewrite !length_fmap in Hgroups.
    by rewrite Hgroups.
  - apply Forall_forall. intros s Hs.
    assert (Hin' : s ∈ Conversations.summary_of_row <$>
                        Sqlite.order_by Sqlite.last_response_desc stats).
    { apply list_elem_of_fmap in Hs as (x & -> & Hx).
      apply list_elem_of_fmap_2. by apply limit_offset_elem in Hx. }
    rewrite Hsorted in Hin'. apply list_elem_of_fmap in Hin' as (c & -> & Hc). eauto.
  - eapply sublist_NoDup.
    2:{ apply fmap_sublist, fmap_sublist, limit_offset_sublist. }
    rewrite Hsorted, <- list_fmap_compose. done.
  - apply sorted_fmap, limit_offset_sorted.
    apply (order_by_sorted Sqlite.last_response_desc), last_response_desc_total.
Qed.

(** X18: the list page of the conversations shows what the list endpoint
    returns.  On every database, page [page] of the HTML view holds the
    conversations and the total that the endpoint of the JSON API gives at
    offset [(page - 1) * limit], and it fails when the endpoint fails,
    with the same error. *)
Theorem conversations_page_shows_api_items (db : Sqlite.Db) (page limit : Z) :
  match Conversations.list_conversations db limit ((page - 1) * limit) with
  | Ok resp =>
      exists ctx,
        ConversationsView.list_conversations db page limit = Ok ctx /\
        Conversations.summary_of_row <$> ConversationsView.conversations ctx =
          Conversations.items resp /\
        ConversationsView.total ctx = Conversations.total resp /\
        ConversationsView.page ctx = page /\
        ConversationsView.limit ctx = limit
  | Raise e => ConversationsView.list_conversations db page limit = Raise e
  end.
Proof.
  unfold Conversations.list_conversations, ConversationsView.list_conversations.
  cbv zeta. destruct (negb _); [by eexists|].
  destruct (Sqlite.count _ _) as [total|]; [|done]. simpl.
  destruct (Sqlite.select_conversations _ _) as [rows|]; [|done]. simpl.
  by eexists.
Qed.

(** What [get_conversation] does on a table of conversations. *)
Lemma conversation_lookup (cs : list Sqlite.Conversation) (conversation_id : string) :
  match filter (fun c => Sqlite.c_id c = conversation_id) cs with
  | [] => conversation_id ∉ Sqlite.c_id <$> cs
  | c :: _ => c ∈ cs /\ Sqlite.c_id c = conversation_id
  end.
Proof.
  destruct (filter _ cs) as [|c more] eqn:Hf.
  - intros (c & -> & Hc)%list_elem_of_fmap.
    assert (Hin : c ∈ filter (fun c' => Sqlite.c_id c' = Sqlite.c_id c) cs)
      by by apply list_elem_of_filter.
    rewrite Hf in Hin. by apply elem_of_nil in Hin.
  - assert (Hin : c ∈ filter (fun c => Sqlite.c_id c = conversation_id) cs)
      by (rewrite Hf; left).
    by apply list_elem_of_filter in Hin as [? ?].
Qed.

Lemma datetime_asc_total (a b : Sqlite.Response) :
  Sqlite.datetime_asc a b = false -> Sqlite.datetime_asc b a = true.
Proof. unfold Sqlite.datetime_asc, Sqlite.asc. apply desc_total. Qed.

(** X19: the detail of a conversation.  The endpoint answers 404 exactly
    when the [conversations] table is missing or holds no conversation with
    the id.  Otherwise it returns that conversation with all the responses
    of the conversation and no other, in ascending order of their
    datetime, those without a datetime first; without the [responses]
    table the list is empty. *)
Theorem get_conversation_found_or_404 (db : Sqlite.Db) (conversation_id : string) :
  let cs := rows_of (Sqlite.conversations db) in
  (conversation_id ∉ Sqlite.c_id <$> cs ->
   Conversations.get_conversation db conversation_id =
     Raise (HTTPException 404 "Conversation not found")) /\
  (conversation_id ∈ Sqlite.c_id <$> cs ->
   exists d c rows,
     Conversations.get_conversation db conversation_id = Ok d /\
     c ∈ cs /\ Sqlite.c_id c = conversation_id /\
     Conversations.cd_id d = conversation_id /\
     Conversations.cd_name d = Sqlite.c_name c /\
     Conversations.cd_model d = Sqlite.c_model c /\
     Conversations.cd_responses d = Conversations.response_of_row <$> rows /\
     rows ≡ₚ responses_in conversation_id (rows_of (Sqlite.responses db)) /\
     Sorted (fun a b => Sqlite.asc (Sqlite.r_datetime_utc a)
                                   (Sqlite.r_datetime_utc b) = true) rows).
Proof.
  intros cs. unfold Conversations.get_conversation.
  rewrite has_table_conversations, has_table_responses.
  unfold Sqlite.conversations_with_id, Sqlite.responses_of_conversation.
  subst cs. destruct (Sqlite.conversations db) as [cs|]; simpl.
  2:{ split; [done|]. by intros ?%elem_of_nil. }
  pose proof (conversation_lookup cs conversation_id) as Hlookup.
  destruct (filter _ cs) as [|c more]; [split; [done|by intros ?]|].
  destruct Hlookup as [Hc Hid].
  split; [intros Hnot; exfalso; apply Hnot; rewrite <- Hid;
          by apply list_elem_of_fmap_2|].
  intros _.
  assert (Hmine : forall rs,
    filter (fun r => Sqlite.in_conversation conversation_id r = true) rs =
    responses_in conversation_id rs).
  { intros rs. apply list_filter_iff. intros r. unfold Sqlite.in_conversation.
    by rewrite bool_decide_eq_true. }
  destruct (Sqlite.responses db) as [rs|]; simpl.
  - eexists _, c, _. split; [reflexivity|]. simpl. repeat (split; [done|]).
    split; [by rewrite (order_by_perm Sqlite.datetime_asc), Hmine|].
    apply (order_by_sorted Sqlite.datetime_asc), datetime_asc_total.
  - eexists _, c, []. split; [reflexivity|]. simpl. repeat (split; [done|]).
    constructor.
Qed.

Lemma sum_z_perm (l k : list Z) : l ≡ₚ k -> Sqlite.sum_z l = Sqlite.sum_z k.
Proof.
  unfold Sqlite.sum_z. induction 1; simpl; lia.
Qed.

(** The sum of a column adds up the values that are not NULL. *)
Lemma column_sum_default (column : Sqlite.Response -> option Z)
    (rows : list Sqlite.Response) :
  column_sum column rows = Sqlite.sum_z ((fun r => default 0 (column r)) <$> rows).
Proof.
  unfold column_sum, Sqlite.non_null, Sqlite.sum_z.
  induction rows as [|r rows IH]; [done|]. rewrite !fmap_cons. cbv beta.
  change (omap id (column r :: (column <$> rows))) with
    (match column r with
     | Some v => v :: omap id (column <$> rows)
     | None => omap id (column <$> rows)
     end).
  destruct (column r) as [v|]; cbn [foldr default]; rewrite IH; unfold id; lia.
Qed.

Lemma sum_or_0_column (column : Sqlite.Response -> option Z)
    (rows : list Sqlite.Response) :
  ConversationsView.sum_or_0 column rows = column_sum column rows.
Proof. by rewrite column_sum_default. Qed.

(** X20: the detail page of a conversation shows what the detail endpoint
    returns, and its totals are those of the listing.  The page fails
    exactly when the endpoint fails, with the same error; otherwise it
    shows the same conversation and the same responses in the same order,
    and its token totals are the sums that the conversation has in the
    listing of the conversations; a missing [responses] table counts as
    empty. *)
Theorem view_conversation_shows_api_detail (db : Sqlite.Db) (conversation_id : string) :
  let rs := rows_of (Sqlite.responses db) in
  match Conversations.get_conversation db conversation_id with
  | Ok d =>
      exists ctx,
        ConversationsView.view_conversation db conversation_id = Ok ctx /\
        Sqlite.c_id (ConversationsView.conversation ctx) = Conversations.cd_id d /\
        Sqlite.c_name (ConversationsView.conversation ctx) = Conversations.cd_name d /\
        Sqlite.c_model (ConversationsView.conversation ctx) = Conversations.cd_model d /\
        Conversations.response_of_row <$> ConversationsView.responses ctx =
          Conversations.cd_responses d /\
        ConversationsView.total_input_tokens ctx =
          Conversations.total_input_tokens
            (summary_of_conversation rs (ConversationsView.conversation ctx)) /\
        ConversationsView.total_output_tokens ctx =
          Conversations.total_output_tokens
            (summary_of_conversation rs (ConversationsView.conversation ctx)) /\
        ConversationsView.total_duration_ms ctx =
          Sqlite.sum_z ((fun r => default 0 (Sqlite.r_duration_ms r)) <$>
                          responses_in conversation_id rs)
  | Raise e => ConversationsView.view_conversation db conversation_id = Raise e
  end.
Proof.
  intros rs.
  unfold Conversations.get_conversation, ConversationsView.view_conversation.
  rewrite has_table_conversations, has_table_responses.
  unfold Sqlite.conversations_with_id, Sqlite.responses_of_conversation.
  change (Sqlite.table_rows (Sqlite.responses db)) with rs.
  destruct (Sqlite.conversations db) as [cs|]; simpl; [|done].
  pose proof (conversation_lookup cs conversation_id) as Hlookup.
  destruct (filter _ cs) as [|c more]; [done|]. destruct Hlookup as [Hc Hid].
  subst conversation_id.
  assert (Hfilter :
    filter (fun r => Sqlite.in_conversation (Sqlite.c_id c) r = true) rs =
    responses_in (Sqlite.c_id c) rs).
  { apply list_filter_iff. intros r. unfold Sqlite.in_conversation.
    by rewrite bool_decide_eq_true. }
  assert (Hmine :
    Sqlite.order_by Sqlite.datetime_asc
      (filter (fun r => Sqlite.in_conversation (Sqlite.c_id c) r = true) rs)
    ≡ₚ responses_in (Sqlite.c_id c) rs).
  { by rewrite (order_by_perm Sqlite.datetime_asc), Hfilter. }
  eexists. split; [reflexivity|]. simpl. repeat (split; [done|]).
  split.
  { subst rs. destruct (Sqlite.responses db); simpl; [done|].
    by rewrite filter_nil, order_by_nil. }
  rewrite !sum_or_0_column, !column_sum_default. unfold ConversationsView.sum_or_0.
  split; [|split]; apply sum_z_perm; by rewrite Hmine.
Qed.

(** ** Usage by model *)

Lemma totals_of_model_fits (g : string * list Sqlite.Response) :
  fits_int64 Sqlite.r_input_tokens g.2 -> fits_int64 Sqlite.r_output_tokens g.2 ->
  Sqlite.totals_of_model g = Ok (totals_of_rows g).
Proof.
  intros Hin Hout. unfold Sqlite.totals_of_model, totals_of_rows.
  destruct (sql_sum_fits _ _ Hin) as (si & -> & Hsi).
  destruct (sql_sum_fits _ _ Hout) as (so & -> & Hso).
  simpl. by rewrite Hsi, Hso.
Qed.

(** The groups of [GROUP BY]: one for every key that occurs, with the rows
    of that key. *)
Lemma group_by_elem {A K} `{EqDecision K} (key : A -> K) (before : K -> K -> bool)
    (rows : list A) (g : K * list A) :
  g ∈ Sqlite.group_by key before rows ->
  g.1 ∈ key <$> rows /\ g.2 = filter (fun r => key r = g.1) rows.
Proof.
  unfold Sqlite.group_by. intros (k & -> & Hk)%list_elem_of_fmap.
  rewrite order_by_perm, elem_of_remove_dups in Hk. done.
Qed.

Lemma group_by_keys {A K} `{EqDecision K} (key : A -> K) (before : K -> K -> bool)
    (rows : list A) :
  (Sqlite.group_by key before rows).*1 ≡ₚ remove_dups (key <$> rows).
Proof.
  unfold Sqlite.group_by. rewrite <- list_fmap_compose.
  rewrite (fmap_ext_in _ id) by done. rewrite list_fmap_id.
  apply order_by_perm.
Qed.

(** What [get_model_usage] returns when the table is there and no token
    sum leaves the 64-bit range: the rows of the grouped statement over
    the responses within the bounds. *)
Lemma get_model_usage_run (db : Sqlite.Db) (rows : list Sqlite.Response)
    (start_date end_date : option string) (limit : Z) :
  Sqlite.responses db = Some rows ->
  Sqlite.int64 limit = true ->
  let within := filter (fun r => in_bounds start_date end_date r = true) rows in
  fits_int64 Sqlite.r_input_tokens within ->
  fits_int64 Sqlite.r_output_tokens within ->
  Metrics.get_model_usage db start_date end_date limit =
    Ok (usage_of_row <$>
        Sqlite.limit_offset limit 0
          (Sqlite.order_by Sqlite.by_response_count_desc
             (totals_of_rows <$> Sqlite.group_by Sqlite.r_model String.leb within))).
Proof.
  intros Hrows Hl within Hin Hout. unfold Metrics.get_model_usage.
  rewrite has_table_responses, Hrows. cbn [present negb]. cbv zeta.
  rewrite (select_by_model_within db rows) by done. fold within.
  unfold Sqlite.select_by_model, with_responses.
  cbn [Sqlite.responses Sqlite.table mbind result_bind Sqlite.where_pred].
  set (params := <["limit" := _]> _).
  rewrite (integer_param_lookup params "limit" limit eq_refl Hl).
  simpl. rewrite filter_all.
  rewrite (mapM_ok_in _ totals_of_rows); [done|].
  intros g Hg. apply group_by_elem in Hg as [_ Hg].
  apply totals_of_model_fits; rewrite Hg; by apply fits_filter.
Qed.

(** X21: the usage by model.  With the [responses] table in place, a
    limit within the 64-bit integers of SQLite and token counts whose sums
    stay within them, the listing has at most [limit] entries, one for a
    model, no model twice, in descending order of the number of responses.
    The entry of a model counts the responses of that model within the
    date bounds, of which there is at least one, and carries the sums of
    their tokens and the average of their durations. *)
Theorem model_usage_entries (db : Sqlite.Db) (rows : list Sqlite.Response)
    (start_date end_date : option string) (limit : Z) :
  Sqlite.responses db = Some rows ->
  0 <= limit < 2 ^ 63 ->
  let within := filter (fun r => in_bounds start_date end_date r = true) rows in
  fits_int64 Sqlite.r_input_tokens within ->
  fits_int64 Sqlite.r_output_tokens within ->
  exists usage,
    Metrics.get_model_usage db start_date end_date limit = Ok usage /\
    Z.of_nat (length usage) <= limit /\
    NoDup (Metrics.model <$> usage) /\
    Sorted (fun a b => Metrics.response_count b <= Metrics.response_count a) usage /\
    Forall (fun u =>
              let mine := filter (fun r => Sqlite.r_model r = Metrics.model u) within in
              Metrics.response_count u = Z.of_nat (length mine) /\
              1 <= Metrics.response_count u /\
              Metrics.input_tokens u = column_sum Sqlite.r_input_tokens mine /\
              Metrics.output_tokens u = column_sum Sqlite.r_output_tokens mine /\
              Metrics.mu_avg_duration_ms u =
                Sqlite.sql_avg (Sqlite.r_duration_ms <$> mine))
           usage.
Proof.
  intros Hrows Hl within Hin Hout.
  rewrite (get_model_usage_run db rows) by first [done | apply int64_true; lia].
  fold within.
  eexists. split; [reflexivity|].
  set (cmp := Sqlite.by_response_count_desc).
  set (groups := _ <$> Sqlite.group_by Sqlite.r_model String.leb within).
  split; [|split; [|split]].
  - rewrite length_fmap. unfold Sqlite.limit_offset.
    destruct (limit <? 0) eqn:E; [lia|]. rewrite length_take. lia.
  - rewrite <- list_fmap_compose. eapply sublist_NoDup.
    2:{ apply fmap_sublist, limit_offset_sublist. }
    rewrite (order_by_perm cmp). unfold groups. rewrite <- list_fmap_compose.
    change (NoDup ((Sqlite.group_by Sqlite.r_model String.leb within).*1)).
    rewrite group_by_keys. apply NoDup_remove_dups.
  - apply sorted_fmap, limit_offset_sorted. simpl.
    eapply Sorted_mono; [|apply (order_by_sorted cmp)].
    + unfold cmp, Sqlite.by_response_count_desc. intros a b. simpl. lia.
    + unfold cmp, Sqlite.by_response_count_desc. intros a b. lia.
  - apply Forall_fmap, Forall_forall. intros m Hm.
    apply limit_offset_elem in Hm. rewrite (order_by_perm cmp) in Hm.
    apply list_elem_of_fmap in Hm as (g & -> & Hg).
    apply group_by_elem in Hg as [Hkey Hg]. simpl. rewrite <- Hg.
    repeat (split; [done|]). split; [|done].
    apply list_elem_of_fmap in Hkey as (r & Hk & Hr).
    assert (Hmem : r ∈ g.2) by (rewrite Hg; by apply list_elem_of_filter).
    destruct (g.2); [by apply elem_of_nil in Hmem|]. simpl length. lia.
Qed.

Lemma sum_z_cons (x : Z) (l : list Z) : Sqlite.sum_z (x :: l) = x + Sqlite.sum_z l.
Proof. reflexivity. Qed.

Lemma sum_z_add {A} (f g : A -> Z) (l : list A) :
  Sqlite.sum_z ((fun x => f x + g x) <$> l) =
    Sqlite.sum_z (f <$> l) + Sqlite.sum_z (g <$> l).
Proof.
  induction l as [|x l IH]; [done|]. rewrite !fmap_cons, !sum_z_cons, IH. lia.
Qed.

(** A value that is counted for one key of a list without duplicates is
    counted once. *)
Lemma sum_z_indicator {K} `{EqDecision K} (k0 : K) (v : Z) (ks : list K) :
  NoDup ks ->
  Sqlite.sum_z ((fun k => if decide (k0 = k) then v else 0) <$> ks) =
    if decide (k0 ∈ ks) then v else 0.
Proof.
  induction 1 as [|k ks Hk Hks IH]; [done|].
  rewrite fmap_cons, sum_z_cons, IH.
  destruct (decide (k0 = k)) as [->|Hne].
  - rewrite decide_False by done. rewrite decide_True by left. lia.
  - destruct (decide (k0 ∈ ks)) as [Hin|Hin].
    + rewrite decide_True by by right. lia.
    + rewrite decide_False; [lia|]. by intros [?|?]%elem_of_cons.
Qed.

(** Sums over the groups of a partition add up to the sum over all rows. *)
Lemma sum_z_partition {A K} `{EqDecision K} (key : A -> K) (w : A -> Z)
    (ks : list K) (rows : list A) :
  NoDup ks -> (forall r, r ∈ rows -> key r ∈ ks) ->
  Sqlite.sum_z ((fun k => Sqlite.sum_z (w <$> filter (fun r => key r = k) rows)) <$> ks) =
    Sqlite.sum_z (w <$> rows).
Proof.
  intros Hks. induction rows as [|x rows IH]; intros Hin.
  - clear Hks Hin. induction ks as [|k ks IH]; [done|].
    by rewrite fmap_cons, sum_z_cons, IH.
  - rewrite (fmap_cons w), sum_z_cons, <- IH by (intros r Hr; apply Hin; by right).
    assert (Hw : Sqlite.sum_z ((fun k => if decide (key x = k) then w x else 0) <$> ks)
                 = w x).
    { rewrite sum_z_indicator by done. rewrite decide_True; [done|]. apply Hin. left. }
    rewrite <- Hw at 1. rewrite <- sum_z_add. f_equal.
    apply fmap_ext_in. intros k _. rewrite filter_cons.
    destruct (decide (key x = k)); [by rewrite fmap_cons, sum_z_cons|lia].
Qed.

Lemma sum_z_ones {A} (l : list A) :
  Sqlite.sum_z ((fun _ => 1) <$> l) = Z.of_nat (length l).
Proof.
  induction l as [|x l IH]; [done|]. rewrite fmap_cons, sum_z_cons, IH.
  simpl length. lia.
Qed.

(** What [get_metrics_summary] returns about the responses when no token
    sum leaves the 64-bit range. *)
Lemma metrics_summary_run (db : Sqlite.Db) (rows : list Sqlite.Response)
    (start_date end_date : option string) :
  Sqlite.responses db = Some rows ->
  let within := filter (fun r => in_bounds start_date end_date r = true) rows in
  fits_int64 Sqlite.r_input_tokens within ->
  fits_int64 Sqlite.r_output_tokens within ->
  exists m,
    Metrics.get_metrics_summary db start_date end_date = Ok m /\
    Metrics.total_responses m = Z.of_nat (length within) /\
    Metrics.total_input_tokens m = column_sum Sqlite.r_input_tokens within /\
    Metrics.total_output_tokens m = column_sum Sqlite.r_output_tokens within /\
    Metrics.unique_models m = Sqlite.count_distinct (Sqlite.r_model <$> within).
Proof.
  intros Hrows within Hin Hout. unfold Metrics.get_metrics_summary.
  rewrite has_table_responses, Hrows. cbn [present negb]. cbv zeta.
  rewrite (select_totals_within db rows) by done. fold within.
  destruct (count_tables_run db) as (-> & -> & ->).
  pose proof (aggregate_run within) as Hagg.
  destruct (Sqlite.aggregate within) as [t|e]; [|destruct Hagg as [_ Hn]; tauto].
  subst t. simpl. eexists. split; [reflexivity|]. done.
Qed.

(** X22: the usage by model adds up to the summary.  When the limit is
    not below the number of distinct models within the date bounds, and no
    token sum leaves the 64-bit range, the usage listing has one entry for
    every such model, and its response counts and token sums add up to the
    totals that the summary gives for the same bounds. *)
Theorem model_usage_adds_up (db : Sqlite.Db) (rows : list Sqlite.Response)
    (start_date end_date : option string) (limit : Z) :
  Sqlite.responses db = Some rows ->
  let within := filter (fun r => in_bounds start_date end_date r = true) rows in
  Sqlite.count_distinct (Sqlite.r_model <$> within) <= limit < 2 ^ 63 ->
  fits_int64 Sqlite.r_input_tokens within ->
  fits_int64 Sqlite.r_output_tokens within ->
  exists usage m,
    Metrics.get_model_usage db start_date end_date limit = Ok usage /\
    Metrics.get_metrics_summary db start_date end_date = Ok m /\
    Z.of_nat (length usage) = Metrics.unique_models m /\
    Sqlite.sum_z (Metrics.response_count <$> usage) = Metrics.total_responses m /\
    Sqlite.sum_z (Metrics.input_tokens <$> usage) = Metrics.total_input_tokens m /\
    Sqlite.sum_z (Metrics.output_tokens <$> usage) = Metrics.total_output_tokens m.
Proof.
  intros Hrows within Hlimit Hfin Hfout.
  destruct (metrics_summary_run db rows start_date end_date Hrows Hfin Hfout)
    as (m & Hm & Htotal & Hin & Hout & Hmodels).
  assert (Hl : Sqlite.int64 limit = true).
  { apply int64_true. unfold Sqlite.count_distinct in Hlimit. lia. }
  rewrite (get_model_usage_run db rows) by done. fold within in Htotal, Hin, Hout, Hmodels |- *.
  eexists _, m. split; [reflexivity|]. split; [exact Hm|].
  rewrite Htotal, Hin, Hout, Hmodels. clear m Hm Htotal Hin Hout Hmodels.
  set (cmp := Sqlite.by_response_count_desc).
  set (groups := _ <$> Sqlite.group_by Sqlite.r_model String.leb within).
  unfold Sqlite.count_distinct in *.
  set (ks := remove_dups (Sqlite.r_model <$> within)) in *.
  assert (Hlen : length (Sqlite.order_by cmp groups) = length ks).
  { rewrite (Permutation_length (order_by_perm cmp groups)). unfold groups.
    rewrite length_fmap. unfold Sqlite.group_by. rewrite length_fmap.
    apply Permutation_length, order_by_perm. }
  assert (Hall : Sqlite.limit_offset limit 0 (Sqlite.order_by cmp groups) =
                 Sqlite.order_by cmp groups).
  { unfold Sqlite.limit_offset. rewrite drop_0.
    destruct (limit <? 0); [done|]. apply take_ge. lia. }
  rewrite Hall, length_fmap, Hlen. split; [done|].
  rewrite <- !list_fmap_compose.
  assert (Hsum : forall w : Sqlite.Response -> Z,
    Sqlite.sum_z ((fun k => Sqlite.sum_z (w <$> filter (fun r => Sqlite.r_model r = k)
                                                       within)) <$> ks) =
    Sqlite.sum_z (w <$> within)).
  { intros w. apply sum_z_partition; [apply NoDup_remove_dups|].
    intros r Hr. apply elem_of_remove_dups. by apply list_elem_of_fmap_2. }
  assert (Hgroups : forall f : Sqlite.model_totals -> Z,
    Sqlite.sum_z (f <$> Sqlite.order_by cmp groups) =
    Sqlite.sum_z ((fun k => f (totals_of_rows
                                 (k, filter (fun r => Sqlite.r_model r = k) within)))
                    <$> ks)).
  { intros f. apply sum_z_perm.
    rewrite (order_by_perm cmp). unfold groups, Sqlite.group_by.
    rewrite <- !list_fmap_compose. by rewrite (order_by_perm String.leb). }
  split; [|split].
  - rewrite Hgroups. simpl.
    rewrite <- (sum_z_ones within), <- (Hsum (fun _ => 1)).
    f_equal. apply fmap_ext_in. intros k _. by rewrite sum_z_ones.
  - rewrite Hgroups. simpl.
    rewrite column_sum_default, <- Hsum.
    f_equal. apply fmap_ext_in. intros k _. by rewrite column_sum_default.
  - rewrite Hgroups. simpl.
    rewrite column_sum_default, <- Hsum.
    f_equal. apply fmap_ext_in. intros k _. by rewrite column_sum_default.
Qed.

(** ** Time series *)














End Extras.


(** * The endpoints on example data *)

(** The examples run with the engine that reads every table in the order
    of its rows. *)
#[local] Existing Instance Sqlite.table_order.

(** ** Validation *)

Lemma validate_not_a_database_witness :
  example_fs !! "/home/me/notes.txt" = Some Database.OtherFile /\
  Database.validate example_fs "/home/me/notes.txt" =
    Raise (Sqlite3DatabaseError "file is not a database") /\
  Database.main example_fs "/home/me/notes.txt" =
    Database.Uncaught (Sqlite3DatabaseError "file is not a database").
Proof.
  split; [reflexivity|].
  destruct (validate_not_a_database example_fs "/home/me/notes.txt")
    as (Hraise & _ & Hmain); [reflexivity|].
  by split.
Defined.

Example validate_log_database :
  Database.validate example_fs "/home/me/logs.db" = Ok ().
Proof. reflexivity. Qed.

Example validate_other_database :
  raises_invalid (Database.validate example_fs "/home/me/other.db").
Proof. eexists. reflexivity. Qed.

Example validate_missing_file :
  raises_not_found (Database.validate example_fs "/home/me/none.db").
Proof. eexists. reflexivity. Qed.

(** ** Snippets *)

Example snippet_fits_window :
  Search.create_snippet Py.lower_ascii "The quick brown fox" "quick" 200 =
    "The quick brown fox".
Proof. reflexivity. Qed.

Example snippet_not_found_truncates :
  Search.create_snippet Py.lower_ascii "The quick brown fox" "xyz-not-present" 10 =
    "The quick ...".
Proof. reflexivity. Qed.

(** A negative [max_length] is a slice bound counted from the end. *)
Example snippet_negative_max_length :
  Search.create_snippet Py.lower_ascii "The quick brown fox" "xyz" (-4) =
    "The quick brown...".
Proof. reflexivity. Qed.

Lemma create_snippet_charwise_witness :
  snippet_as_specified (map_chars Py.ascii_lower) "The quick brown fox" "QUICK" 200.
Proof.
  destruct (create_snippet_charwise Py.ascii_lower "The quick brown fox" "QUICK" 200)
    as [Hspec _]; [done|lia|exact Hspec].
Defined.

(** With the lower-casing of ASCII the match of the example is where the
    claim C2 puts it. *)
Example snippet_ascii_as_specified :
  first_nocase Py.lower_ascii "QUICK" "The quick brown fox" 4 /\
  Search.create_snippet Py.lower_ascii "The quick brown fox" "QUICK" 200 =
    window_at "The quick brown fox" "QUICK" 4.
Proof.
  assert (H : first_nocase (map_chars Py.ascii_lower) "QUICK" "The quick brown fox" 4).
  { apply first_charwise, index_first. reflexivity. }
  split; [|reflexivity].
  destruct H as [(pre & m & post & H1 & H2 & H3) Hmin]. split.
  - exists pre, m, post. unfold same_lower in *.
    by rewrite !lower_ascii_map_chars.
  - intros j Hj (pre' & m' & post' & H1' & H2' & H3'). apply (Hmin j Hj).
    exists pre', m', post'. unfold same_lower in *.
    by rewrite <- !lower_ascii_map_chars.
Qed.

(** ** The listing of the responses *)

Lemma list_responses_page_and_total_witness :
  Responses.list_responses log_db 2 1 (Some "gpt-4") None (Some "2024") None =
    Ok {| Responses.items := [Responses.summary_of_row r1];
          Responses.total := 2; Responses.limit := 2; Responses.offset := 1 |}.
Proof.
  pose proof (list_responses_page_and_total log_db 2 1
                (Some "gpt-4") None (Some "2024") None ltac:(lia) ltac:(lia)) as H.
  change (1 <? 2 ^ 63) with true in H. cbv beta iota zeta in H.
  destruct H as (page & Hrun & _).
  rewrite Hrun. f_equal. injection Hrun as <-. reflexivity.
Defined.

(** Where the sentence of the specification fails: an offset of [2 ^ 63]
    is not negative, and the listing is left by the error of SQLite. *)
Lemma listing_as_specified_fails :
  ~ listing_as_specified log_db 50 (2 ^ 63) None None None None.
Proof.
  intros (page & Hrun & _).
  rewrite (list_responses_offset_out_of_range log_db [r1; r2; r3; r4]) in Hrun;
    [discriminate|reflexivity|lia].
Qed.

Example list_responses_offset_too_large :
  Responses.list_responses log_db 50 (2 ^ 63) None None None None =
    Raise (IntegrityError "datatype mismatch").
Proof. vm_compute. reflexivity. Qed.

(** ** The latency histogram *)

Lemma latency_distribution_buckets_witness :
  exists bs,
    Metrics.get_latency_distribution log_db (Some "2024-01-15") None = Ok bs /\
    length bs = 9%nat /\ bucket_total bs = 1.
Proof.
  pose proof (latency_distribution_buckets log_db (Some "2024-01-15") None) as H.
  change (Sqlite.responses log_db) with (Some [r1; r2; r3; r4]) in H.
  cbv beta iota zeta in H. destruct H as (bs & Hrun & Hbs & Hsum).
  exists bs. split; [exact Hrun|]. split; [by rewrite Hbs|].
  rewrite Hsum. reflexivity.
Defined.

(** Where the sentence of the specification fails: without a [responses]
    table there are no buckets at all, and a response with a negative
    duration is counted by none of the nine. *)
Lemma histogram_as_specified_fails :
  ~ histogram_as_specified empty_db None None /\ ~ histogram_as_specified skewed_db None None.
Proof.
  split; intros (bs & Hrun & Hlen & Hsum); injection Hrun as <-; discriminate.
Qed.

Example latency_of_log :
  Metrics.get_latency_distribution log_db None None =
    Ok [ {| Metrics.range := "0-100ms"; Metrics.count := 0 |};
         {| Metrics.range := "100-500ms"; Metrics.count := 1 |};
         {| Metrics.range := "500ms-1s"; Metrics.count := 0 |};
         {| Metrics.range := "1-2s"; Metrics.count := 0 |};
         {| Metrics.range := "2-5s"; Metrics.count := 1 |};
         {| Metrics.range := "5-10s"; Metrics.count := 0 |};
         {| Metrics.range := "10-30s"; Metrics.count := 0 |};
         {| Metrics.range := "30-60s"; Metrics.count := 0 |};
         {| Metrics.range := "60s+"; Metrics.count := 1 |} ].
Proof. reflexivity. Qed.

(** ** Aggregation under the date filter *)

Lemma aggregation_within_date_bounds_witness :
  Metrics.get_metrics_summary tool_db (Some "2025-01-01") None =
    Metrics.get_metrics_summary (with_responses [] tool_db) None None /\
  Metrics.get_responses_over_time strftime_prefix tool_db None (Some "2024-06") "day" =
    Ok [ {| Metrics.date := "2024-01-01"; Metrics.value := 1 |} ] /\
  Metrics.get_model_usage empty_db (Some "2025-01-01") None 20 = Ok [].
Proof.
  pose proof (aggregation_within_date_bounds strftime_prefix Z.add tool_db
                (Some "2025-01-01") None 20 "day") as H1.
  pose proof (aggregation_within_date_bounds strftime_prefix Z.add tool_db
                None (Some "2024-06") 20 "day") as H2.
  pose proof (aggregation_within_date_bounds strftime_prefix Z.add empty_db
                (Some "2025-01-01") None 20 "day") as H3.
  change (Sqlite.responses tool_db) with (Some [r1]) in H1, H2.
  change (Sqlite.responses empty_db) with (@None (list Sqlite.Response)) in H3.
  cbv beta iota zeta in H1, H2, H3.
  destruct H1 as (_ & Hsum & _). destruct H2 as (_ & _ & _ & _ & Hseries & _).
  destruct H3 as (_ & Husage & _).
  split; [exact Hsum|]. split; [|exact Husage].
  rewrite Hseries. reflexivity.
Defined.

(** Where the sentence of the specification fails: no response of
    [tool_db] lies in 2025 or later, and the summary for that period still
    counts its conversation, its tool call and its tool error. *)
Lemma summary_as_specified_fails :
  ~ summary_as_specified tool_db (Some "2025-01-01") None.
Proof.
  intros (m & Hrun & _ & Hconv & _). injection Hrun as <-. discriminate Hconv.
Qed.

Example summary_outside_bounds :
  Metrics.get_metrics_summary tool_db (Some "2025-01-01") None =
    Ok {| Metrics.total_responses := 0;
          Metrics.total_conversations := 1;
          Metrics.total_input_tokens := 0;
          Metrics.total_output_tokens := 0;
          Metrics.total_tokens := 0;
          Metrics.avg_duration_ms := None;
          Metrics.avg_input_tokens := None;
          Metrics.avg_output_tokens := None;
          Metrics.total_tool_calls := 1;
          Metrics.total_tool_errors := 1;
          Metrics.unique_models := 0 |}.
Proof. reflexivity. Qed.

Example summary_round_trip :
  exists m, Metrics.get_metrics_summary tool_db None None = Ok m /\
            Metrics.total_tokens m = 150.
Proof. eexists. split; reflexivity. Qed.

(** A token count near the end of the 64-bit range and one more response:
    the sum of the summary overflows, and the endpoint is left by the
    error of SQLite. *)
Example summary_overflows :
  Metrics.get_metrics_summary
    (with_responses
       [ row "big" "gpt-4" None None None None None (Some (2 ^ 63 - 1)) None; r1 ]
       empty_db) None None =
    Raise (OperationalError "integer overflow").
Proof. reflexivity. Qed.

(** ** Attachments *)

Lemma attachments_exclude_content_witness :
  content_changed png_db png_db' /\
  Responses.get_response_attachments png_db "r1" =
    Responses.get_response_attachments png_db' "r1".
Proof.
  assert (H : content_changed png_db png_db').
  { repeat (split; [reflexivity|]). simpl.
    repeat constructor; unfold same_but_content, attachment;
      by rewrite !delete_insert_eq. }
  split; [exact H|].
  apply (attachments_exclude_content png_db png_db' "r1"). exact H.
Defined.

Example attachments_listing :
  Responses.get_response_attachments png_db "r1" =
    Ok [ <["order" := Sqlite.Integer 0]>
           (<["type" := Sqlite.Text "image/png"]> (<["id" := Sqlite.Text "a1"]> ∅));
         <["order" := Sqlite.Integer 1]>
           (<["type" := Sqlite.Text "image/png"]> (<["id" := Sqlite.Text "a2"]> ∅)) ].
Proof. vm_compute. reflexivity. Qed.

(** ** Missing tables *)

Lemma search_without_responses_raises_witness :
  Sqlite.responses empty_db = None /\
  Sqlite.responses_fts empty_db = false /\
  Search.search Py.lower_ascii (fun _ _ => Ok 0) (fun _ _ _ => Ok []) empty_db "x" 50 0 =
    Raise (OperationalError "no such table: responses").
Proof.
  split; [reflexivity|]. split; [reflexivity|].
  by apply search_without_responses_raises.
Defined.

(** The detail of a response asks sqlite-utils for its rows, which yields
    none when the table is not there: the answer is the 404 of a response
    that does not exist. *)
Example get_response_without_table :
  Responses.get_response empty_db "r1" =
    Raise (HTTPException 404 "Response not found").
Proof. reflexivity. Qed.

(** ** Statement texts *)

Example list_responses_count_text :
  Responses.count_sql
    (Responses.build_query (Some "gpt-4") None None (Some "2024-12-31")).1 =
  "SELECT COUNT(*) FROM responses WHERE model = :model AND datetime_utc <= :end_date".
Proof. reflexivity. Qed.

Lemma fts_statement_text_depends_on_query_witness :
  "a" <> "b" /\
  fts_count_text "a" <> fts_count_text "b" /\
  fts_search_text "a" <> fts_search_text "b".
Proof.
  split; [done|]. by apply fts_statement_text_depends_on_query.
Defined.

(** A single quote of the query closes the SQL string literal it was
    written into. *)
Example fts_statement_text_quote :
  fts_count_text "x' OR 1=1 --" =
    Py.join Py.nl
      [ "";
        "        SELECT COUNT(*) FROM responses_fts";
        "        WHERE responses_fts MATCH '" +:+ Search.dquote +:+
          "x' OR 1=1 --" +:+ Search.dquote +:+ "'";
        "    " ].
Proof. reflexivity. Qed.

(** ** The LIKE pattern of the fallback search *)

Example search_like_percent_literal (lower : string -> string) :
  exists resp,
    Search._search_like lower log_db "50%" 50 0 = Ok resp /\
    Search.id <$> Search.results resp = ["r2"].
Proof. eexists. split; reflexivity. Qed.

Example search_like_underscore_literal (lower : string -> string) :
  exists resp,
    Search._search_like lower log_db "f_s" 50 0 = Ok resp /\
    Search.id <$> Search.results resp = ["r2"] /\
    Search.total resp = 1.
Proof. eexists. split; [reflexivity|]. split; reflexivity. Qed.

Example search_like_ignores_case (lower : string -> string) :
  exists resp,
    Search._search_like lower log_db "hello" 2 0 = Ok resp /\
    Search.id <$> Search.results resp = ["r3"; "r1"] /\
    Search.total resp = 3.
Proof. eexists. split; [reflexivity|]. split; reflexivity. Qed.

(** ** Tools and search *)

Example list_tools_counts :
  Tools.list_tools tool_db =
    Ok {| Tools.items :=
            [ {| Tools.id := 1; Tools.name := "grep"; Tools.description := None;
                 Tools.input_schema := None; Tools.plugin := None;
                 Tools.call_count := 1; Tools.result_count := 1;
                 Tools.error_count := 1 |} ];
          Tools.total := 1 |}.
Proof. reflexivity. Qed.

(** A failed indexed search falls back to the pattern search. *)
Example search_falls_back :
  exists resp,
    Search.search Py.lower_ascii (fun _ _ => Raise (OperationalError "fts5: syntax error"))
      (fun _ _ _ => Ok [])
      (with_responses [r1; r2; r3; r4]
         {| Sqlite.responses := None; Sqlite.conversations := None;
            Sqlite.tools := None; Sqlite.tool_calls := None;
            Sqlite.tool_results := None; Sqlite.prompt_attachments := None;
            Sqlite.attachments := None; Sqlite.responses_fts := true |})
      "WORLD" 50 0 = Ok resp /\
    Search.total resp = 1 /\
    Search.prompt_snippet <$> Search.results resp = [Some "Hello world"].
Proof. eexists. split; [reflexivity|]. split; reflexivity. Qed.


(** ** Pages *)


Lemma list_responses_page_size_witness :
  exists p,
    Responses.list_responses log_db 3 2 None None None None = Ok p /\
    Z.of_nat (length (Responses.items p)) =
      Z.min 3 (Z.max 0 (Responses.total p - 2)).
Proof.
  apply (list_responses_page_size log_db 3 2 None None None None); lia.
Defined.


(** ** Search *)





(** ** Page counts and the list page of the responses *)

Lemma total_pages_is_ceiling_witness :
  (forall ctx, ResponsesView.list_responses log_db 1 3 None = Ok ctx ->
     ResponsesView.total ctx <=
       ResponsesView.total_pages ctx * 3 < ResponsesView.total ctx + 3) /\
  (forall ctx, ConversationsView.list_conversations log_db 1 3 = Ok ctx ->
     ConversationsView.total ctx <=
       ConversationsView.total_pages ctx * 3 < ConversationsView.total ctx + 3) /\
  (forall ctx, SearchView.search_page Py.lower_ascii (fun _ _ => Ok 0)
                 (fun _ _ _ => Ok []) log_db (Some "hello") 1 3 = Ok ctx ->
     0 <= SearchView.total ctx ->
     SearchView.total ctx <=
       SearchView.total_pages ctx * 3 < SearchView.total ctx + 3).
Proof.
  apply (total_pages_is_ceiling Py.lower_ascii (fun _ _ => Ok 0) (fun _ _ _ => Ok [])
           log_db 1 3 None (Some "hello")). lia.
Defined.

Lemma responses_page_shows_api_items_witness :
  exists ctx resp,
    ResponsesView.list_responses log_db 2 3 (Some "gpt-4") = Ok ctx /\
    Responses.list_responses log_db 3 ((2 - 1) * 3) (Some "gpt-4") None None None
      = Ok resp /\
    Responses.summary_of_row <$> ResponsesView.responses ctx = Responses.items resp /\
    ResponsesView.total ctx = Responses.total resp /\
    ResponsesView.selected_model ctx = Some "gpt-4".
Proof.
  apply (responses_page_shows_api_items log_db 2 3 (Some "gpt-4")); reflexivity.
Defined.

Lemma responses_page_models_witness :
  exists ctx,
    ResponsesView.list_responses log_db 1 50 None = Ok ctx /\
    NoDup (ResponsesView.models ctx) /\
    StronglySorted (fun a b => String.leb a b = true) (ResponsesView.models ctx) /\
    forall m, m ∈ ResponsesView.models ctx <->
              m <> "" /\ exists r, r ∈ [r1; r2; r3; r4] /\ Sqlite.r_model r = m.
Proof.
  apply (responses_page_models log_db [r1; r2; r3; r4] 1 50 None); reflexivity.
Defined.

Lemma responses_page_filled_witness :
  exists ctx,
    ResponsesView.list_responses log_db 2 3 None = Ok ctx /\
    (ResponsesView.responses ctx <> [] <-> 2 <= ResponsesView.total_pages ctx) /\
    (2 < ResponsesView.total_pages ctx ->
     Z.of_nat (length (ResponsesView.responses ctx)) = 3).
Proof.
  apply (responses_page_filled log_db 2 3 None); lia.
Defined.


(** ** The detail of a response *)

Example get_response_unknown_id :
  Responses.get_response tool_db "r9" =
    Raise (HTTPException 404 "Response not found").
Proof. reflexivity. Qed.

Example get_response_with_tools :
  exists d,
    Responses.get_response tool_db "r1" = Ok d /\
    Responses.tcr_name <$> Responses.tool_calls d = ["grep"] /\
    Responses.trr_exception <$> Responses.tool_results d = [Some "boom"].
Proof. eexists. split; [reflexivity|]. split; reflexivity. Qed.

Example attachments_without_attachment_rows :
  Responses.get_response_attachments
    {| Sqlite.responses := Some [r1]; Sqlite.conversations := None;
       Sqlite.tools := None; Sqlite.tool_calls := None; Sqlite.tool_results := None;
       Sqlite.prompt_attachments := Sqlite.prompt_attachments png_db;
       Sqlite.attachments := None; Sqlite.responses_fts := false |} "r1" = Ok [].
Proof. reflexivity. Qed.


(** ** Tools *)

Lemma list_tools_statistics_witness :
  exists resp,
    Tools.list_tools tool_db = Ok resp /\
    Tools.total resp = 1.
Proof.
  destruct (list_tools_statistics tool_db (rows_of (Sqlite.tools tool_db)) eq_refl)
    as (resp & Hrun & Htotal & _).
  exists resp. split; [exact Hrun|exact Htotal].
Defined.

Lemma tool_calls_page_witness :
  exists page,
    Tools.get_tool_calls tool_db 1 50 0 = Ok page /\
    Tools.l_total page = 1 /\
    Z.of_nat (length (Tools.l_items page)) = 1.
Proof.
  assert (Hids : NoDup (Sqlite.r_id <$> [r1])) by apply NoDup_singleton.
  destruct (tool_calls_page tool_db (rows_of (Sqlite.tool_calls tool_db)) [r1] 1 50 0
              eq_refl eq_refl Hids eq_refl ltac:(lia) ltac:(lia))
    as (page & Hrun & Htotal & _ & _ & Hlen & _).
  exists page. split; [exact Hrun|]. split; [exact Htotal|].
  rewrite Hlen, Htotal. reflexivity.
Defined.

Lemma tool_results_errors_only_witness :
  exists page every,
    Tools.get_tool_results tool_db 1 50 0 true = Ok page /\
    Tools.get_tool_results tool_db 1 50 0 false = Ok every /\
    Tools.l_total page <= Tools.l_total every.
Proof.
  destruct (tool_results_errors_only tool_db (rows_of (Sqlite.tool_results tool_db))
              [r1] 1 50 0 true eq_refl eq_refl eq_refl ltac:(lia) eq_refl)
    as (page & every & Hpage & Hevery & _ & _ & Hle & _).
  exists page, every. split; [exact Hpage|]. split; [exact Hevery|exact Hle].
Defined.

(** ** The [responses] table behind the other tables *)

Lemma joins_need_responses_witness :
  Tools.get_tool_calls orphan_db 1 50 0 =
    Raise (OperationalError "no such table: responses").
Proof.
  pose proof (joins_need_responses orphan_db eq_refl) as (Hcalls & _).
  apply Hcalls. discriminate.
Defined.


(** ** Conversations *)

Lemma list_conversations_statistics_witness :
  exists resp,
    Conversations.list_conversations talk_db 2 1 = Ok resp /\
    Conversations.total resp = 3 /\
    Z.of_nat (length (Conversations.items resp)) = 2.
Proof.
  assert (Hids : NoDup (Sqlite.c_id <$> rows_of (Sqlite.conversations talk_db))).
  { compute_done. }
  destruct (list_conversations_statistics talk_db
              (rows_of (Sqlite.conversations talk_db)) [r1; r2; r3; r4] 2 1
              eq_refl eq_refl Hids ltac:(lia) ltac:(lia) eq_refl eq_refl)
    as (resp & Hrun & Htotal & Hlen & _).
  exists resp. split; [exact Hrun|]. split; [exact Htotal|].
  rewrite Hlen, Htotal. reflexivity.
Defined.

Example list_conversations_page :
  exists resp,
    Conversations.list_conversations talk_db 1 0 = Ok resp /\
    (fun s => (Conversations.id s, Conversations.response_count s,
               Conversations.total_input_tokens s)) <$> Conversations.items resp =
      [("c1", 2, 110)].
Proof. eexists. split; [vm_compute; reflexivity|reflexivity]. Qed.

Example get_conversation_unknown_id :
  Conversations.get_conversation talk_db "c9" =
    Raise (HTTPException 404 "Conversation not found").
Proof. vm_compute. reflexivity. Qed.

Example view_conversation_totals :
  exists ctx,
    ConversationsView.view_conversation talk_db "c1" = Ok ctx /\
    Sqlite.r_id <$> ConversationsView.responses ctx = ["r1"; "r2"] /\
    ConversationsView.total_input_tokens ctx = 110 /\
    ConversationsView.total_output_tokens ctx = 70 /\
    ConversationsView.total_duration_ms ctx = 2620.
Proof. eexists. split; [vm_compute; reflexivity|]. repeat split. Qed.


(** ** Usage by model *)

Lemma model_usage_entries_witness :
  exists usage,
    Metrics.get_model_usage log_db None None 1 = Ok usage /\
    Z.of_nat (length usage) <= 1.
Proof.
  destruct (model_usage_entries log_db [r1; r2; r3; r4] None None 1 eq_refl
              ltac:(lia) eq_refl eq_refl)
    as (usage & Hrun & Hlen & _).
  exists usage. split; [exact Hrun|exact Hlen].
Defined.

Lemma model_usage_adds_up_witness :
  exists usage m,
    Metrics.get_model_usage log_db None None 10 = Ok usage /\
    Metrics.get_metrics_summary log_db None None = Ok m /\
    Z.of_nat (length usage) = Metrics.unique_models m /\
    Sqlite.sum_z (Metrics.response_count <$> usage) = Metrics.total_responses m /\
    Sqlite.sum_z (Metrics.input_tokens <$> usage) = Metrics.total_input_tokens m /\
    Sqlite.sum_z (Metrics.output_tokens <$> usage) = Metrics.total_output_tokens m.
Proof.
  apply (model_usage_adds_up log_db [r1; r2; r3; r4] None None 10);
    [reflexivity| |reflexivity|reflexivity].
  split; [vm_compute; discriminate|lia].
Defined.


(** ** Time series *)


Example responses_per_day :
  Metrics.get_responses_over_time strftime_prefix log_db None None "day" =
    Ok [ {| Metrics.date := "2024-01-01"; Metrics.value := 1 |};
         {| Metrics.date := "2024-02-01"; Metrics.value := 1 |};
         {| Metrics.date := "2024-03-01"; Metrics.value := 1 |} ].
Proof. vm_compute. reflexivity. Qed.

Example tokens_per_day :
  Metrics.get_token_usage_over_time strftime_prefix Z.add log_db None None "day" =
    Ok [ {| Metrics.date := "2024-01-01"; Metrics.value := 150 |};
         {| Metrics.date := "2024-02-01"; Metrics.value := 30 |};
         {| Metrics.date := "2024-03-01"; Metrics.value := 0 |} ].
Proof. vm_compute. reflexivity. Qed.

